(** * syncstats: the statistics pipeline of [generate_stats.py]

    A shallow embedding of [GitHubStatsGenerator] (src/generate_stats.py) and
    the properties its specification states about it (C1 to C10), with
    further properties of the code itself (X1, X2, ...).

    Conventions of the embedding:
    - a Python [int] is a [Z]; a Python [str] is a [string];
    - a [dict] keyed by strings whose order is never observed is a
      [gmap string _]; a [Counter], whose insertion order decides
      [most_common], is an association list in insertion order;
    - a call that may raise returns a [result];
    - the HTTP server, the clock and the file system are explicit arguments. *)

From Stdlib Require Import ZArith Ascii String List Bool Lia.
From stdpp Require Import base option numbers list strings gmap fin_maps pretty.

Local Open Scope Z_scope.

(* ===================================================================== *)
(** * Python values and exceptions                                         *)
(* ===================================================================== *)

(** The double quote character, and a string holding just it. *)
Definition dq : string := String "034"%char EmptyString.

(** The exceptions the program can meet. *)
Inductive exn : Type :=
  | HTTPError (status : Z)        (* response.raise_for_status() *)
  | ValueError                    (* datetime.strptime on a malformed stamp *)
  | TypeError                     (* datetime.strptime on what is no string *)
  | IndexError                    (* l[0] on an empty list *)
  | KeyError (key : string)       (* d[key] on a missing key *)
  | Timeout                       (* requests.get(..., timeout=2) *)
  | ConnectionError.

Inductive result (A : Type) : Type :=
  | Ok (a : A)
  | Raised (e : exn).
Arguments Ok {A} a.
Arguments Raised {A} e.

(** Sequencing of calls that may raise, with the notation [x ← r; k]. *)
Global Instance result_ret : MRet result := λ A a, Ok a.
Global Instance result_bind : MBind result := λ A B k r,
  match r with
  | Ok a => k a
  | Raised e => Raised e
  end.

(** [str(n)] for an int. *)
Definition str_int (n : Z) : string := pretty n.

(** [s.startswith(p)] and [needle in hay] on strings. *)
Fixpoint str_prefix (p s : string) : bool :=
  match p, s with
  | EmptyString, _ => true
  | String a p, String b s => bool_decide (a = b) && str_prefix p s
  | String _ _, EmptyString => false
  end.

Fixpoint str_contains (needle hay : string) : bool :=
  str_prefix needle hay ||
  match hay with
  | EmptyString => false
  | String _ hay => str_contains needle hay
  end.

(* ===================================================================== *)
(** * The clock and [datetime]                                             *)
(* ===================================================================== *)

(** A [datetime] in UTC is the number of microseconds since the epoch;
    [timedelta(days=n)] is [n] days of microseconds. *)
Definition timedelta (days : Z) : Z := days * 86400000000.

(** The functions of Python's [datetime] module that the program calls, taken
    as given: parsing with the format [%Y-%m-%dT%H:%M:%SZ] ([None] when
    [strptime] raises [ValueError]), and formatting with [%Y-%m-%d], [%a] and
    [%B %d, %Y]. *)
Class Datetime : Type := {
  strptime : string → option Z;
  strftime_date : Z → string;
  strftime_a : Z → string;
  strftime_long : Z → string
}.

(* ===================================================================== *)
(** * HTTP responses                                                       *)
(* ===================================================================== *)

(** A response of [requests.get]: its status, its [Link] header when it has
    one, and its decoded body. *)
Record response (A : Type) : Type := {
  status_code : Z;
  link : option string;
  json : A
}.
Arguments status_code {A} _.
Arguments link {A} _.
Arguments json {A} _.

(** [response.raise_for_status()] raises on a 4xx or 5xx status. *)
Definition raise_for_status {A} (r : response A) : result unit :=
  if (400 <=? status_code r) && (status_code r <? 600)
  then Raised (HTTPError (status_code r))
  else Ok ().

(* ===================================================================== *)
(** * Events and [analyze_events]                                          *)
(* ===================================================================== *)

Record payload : Type := { action : option string }.

Record event : Type := {
  ev_type : string;               (* e["type"] *)
  created_at : string;            (* e["created_at"] *)
  ev_payload : option payload     (* e.get("payload") *)
}.

(** [s[:n]] on a string. *)
Fixpoint str_take (n : nat) (s : string) : string :=
  match n, s with
  | S n, String c s => String c (str_take n s)
  | _, _ => EmptyString
  end.

(** [sum(1 for e in events if p(e))] *)
Definition count_if {A} (p : A → bool) (l : list A) : Z :=
  fold_left (λ acc e, if p e then acc + 1 else acc) l 0.

Definition is_push (e : event) : bool :=
  bool_decide (ev_type e = "PushEvent").

(** [e["type"] == "PullRequestEvent" and
     e.get("payload", {}).get("action") == "opened"] *)
Definition is_pr_opened (e : event) : bool :=
  bool_decide (ev_type e = "PullRequestEvent") &&
  bool_decide (action (default {| action := None |} (ev_payload e)) = Some "opened").

Definition is_pr_review (e : event) : bool :=
  bool_decide (ev_type e = "PullRequestReviewEvent").

(** One turn of the loop of [analyze_events]:
    [daily_contributions[date] = daily_contributions.get(date, 0) + 1]. *)
Definition bump (dc : gmap string Z) (e : event) : gmap string Z :=
  let date := str_take 10 (created_at e) in
  <[date := default 0 (dc !! date) + 1]> dc.

Record activity : Type := {
  commits : Z;
  prs_opened : Z;
  pr_reviews : Z;
  daily_contributions : gmap string Z
}.

Definition analyze_events (events : list event) : activity :=
  {| commits := count_if is_push events;
     prs_opened := count_if is_pr_opened events;
     pr_reviews := count_if is_pr_review events;
     daily_contributions := fold_left bump events ∅ |}.

(** ** The events, as the further properties speak of them *)

(** The events that carry the date [date]: those whose [created_at[:10]] is
    [date]. *)
Definition on_date (date : string) (events : list event) : list event :=
  filter (λ e, str_take 10 (created_at e) = date) events.

(** An entry of a dict of counts: none for the count 0. *)
Definition counted (n : nat) : option Z :=
  match n with
  | O => None
  | _ => Some (Z.of_nat n)
  end.

(* ===================================================================== *)
(** * [get_user_events]                                                    *)
(* ===================================================================== *)

(** How a loop body ends: it runs to its end, or the function returns. *)
Inductive flow (A : Type) : Type :=
  | Fallthrough (a : A)
  | Returned (a : A).
Arguments Fallthrough {A} a.
Arguments Returned {A} a.

(** [for event in data], from the list [events] collected so far. *)
Fixpoint scan_page `{Datetime} (cutoff_date : Z) (data events : list event)
  : result (flow (list event)) :=
  match data with
  | [] => Ok (Fallthrough events)
  | ev :: data =>
      match strptime (created_at ev) with
      | None => Raised ValueError
      | Some event_date =>
          if event_date <? cutoff_date then Ok (Returned events)
          else scan_page cutoff_date data (events ++ [ev])
      end
  end.

(** [while page <= 10], with the pages requested so far, oldest first.
    [server page] is the answer to the request for [page]. The loop is given
    fuel; [None] means it ran out of it. *)
Fixpoint fetch_loop `{Datetime} (fuel : nat) (server : Z → response (list event))
    (cutoff_date page : Z) (events : list event) (fetched : list Z)
  : option (result (list event) * list Z) :=
  match fuel with
  | O => None
  | S fuel =>
      if page <=? 10 then
        let response := server page in
        let fetched := fetched ++ [page] in
        match raise_for_status response with
        | Raised e => Some (Raised e, fetched)
        | Ok _ =>
            match json response with
            | [] => Some (Ok events, fetched)                      (* break *)
            | data =>
                match scan_page cutoff_date data events with
                | Raised e => Some (Raised e, fetched)
                | Ok (Returned events) => Some (Ok events, fetched)
                | Ok (Fallthrough events) =>
                    fetch_loop fuel server cutoff_date (page + 1) events fetched
                end
            end
        end
      else Some (Ok events, fetched)
  end.

(** [get_user_events(days)], called at the instant [now]: the events, or the
    exception, with the pages requested. The loop is given eleven rounds of
    fuel, for the ten pages and the test that ends it. *)
Definition get_user_events `{Datetime} (now days : Z)
    (server : Z → response (list event))
  : option (result (list event) * list Z) :=
  let cutoff_date := now - timedelta days in
  fetch_loop 11 server cutoff_date 1 [] [].

(** ** The event feed, as the specification speaks of it *)

(** The events of [n] pages from [page] on, up to the first empty page, each
    with the number of its page. *)
Fixpoint feed_from (n : nat) (server : Z → response (list event)) (page : Z)
  : list (Z * event) :=
  match n with
  | O => []
  | S n =>
      match json (server page) with
      | [] => []
      | data => ((λ e, (page, e)) <$> data) ++ feed_from n server (page + 1)
      end
  end.

(** The feed the fetch can see: ten pages from page 1. *)
Definition feed (server : Z → response (list event)) : list (Z * event) :=
  feed_from 10 server 1.

(** An event strictly older than the cutoff. *)
Definition older `{Datetime} (cutoff_date : Z) (e : event) : Prop :=
  ∃ event_date, strptime (created_at e) = Some event_date
                ∧ event_date < cutoff_date.

(** An event at the cutoff or newer. *)
Definition recent `{Datetime} (cutoff_date : Z) (e : event) : Prop :=
  ∃ event_date, strptime (created_at e) = Some event_date
                ∧ cutoff_date ≤ event_date.

(** Every page from [lo] to [hi] is served without an error status. *)
Definition served {A} (server : Z → response A) (lo hi : Z) : Prop :=
  ∀ q, lo ≤ q ≤ hi → raise_for_status (server q) = Ok ().

(** A page answered without an error status, that holds events, all of them
    at the cutoff or newer: a page the fetch reads through. *)
Definition read_through `{Datetime} (cutoff_date : Z)
    (server : Z → response (list event)) (q : Z) : Prop :=
  raise_for_status (server q) = Ok ()
  ∧ json (server q) ≠ []
  ∧ Forall (recent cutoff_date) (json (server q)).

(* ===================================================================== *)
(** * [get_starred_count] and its siblings                                 *)
(* ===================================================================== *)

(** [\d] on a header: a header is a string of bytes, among which the decimal
    digits are 0 to 9. *)
Definition is_digit (c : ascii) : bool :=
  match Ascii.is_nat c with
  | Some _ => true
  | None => false
  end.

Fixpoint all_digits (s : string) : bool :=
  match s with
  | EmptyString => true
  | String c s => is_digit c && all_digits s
  end.

(** The longest run of digits at the head of [s] and what follows it: what
    the greedy [\d+] takes. Giving a digit back never helps the match, since
    the pattern goes on with [>]. *)
Fixpoint span_digits (s : string) : string * string :=
  match s with
  | String c s' =>
      if is_digit c then
        let '(ds, rest) := span_digits s' in (String c ds, rest)
      else (EmptyString, s)
  | EmptyString => (EmptyString, EmptyString)
  end.

(** [s] without its prefix [p], when it has it. *)
Fixpoint strip_prefix (p s : string) : option string :=
  match p, s with
  | EmptyString, _ => Some s
  | String a p, String b s => if decide (a = b) then strip_prefix p s else None
  | String _ _, EmptyString => None
  end.

(** The end of the pattern: [>; rel="last"]. *)
Definition last_tail : string := ">; rel=" +:+ dq +:+ "last" +:+ dq.

(** The pattern [page=(\d+)>; rel="last"] matched at the head of [s]: its
    group. *)
Definition match_last_here (s : string) : option string :=
  rest ← strip_prefix "page=" s;
  let '(ds, rest) := span_digits rest in
  if negb (bool_decide (ds = "")) && str_prefix last_tail rest
  then Some ds else None.

(** [re.search(r'page=(\d+)>; rel="last"', s)]: the group of the leftmost
    match. *)
Fixpoint re_search_last (s : string) : option string :=
  match match_last_here s with
  | Some ds => Some ds
  | None =>
      match s with
      | String _ s' => re_search_last s'
      | EmptyString => None
      end
  end.

(** [int(ds)] on a string of digits, from the most significant one. *)
Fixpoint int_of_digits_from (acc : Z) (ds : string) : Z :=
  match ds with
  | EmptyString => acc
  | String c ds =>
      int_of_digits_from
        (10 * acc + Z.of_nat (default 0%nat (Ascii.is_nat c))) ds
  end.

Definition int_of_digits (ds : string) : Z := int_of_digits_from 0 ds.

(** What the three counting functions do with the response to their one
    request with [per_page=1]. *)
Definition count_from_response {A} (response : response (list A)) : result Z :=
  _ ← raise_for_status response;
  let link_header := default "" (link response) in
  if str_contains "last" link_header then
    match re_search_last link_header with
    | Some ds => Ok (int_of_digits ds)
    | None => Ok (Z.of_nat (length (json response)))
    end
  else Ok (Z.of_nat (length (json response))).

Definition get_starred_count {A} (response : response (list A)) : result Z :=
  count_from_response response.

Definition get_watching_count {A} (response : response (list A)) : result Z :=
  count_from_response response.

Definition get_gists_count {A} (response : response (list A)) : result Z :=
  count_from_response response.

(** ** The header, as the specification speaks of it *)

(** A header in which [page=ds>; rel="last"] stands after [pre]. *)
Definition last_link (pre ds post : string) : string :=
  pre +:+ "page=" +:+ ds +:+ last_tail +:+ post.

(** A page number as the pattern wants it: one digit or more. *)
Definition page_number (ds : string) : Prop :=
  ds ≠ "" ∧ all_digits ds = true.

(** The header advertises the last page [ds], and no match of the pattern
    starts further left. *)
Definition advertises (header ds : string) : Prop :=
  ∃ pre post,
    header = last_link pre ds post ∧ page_number ds
    ∧ ∀ pre' ds' post',
        header = last_link pre' ds' post' → page_number ds' →
        (String.length pre ≤ String.length pre')%nat.

(** The header holds no match of the pattern at all. *)
Definition malformed (header : string) : Prop :=
  ∀ pre ds post, header = last_link pre ds post → ¬ page_number ds.

(* ===================================================================== *)
(** * Repositories and [analyze_repos]                                     *)
(* ===================================================================== *)

(** The [license] object of a repository, when it is a non-empty dict:
    [key] is what [.get("key")] gives, [None] when the key is missing. *)
Record license_info : Type := { key : option string }.

(** The fields of a repository record that the program reads. [None] in a
    count stands for a missing key, [None] in [repo_license] for a missing,
    null or empty license (all of them falsy), [None] in [releases_url] for
    a missing key. *)
Record repo : Type := {
  repo_license : option license_info;
  stargazers_count : option Z;
  forks_count : option Z;
  watchers_count : option Z;
  size : option Z;
  releases_url : option string
}.

(** ** [collections.Counter] *)

(** A counter keeps its keys in the order of their first insertion. *)
Definition counter (K : Type) : Type := list (K * Z).

(** [c[k] = c.get(k, 0) + 1] *)
Fixpoint counter_incr {K} `{EqDecision K} (k : K) (c : counter K) : counter K :=
  match c with
  | [] => [(k, 1)]
  | (k', n) :: c' =>
      if decide (k = k') then (k', n + 1) :: c'
      else (k', n) :: counter_incr k c'
  end.

(** [Counter(iterable)] *)
Definition Counter {K} `{EqDecision K} (l : list K) : counter K :=
  fold_left (λ c k, counter_incr k c) l [].

(** [max(items, key=itemgetter(1))] from a first candidate: a later item
    replaces the candidate only when its count is strictly greater. *)
Fixpoint max_by_count {K} (best : K * Z) (items : list (K * Z)) : K * Z :=
  match items with
  | [] => best
  | x :: items =>
      if x.2 >? best.2 then max_by_count x items else max_by_count best items
  end.

(** [c.most_common(1)], which is [heapq.nlargest(1, c.items(), key=count)]. *)
Definition most_common_1 {K} (c : counter K) : list (K * Z) :=
  match c with
  | [] => []
  | x :: items => [max_by_count x items]
  end.

(** ** The releases probe *)

(** What one [requests.get(url, timeout=2)] of the probe comes to: an
    exception (a timeout, a refused connection), or a response with its
    status code and the length of its decoded body, [None] when [.json()]
    or [len] raises on it. *)
Inductive probe_outcome : Type :=
  | ProbeRaised (e : exn)
  | ProbeResponse (status : Z) (body_len : option Z).

(** The server as the probe sees it: the answer to the [i]-th request of the
    run of [analyze_repos] (counted from 0), sent to [url]. *)
Definition probe_server : Type := nat → string → probe_outcome.

(** [s.replace("{/id}", "")] *)
Fixpoint strip_id_template (s : string) : string :=
  match s with
  | String "{" (String "/" (String "i" (String "d" (String "}" rest)))) =>
      strip_id_template rest
  | String c rest => String c (strip_id_template rest)
  | EmptyString => EmptyString
  end.

(** The state of the probing loop: the running count and the requests sent
    so far, oldest first. *)
Record probe_state : Type := {
  releases_count : Z;
  requested : list string
}.

(** [repo["releases_url"].replace("{/id}", "")], the first thing the [try]
    evaluates. *)
Definition releases_request (r : repo) : result string :=
  match releases_url r with
  | Some u => Ok (strip_id_template u)
  | None => Raised (KeyError "releases_url")
  end.

(** The body of the [try], sent as the [i]-th request: what it adds to
    [releases_count], or the exception it raises. *)
Definition probe_try (srv : probe_server) (i : nat) (r : repo) : result Z :=
  url ← releases_request r;
  match srv i url with
  | ProbeRaised e => Raised e
  | ProbeResponse status body =>
      if status =? 200 then
        match body with
        | Some n => Ok n
        | None => Raised ValueError
        end
      else Ok 0
  end.

(** One turn of [for repo in repos[:10]]: the [try] with its
    [except: pass]. *)
Definition probe_repo (srv : probe_server) (st : probe_state) (r : repo)
  : probe_state :=
  let sent := match releases_request r with
              | Ok url => [url]
              | Raised _ => []
              end in
  let count := match probe_try srv (length (requested st)) r with
               | Ok n => releases_count st + n
               | Raised _ => releases_count st           (* except: pass *)
               end in
  {| releases_count := count; requested := requested st ++ sent |}.

(** What the specification lets one outcome of the probe add to the release
    total. *)
Definition contribution (o : probe_outcome) : Z :=
  match o with
  | ProbeRaised _ => 0
  | ProbeResponse status body => if status =? 200 then default 0 body else 0
  end.

(** The urls of the repositories that have one, as the probe sends them. *)
Definition release_urls (repos : list repo) : list string :=
  omap (λ r, strip_id_template <$> releases_url r) repos.

(** The sum of a list of integers. *)
Definition sum_list_Z (l : list Z) : Z := foldr Z.add 0 l.

(** [sum(r.get(field, 0) for r in repos)] *)
Definition sum_field (field : repo → option Z) (repos : list repo) : Z :=
  fold_left (λ acc r, acc + default 0 (field r)) repos 0.

(** [[r.get("license", {}).get("key") for r in repos if r.get("license")]] *)
Definition license_keys (repos : list repo) : list (option string) :=
  omap (λ r, key <$> repo_license r) repos.

(** The dict [analyze_repos] returns. [license] is a Python value: a string,
    or [None] when the winning license object has no key. *)
Record repo_stats : Type := {
  license : option string;
  releases : Z;
  packages : Z;
  disk_usage : Z;
  total_stars : Z;
  total_forks : Z;
  total_watchers : Z
}.

(** [Counter(licenses).most_common(1)[0][0] if licenses else "None"] *)
Definition most_common_license (licenses : list (option string))
  : result (option string) :=
  match licenses with
  | [] => Ok (Some "None")
  | _ =>
      match most_common_1 (Counter licenses) with
      | (k, _) :: _ => Ok k
      | [] => Raised IndexError
      end
  end.

(** [analyze_repos]: the dict it returns with the requests its probe sent,
    or the exception it raises. *)
Definition analyze_repos (srv : probe_server) (repos : list repo)
  : result (repo_stats * list string) :=
  let licenses := license_keys repos in
  most_common ← most_common_license licenses;
  let total_stars := sum_field stargazers_count repos in
  let total_forks := sum_field forks_count repos in
  let total_watchers := sum_field watchers_count repos in
  let total_size := sum_field size repos in
  let packages_count := 0 in
  let st := fold_left (probe_repo srv) (take 10 repos)
              {| releases_count := 0; requested := [] |} in
  Ok ({| license := most_common;
         releases := releases_count st;
         packages := packages_count;
         disk_usage := total_size;
         total_stars := total_stars;
         total_forks := total_forks;
         total_watchers := total_watchers |},
      requested st).

(** ** Frequencies, as the specification speaks of them *)

(** How often [k] occurs in [l]. *)
Definition occurrences {K} `{EqDecision K} (k : K) (l : list K) : Z :=
  Z.of_nat (length (filter (k =.) l)).

(** [c[k]], 0 for a key the counter does not hold. *)
Fixpoint counter_get {K} `{EqDecision K} (k : K) (c : counter K) : Z :=
  match c with
  | [] => 0
  | (k', n) :: c' => if decide (k = k') then n else counter_get k c'
  end.

(* ===================================================================== *)
(** * [generate_contribution_calendar]                                     *)
(* ===================================================================== *)

(** The color of a day of the calendar, by its count. *)
Definition color_of (count : Z) : string :=
  if count =? 0 then "#ebedf0"
  else if count <=? 3 then "#9be9a8"
  else if count <=? 6 then "#40c463"
  else if count <=? 9 then "#30a14e"
  else "#216e39".

(** One cell of the table. *)
Definition calendar_cell (color day_name : string) : string :=
  "<td align='center' style='padding: 5px;'><div style='background-color: "
  +:+ color
  +:+ "; width: 30px; height: 30px; border-radius: 3px;'></div><small>"
  +:+ day_name +:+ "</small></td>".

(** [generate_contribution_calendar(daily_contributions)], run at the
    instant [now]. *)
Definition generate_contribution_calendar `{Datetime} (now : Z)
    (daily_contributions : gmap string Z) : string :=
  let today := now in
  let calendar := "<table><tr>" in
  let calendar :=
    fold_left (λ calendar i,
      let date := strftime_date (today - timedelta i) in
      let count := default 0 (daily_contributions !! date) in
      let color := color_of count in
      let day_name := strftime_a (today - timedelta i) in
      calendar +:+ calendar_cell color day_name)
      [6; 5; 4; 3; 2; 1; 0] calendar in
  calendar +:+ "</tr></table>".

(* ===================================================================== *)
(** * [generate_contribution_summary]                                      *)
(* ===================================================================== *)

(** [sum(d.values())] *)
Definition sum_values (d : gmap string Z) : Z :=
  map_fold (λ _ v acc, acc + v) 0 d.

Definition generate_contribution_summary (dc : gmap string Z) : string :=
  let total := sum_values dc in
  if total =? 0 then "No contributions in the last 7 days"
  else if total <=? 5 then
    str_int total +:+ " contributions - Light activity this week"
  else if total <=? 15 then
    str_int total +:+ " contributions - Moderate activity this week"
  else
    str_int total +:+ " contributions - High activity this week".

(* ===================================================================== *)
(** * The renderer: [generate_profile_section]                             *)
(* ===================================================================== *)

(** ** Values and configuration *)

(** The values of a decoded JSON object that the renderer formats. *)
Inductive pyval : Type :=
  | PyNone
  | PyBool (b : bool)
  | PyInt (n : Z)
  | PyStr (s : string).

(** [str(v)], as an f-string formats it. *)
Definition py_str (v : pyval) : string :=
  match v with
  | PyNone => "None"
  | PyBool true => "True"
  | PyBool false => "False"
  | PyInt n => str_int n
  | PyStr s => s
  end.

(** The truth value of [v]. *)
Definition truthy (v : pyval) : bool :=
  match v with
  | PyNone => false
  | PyBool b => b
  | PyInt n => negb (n =? 0)
  | PyStr s => negb (bool_decide (s = ""))
  end.

(** [f"{kilobytes / 1024:.2f}"], taken as given: the formatting of a float
    with two decimals. *)
Class FloatFormat : Type := {
  format_mb : Z → string
}.

(** [cfg.get(section, {}).get(key, True)] on the display configuration, a
    mapping of section names to mappings of field names to booleans. *)
Definition cfg_get (cfg : gmap string (gmap string bool))
    (section key : string) : bool :=
  default true (default ∅ (cfg !! section) !! key).

(** [_default_config()]: every field of every section enabled. *)
Definition default_config : gmap string (gmap string bool) :=
  {[ "profile" := {[ "name" := true; "joined_date" := true;
                     "followers" := true; "available_for_hire" := true ]};
     "calendar" := {[ "enabled" := true ]};
     "activity_stats" := {[ "commits" := true; "pr_reviews" := true;
                            "prs_opened" := true; "issues_open" := true;
                            "issue_comments" := true ]};
     "community_stats" := {[ "organizations" := true; "following" := true;
                             "starred" := true; "watching" := true ]};
     "repository_stats" := {[ "total_repos" := true; "license" := true;
                              "releases" := true; "packages" := true;
                              "disk_usage" := true ]};
     "metadata" := {[ "stargazers" := true; "forkers" := true;
                      "watchers" := true ]} ]}.

(** [any(l)] *)
Fixpoint any (l : list bool) : bool :=
  match l with
  | [] => false
  | b :: l => b || any l
  end.

(** The statistics handed to the renderer: the dict [stats] of
    [generate_stats]. *)
Record activity_counts : Type := {
  act_commits : Z;
  act_pr_reviews : Z;
  act_prs_opened : Z
}.

Record issue_counts : Type := {
  issues_open : Z;
  issues_comments : Z
}.

Record community_counts : Type := {
  comm_orgs : Z;
  comm_starred : Z;
  comm_watching : Z
}.

Record snapshot : Type := {
  s_activity : activity_counts;
  s_issues : issue_counts;
  s_community : community_counts;
  s_repos : repo_stats;
  s_daily_contributions : gmap string Z;
  s_summary : string
}.

(** The dict [stats] that [generate_stats] builds from what it fetched and
    analyzed. *)
Definition assemble_stats {A} (repo_stats : repo_stats)
    (activity_stats : activity) (orgs : list A)
    (starred watching open_issues issue_comments : Z) : snapshot :=
  {| s_activity := {| act_commits := commits activity_stats;
                      act_pr_reviews := pr_reviews activity_stats;
                      act_prs_opened := prs_opened activity_stats |};
     s_issues := {| issues_open := open_issues;
                    issues_comments := issue_comments |};
     s_community := {| comm_orgs := Z.of_nat (length orgs);
                       comm_starred := starred;
                       comm_watching := watching |};
     s_repos := repo_stats;
     s_daily_contributions := daily_contributions activity_stats;
     s_summary :=
       generate_contribution_summary (daily_contributions activity_stats) |}.

(** ** The text of the pieces *)

(** The markup is full of double quotes; it is written here with a backquote
    in the place of each, which [quoted] puts back. A line break inside a
    literal is a line feed of the text. *)
Fixpoint quoted (s : string) : string :=
  match s with
  | String "`" s => String "034" (quoted s)
  | String c s => String c (quoted s)
  | EmptyString => EmptyString
  end.

Definition svg_prelude : string :=
  quoted "<svg width=`900` height=`450` xmlns=`http://www.w3.org/2000/svg`>
  <defs>

    <g id=`calendar-icon`>
      <rect x=`0` y=`1.5` width=`10.5` height=`9` rx=`1.5` fill=`none` stroke=`#c9d1d9` stroke-width=`1`/>
      <line x1=`2.25` y1=`0` x2=`2.25` y2=`3` stroke=`#c9d1d9` stroke-width=`1`/>
      <line x1=`8.25` y1=`0` x2=`8.25` y2=`3` stroke=`#c9d1d9` stroke-width=`1`/>
      <line x1=`0` y1=`4.5` x2=`10.5` y2=`4.5` stroke=`#c9d1d9` stroke-width=`1`/>
    </g>
    <g id=`users-icon`>
      <circle cx=`3.75` cy=`3` r=`2.25` fill=`none` stroke=`#c9d1d9` stroke-width=`1`/>
      <path d=`M0,10.5 Q0,7.5 3.75,7.5 Q7.5,7.5 7.5,10.5` fill=`none` stroke=`#c9d1d9` stroke-width=`1`/>
      <circle cx=`8.25` cy=`3.75` r=`1.5` fill=`none` stroke=`#c9d1d9` stroke-width=`1`/>
      <path d=`M7.5,10.5 Q7.5,8.25 9.75,8.25 Q12,8.25 12,10.5` fill=`none` stroke=`#c9d1d9` stroke-width=`1`/>
    </g>
    <g id=`briefcase-icon`>
      <rect x=`0.75` y=`3.75` width=`10.5` height=`6.75` rx=`1.5` fill=`none` stroke=`#c9d1d9` stroke-width=`1`/>
      <path d=`M3.75,3.75 L3.75,2.25 Q3.75,1.5 4.5,1.5 L7.5,1.5 Q8.25,1.5 8.25,2.25 L8.25,3.75` fill=`none` stroke=`#c9d1d9` stroke-width=`1`/>
    </g>
    <g id=`activity-icon`>
      <polyline points=`0,6 3,6 4.5,1.5 7.5,10.5 9,6 12,6` fill=`none` stroke=`#c9d1d9` stroke-width=`1.5`/>
    </g>
    <g id=`zap-icon`>
      <polygon points=`6,0 1.5,6.75 6,6.75 4.5,12 10.5,5.25 6,5.25` fill=`none` stroke=`#c9d1d9` stroke-width=`1`/>
    </g>
    <g id=`building-icon`>
      <rect x=`1.5` y=`1.5` width=`9` height=`9` fill=`none` stroke=`#c9d1d9` stroke-width=`1`/>
      <rect x=`3.75` y=`3.75` width=`1.5` height=`1.5` fill=`#c9d1d9`/>
      <rect x=`6.75` y=`3.75` width=`1.5` height=`1.5` fill=`#c9d1d9`/>
      <rect x=`3.75` y=`6.75` width=`1.5` height=`1.5` fill=`#c9d1d9`/>
      <rect x=`6.75` y=`6.75` width=`1.5` height=`1.5` fill=`#c9d1d9`/>
    </g>
    <g id=`folder-icon`>
      <path d=`M1.5,2.25 L4.5,2.25 L6,3.75 L10.5,3.75 L10.5,9.75 L1.5,9.75 Z` fill=`none` stroke=`#c9d1d9` stroke-width=`1`/>
    </g>
    <g id=`star-icon`>
      <polygon points=`6,0.75 7.5,4.5 11.25,4.5 8.25,6.75 9.75,10.5 6,8.25 2.25,10.5 3.75,6.75 0.75,4.5 4.5,4.5` fill=`none` stroke=`#c9d1d9` stroke-width=`1`/>
    </g>
    <g id=`git-commit-icon`>
      <circle cx=`6` cy=`6` r=`2.25` fill=`none` stroke=`#c9d1d9` stroke-width=`1`/>
      <line x1=`0` y1=`6` x2=`3.75` y2=`6` stroke=`#c9d1d9` stroke-width=`1`/>
      <line x1=`8.25` y1=`6` x2=`12` y2=`6` stroke=`#c9d1d9` stroke-width=`1`/>
    </g>
    <g id=`eye-icon`>
      <ellipse cx=`6` cy=`6` rx=`5.25` ry=`3` fill=`none` stroke=`#c9d1d9` stroke-width=`1`/>
      <circle cx=`6` cy=`6` r=`1.5` fill=`#c9d1d9`/>
    </g>
    <g id=`git-pr-icon`>
      <circle cx=`2.25` cy=`2.25` r=`1.5` fill=`none` stroke=`#c9d1d9` stroke-width=`1`/>
      <circle cx=`2.25` cy=`9.75` r=`1.5` fill=`none` stroke=`#c9d1d9` stroke-width=`1`/>
      <circle cx=`9.75` cy=`6` r=`1.5` fill=`none` stroke=`#c9d1d9` stroke-width=`1`/>
      <line x1=`2.25` y1=`3.75` x2=`2.25` y2=`8.25` stroke=`#c9d1d9` stroke-width=`1`/>
      <path d=`M8.25,6 L6,6 L6,2.25 L2.25,2.25` fill=`none` stroke=`#c9d1d9` stroke-width=`1`/>
    </g>
    <g id=`alert-icon`>
      <circle cx=`6` cy=`6` r=`5.25` fill=`none` stroke=`#c9d1d9` stroke-width=`1`/>
      <line x1=`6` y1=`3` x2=`6` y2=`6.75` stroke=`#c9d1d9` stroke-width=`1`/>
      <circle cx=`6` cy=`9` r=`0.375` fill=`#c9d1d9`/>
    </g>
    <g id=`message-icon`>
      <rect x=`0.75` y=`2.25` width=`10.5` height=`7.5` rx=`1.5` fill=`none` stroke=`#c9d1d9` stroke-width=`1`/>
      <polyline points=`0.75,2.25 6,6 11.25,2.25` fill=`none` stroke=`#c9d1d9` stroke-width=`1`/>
    </g>
    <g id=`user-plus-icon`>
      <circle cx=`4.5` cy=`3.75` r=`2.25` fill=`none` stroke=`#c9d1d9` stroke-width=`1`/>
      <path d=`M0,10.5 Q0,7.5 4.5,7.5 Q9,7.5 9,10.5` fill=`none` stroke=`#c9d1d9` stroke-width=`1`/>
      <line x1=`9.75` y1=`3.75` x2=`12` y2=`3.75` stroke=`#c9d1d9` stroke-width=`1`/>
      <line x1=`10.875` y1=`2.625` x2=`10.875` y2=`4.875` stroke=`#c9d1d9` stroke-width=`1`/>
    </g>
    <g id=`star-outline-icon`>
      <polygon points=`6,0.75 7.5,4.5 11.25,4.5 8.25,6.75 9.75,10.5 6,8.25 2.25,10.5 3.75,6.75 0.75,4.5 4.5,4.5` fill=`none` stroke=`#c9d1d9` stroke-width=`1`/>
    </g>
    <g id=`scale-icon`>
      <line x1=`6` y1=`1.5` x2=`6` y2=`10.5` stroke=`#c9d1d9` stroke-width=`1`/>
      <path d=`M1.5,4.5 L6,1.5 L10.5,4.5` fill=`none` stroke=`#c9d1d9` stroke-width=`1`/>
      <path d=`M1.5,4.5 L1.5,6 L4.5,6 L4.5,4.5` fill=`none` stroke=`#c9d1d9` stroke-width=`1`/>
      <path d=`M7.5,4.5 L7.5,6 L10.5,6 L10.5,4.5` fill=`none` stroke=`#c9d1d9` stroke-width=`1`/>
    </g>
    <g id=`rocket-icon`>
      <path d=`M6,1.5 Q9,1.5 10.5,4.5 L10.5,7.5 L9,9 L7.5,7.5 L4.5,7.5 L3,9 L1.5,7.5 L1.5,4.5 Q3,1.5 6,1.5` fill=`none` stroke=`#c9d1d9` stroke-width=`1`/>
      <circle cx=`6.75` cy=`4.5` r=`0.75` fill=`#c9d1d9`/>
      <path d=`M4.5,7.5 L3,10.5 L4.5,9` fill=`none` stroke=`#c9d1d9` stroke-width=`1`/>
      <path d=`M7.5,7.5 L9,10.5 L7.5,9` fill=`none` stroke=`#c9d1d9` stroke-width=`1`/>
    </g>
    <g id=`package-icon`>
      <path d=`M1.5,3 L6,0.75 L10.5,3 L10.5,9 L6,11.25 L1.5,9 Z` fill=`none` stroke=`#c9d1d9` stroke-width=`1`/>
      <polyline points=`1.5,3 6,5.25 10.5,3` fill=`none` stroke=`#c9d1d9` stroke-width=`1`/>
      <line x1=`6` y1=`5.25` x2=`6` y2=`11.25` stroke=`#c9d1d9` stroke-width=`1`/>
    </g>
    <g id=`database-icon`>
      <ellipse cx=`6` cy=`2.25` rx=`4.5` ry=`1.5` fill=`none` stroke=`#c9d1d9` stroke-width=`1`/>
      <path d=`M1.5,2.25 L1.5,9.75 Q1.5,11.25 6,11.25 Q10.5,11.25 10.5,9.75 L10.5,2.25` fill=`none` stroke=`#c9d1d9` stroke-width=`1`/>
      <ellipse cx=`6` cy=`6` rx=`4.5` ry=`1.5` fill=`none` stroke=`#c9d1d9` stroke-width=`1`/>
    </g>
    <g id=`fork-icon`>
      <circle cx=`6` cy=`1.5` r=`1.5` fill=`none` stroke=`#c9d1d9` stroke-width=`1`/>
      <circle cx=`2.25` cy=`10.5` r=`1.5` fill=`none` stroke=`#c9d1d9` stroke-width=`1`/>
      <circle cx=`9.75` cy=`10.5` r=`1.5` fill=`none` stroke=`#c9d1d9` stroke-width=`1`/>
      <path d=`M6,3 L6,6 M3.75,6 Q3.75,7.5 2.25,9 M8.25,6 Q8.25,7.5 9.75,9` fill=`none` stroke=`#c9d1d9` stroke-width=`1`/>
    </g>
  </defs>
  
  <rect width=`900` height=`450` fill=`#0d1117`/>
  
".

Definition name_text (name : string) : string :=
  quoted "
  <text x=`20` y=`40` font-family=`Arial` font-size=`24` font-weight=`bold` fill=`#c9d1d9`>"
  +:+ name
  +:+ quoted "</text>".

(** A line of the profile block, at the height [y_pos]. *)
Definition profile_row (icon label value : string) (y_pos : Z) : string :=
  quoted "
  
  <use href=`#" +:+ icon +:+ quoted "` x=`20` y=`" +:+ str_int y_pos
  +:+ quoted "`/>
  <text x=`42` y=`" +:+ str_int (y_pos + 12)
  +:+ quoted "` font-family=`Arial` font-size=`14` fill=`#c9d1d9`>"
  +:+ label +:+ value +:+ quoted "</text>".

Definition calendar_title : string :=
  quoted "
  

  <text x=`550` y=`40` font-family=`Arial` font-size=`18` font-weight=`bold` fill=`#c9d1d9`>Last 7 Days</text>
".

Definition calendar_rect (x_pos y_start : Z) (color : string) : string :=
  quoted "  <rect x=`"
  +:+ str_int x_pos
  +:+ quoted "` y=`"
  +:+ str_int y_start
  +:+ quoted "` width=`35` height=`35` fill=`"
  +:+ color
  +:+ quoted "` rx=`3`/>
".

Definition calendar_label (x_pos y_start : Z) (day_name : string) : string :=
  quoted "  <text x=`"
  +:+ str_int (x_pos + 17)
  +:+ quoted "` y=`"
  +:+ str_int (y_start + 55)
  +:+ quoted "` font-family=`Arial` font-size=`10` fill=`#8b949e` text-anchor=`middle`>"
  +:+ day_name
  +:+ quoted "</text>
".

Definition summary_text (summary : string) : string :=
  quoted "
  <text x=`700` y=`130` font-family=`Arial` font-size=`12` fill=`#8b949e` text-anchor=`middle`>"
  +:+ summary
  +:+ quoted "</text>
  
".

Definition header_activity : string :=
  quoted "
  <text x=`20` y=`190` font-family=`Arial` font-size=`16` font-weight=`bold` fill=`#c9d1d9`>Activity Stats</text>".

Definition header_community : string :=
  quoted "
  
  <text x=`240` y=`190` font-family=`Arial` font-size=`16` font-weight=`bold` fill=`#c9d1d9`>Community Stats</text>".

Definition header_repos : string :=
  quoted "
  
  <text x=`460` y=`190` font-family=`Arial` font-size=`16` font-weight=`bold` fill=`#c9d1d9`>Repository Stats</text>".

Definition header_metadata : string :=
  quoted "
  
  <text x=`680` y=`190` font-family=`Arial` font-size=`16` font-weight=`bold` fill=`#c9d1d9`>Metadata</text>".

Definition separator : string :=
  quoted "
  
".

(** The blank before the first line of a panel, and before the others. *)
Definition first_lead : string := quoted "
  ".

Definition next_lead : string := quoted "
  
  ".

(** A line of a panel whose icon stands at [x], at the height [y_pos]. *)
Definition stat_row (lead icon : string) (x : Z) (label value unit : string)
    (y_pos : Z) : string :=
  lead +:+ quoted "<use href=`#" +:+ icon +:+ quoted "` x=`" +:+ str_int x
  +:+ quoted "` y=`" +:+ str_int y_pos +:+ quoted "`/>
  <text x=`" +:+ str_int (x + 18) +:+ quoted "` y=`" +:+ str_int (y_pos + 10)
  +:+ quoted "` font-family=`Arial` font-size=`13` fill=`#c9d1d9`>"
  +:+ label +:+ value +:+ unit +:+ quoted "</text>".

Definition closing : string :=
  quoted "
</svg>".

(** ** The pieces of the markup *)

(** The four panels of statistics and the section of the configuration
    that gates each. *)
Inductive panel : Type := Activity | Community | Repository | Metadata.

Definition section_name (p : panel) : string :=
  match p with
  | Activity => "activity_stats"
  | Community => "community_stats"
  | Repository => "repository_stats"
  | Metadata => "metadata"
  end.

(** The fields of each panel, by their key in the configuration. *)
Definition panel_keys (p : panel) : list string :=
  match p with
  | Activity =>
      ["commits"; "pr_reviews"; "prs_opened"; "issues_open"; "issue_comments"]
  | Community => ["organizations"; "following"; "starred"; "watching"]
  | Repository =>
      ["total_repos"; "license"; "releases"; "packages"; "disk_usage"]
  | Metadata => ["stargazers"; "forkers"; "watchers"]
  end.

(** Which statement of [generate_profile_section] appended a piece of the
    markup. *)
Inductive part : Type :=
  | Prelude
  | ProfileField (key : string)
  | CalendarTitle
  | CalendarRect (i : Z)
  | CalendarLabel (i : Z)
  | SummaryLine
  | Header (p : panel)
  | Separator
  | Field (p : panel) (key : string)
  | Closing.

(** A run of statements of the renderer: from the value of [y_pos] to the
    pieces it appends to [svg_content], in order, and the new [y_pos]. *)
Definition step : Type := Z → list (part * string) * Z.

(** [svg_content += text] *)
Definition emit (p : part) (text : string) : step :=
  λ y_pos, ([(p, text)], y_pos).

(** [svg_content += f"...{y_pos}..."] *)
Definition emit_at (p : part) (text : Z → string) : step :=
  λ y_pos, ([(p, text y_pos)], y_pos).

(** [y_pos = y] *)
Definition set_y (y : Z) : step := λ _, ([], y).

(** [y_pos += 25] *)
Definition advance : step := λ y_pos, ([], y_pos + 25).

Definition skip : step := λ y_pos, ([], y_pos).

(** One run after another. *)
Definition and_then (s1 s2 : step) : step :=
  λ y_pos, let '(out1, y1) := s1 y_pos in
           let '(out2, y2) := s2 y1 in
           (out1 ++ out2, y2).

Infix ">>>" := and_then (at level 65, right associativity).

(** [if b: s] *)
Definition when (b : bool) (s : step) : step :=
  λ y_pos, if b then s y_pos else ([], y_pos).

(** [for i in l: f(i)] *)
Definition for_each {A} (l : list A) (f : A → step) : step :=
  foldr (λ i s, f i >>> s) skip l.

(** The concatenation of a list of strings. *)
Definition str_concat (l : list string) : string :=
  foldr String.append EmptyString l.

(** ** [generate_profile_section] *)

(** [datetime.strptime(profile["created_at"], ...).strftime("%B %d, %Y")] *)
Definition joined `{Datetime} (profile : gmap string pyval) : result string :=
  match profile !! "created_at" with
  | None => Raised (KeyError "created_at")
  | Some (PyStr stamp) =>
      match strptime stamp with
      | Some t => Ok (strftime_long t)
      | None => Raised ValueError
      end
  | Some _ => Raised TypeError
  end.

(** The loop that draws the calendar: a square and a label per day. *)
Definition calendar_cells `{Datetime} (today : Z) (stats : snapshot) : step :=
  let x_start := 550 in
  let y_start := 60 in
  for_each [6; 5; 4; 3; 2; 1; 0] (λ i,
    let date := strftime_date (today - timedelta i) in
    let day_name := strftime_a (today - timedelta i) in
    let count := default 0 (s_daily_contributions stats !! date) in
    let color := color_of count in
    let x_pos := x_start + (6 - i) * 45 in
    emit (CalendarRect i) (calendar_rect x_pos y_start color) >>>
    emit (CalendarLabel i) (calendar_label x_pos y_start day_name)).

(** The statements of [generate_profile_section] from the first
    [svg_content = ...] on, [created_at] being formatted already. *)
Definition profile_section_steps `{Datetime} `{FloatFormat}
    (cfg : gmap string (gmap string bool)) (username : string) (now : Z)
    (profile : gmap string pyval) (stats : snapshot) (created_at : string)
  : step :=
  let name := py_str (default (PyStr username) (profile !! "name")) in
  let hireable := truthy (default (PyBool false) (profile !! "hireable")) in
  let followers := py_str (default (PyInt 0) (profile !! "followers")) in
  let following := py_str (default (PyInt 0) (profile !! "following")) in
  let public_repos := py_str (default (PyInt 0) (profile !! "public_repos")) in
  let profile_cfg := cfg_get cfg "profile" in
  let calendar_cfg := cfg_get cfg "calendar" in
  let activity_cfg := cfg_get cfg "activity_stats" in
  let community_cfg := cfg_get cfg "community_stats" in
  let repos_cfg := cfg_get cfg "repository_stats" in
  let metadata_cfg := cfg_get cfg "metadata" in
  let has_activity :=
    any [activity_cfg "commits"; activity_cfg "pr_reviews";
         activity_cfg "prs_opened"; activity_cfg "issues_open";
         activity_cfg "issue_comments"] in
  let has_community :=
    any [community_cfg "organizations"; community_cfg "following";
         community_cfg "starred"; community_cfg "watching"] in
  let has_repos :=
    any [repos_cfg "total_repos"; repos_cfg "license"; repos_cfg "releases";
         repos_cfg "packages"; repos_cfg "disk_usage"] in
  let has_metadata :=
    any [metadata_cfg "stargazers"; metadata_cfg "forkers";
         metadata_cfg "watchers"] in
  let repos := s_repos stats in
  emit Prelude svg_prelude >>>
  (* the profile block *)
  when (profile_cfg "name") (emit (ProfileField "name") (name_text name)) >>>
  set_y 58 >>>
  when (profile_cfg "joined_date")
    (emit_at (ProfileField "joined_date")
       (profile_row "calendar-icon" "Joined: " created_at) >>> advance) >>>
  when (profile_cfg "followers")
    (emit_at (ProfileField "followers")
       (profile_row "users-icon" "Followers: " followers) >>> advance) >>>
  when (profile_cfg "available_for_hire")
    (emit_at (ProfileField "available_for_hire")
       (profile_row "briefcase-icon" "Available for hire: "
          (if hireable then "Yes" else "No"))) >>>
  (* the calendar *)
  when (calendar_cfg "enabled") (emit CalendarTitle calendar_title) >>>
  when (calendar_cfg "enabled") (calendar_cells now stats) >>>
  emit SummaryLine (summary_text (s_summary stats)) >>>
  (* the headers of the panels *)
  when has_activity (emit (Header Activity) header_activity) >>>
  when has_community (emit (Header Community) header_community) >>>
  when has_repos (emit (Header Repository) header_repos) >>>
  when has_metadata (emit (Header Metadata) header_metadata) >>>
  emit Separator separator >>>
  (* activity *)
  set_y 210 >>>
  when (activity_cfg "commits")
    (emit_at (Field Activity "commits")
       (stat_row first_lead "git-commit-icon" 20 "Commits (7d): "
          (str_int (act_commits (s_activity stats))) "") >>> advance) >>>
  when (activity_cfg "pr_reviews")
    (emit_at (Field Activity "pr_reviews")
       (stat_row next_lead "eye-icon" 20 "PR Reviews: "
          (str_int (act_pr_reviews (s_activity stats))) "") >>> advance) >>>
  when (activity_cfg "prs_opened")
    (emit_at (Field Activity "prs_opened")
       (stat_row next_lead "git-pr-icon" 20 "PRs Opened: "
          (str_int (act_prs_opened (s_activity stats))) "") >>> advance) >>>
  when (activity_cfg "issues_open")
    (emit_at (Field Activity "issues_open")
       (stat_row next_lead "alert-icon" 20 "Issues Open: "
          (str_int (issues_open (s_issues stats))) "") >>> advance) >>>
  when (activity_cfg "issue_comments")
    (emit_at (Field Activity "issue_comments")
       (stat_row next_lead "message-icon" 20 "Issue Comments: "
          (str_int (issues_comments (s_issues stats))) "")) >>>
  emit Separator separator >>>
  (* community *)
  set_y 210 >>>
  when (community_cfg "organizations")
    (emit_at (Field Community "organizations")
       (stat_row first_lead "building-icon" 240 "Organizations: "
          (str_int (comm_orgs (s_community stats))) "") >>> advance) >>>
  when (community_cfg "following")
    (emit_at (Field Community "following")
       (stat_row next_lead "user-plus-icon" 240 "Following: " following "")
     >>> advance) >>>
  when (community_cfg "starred")
    (emit_at (Field Community "starred")
       (stat_row next_lead "star-outline-icon" 240 "Starred: "
          (str_int (comm_starred (s_community stats))) "") >>> advance) >>>
  when (community_cfg "watching")
    (emit_at (Field Community "watching")
       (stat_row next_lead "eye-icon" 240 "Watching: "
          (str_int (comm_watching (s_community stats))) "")) >>>
  emit Separator separator >>>
  (* repositories *)
  set_y 210 >>>
  when (repos_cfg "total_repos")
    (emit_at (Field Repository "total_repos")
       (stat_row first_lead "folder-icon" 460 "Total Repos: " public_repos "")
     >>> advance) >>>
  when (repos_cfg "license")
    (emit_at (Field Repository "license")
       (stat_row next_lead "scale-icon" 460 "License: "
          (default "None" (license repos)) "") >>> advance) >>>
  when (repos_cfg "releases")
    (emit_at (Field Repository "releases")
       (stat_row next_lead "rocket-icon" 460 "Releases: "
          (str_int (releases repos)) "") >>> advance) >>>
  when (repos_cfg "packages")
    (emit_at (Field Repository "packages")
       (stat_row next_lead "package-icon" 460 "Packages: "
          (str_int (packages repos)) "") >>> advance) >>>
  when (repos_cfg "disk_usage")
    (emit_at (Field Repository "disk_usage")
       (stat_row next_lead "database-icon" 460 "Disk: "
          (format_mb (disk_usage repos)) " MB")) >>>
  emit Separator separator >>>
  (* metadata *)
  set_y 210 >>>
  when (metadata_cfg "stargazers")
    (emit_at (Field Metadata "stargazers")
       (stat_row first_lead "star-icon" 680 "Stargazers: "
          (str_int (total_stars repos)) "") >>> advance) >>>
  when (metadata_cfg "forkers")
    (emit_at (Field Metadata "forkers")
       (stat_row next_lead "fork-icon" 680 "Forkers: "
          (str_int (total_forks repos)) "") >>> advance) >>>
  when (metadata_cfg "watchers")
    (emit_at (Field Metadata "watchers")
       (stat_row next_lead "eye-icon" 680 "Watchers: "
          (str_int (total_watchers repos)) "")) >>>
  emit Closing closing.

(** The pieces [generate_profile_section] appends to [svg_content], or the
    exception it raises before the first of them. *)
Definition profile_section_pieces `{Datetime} `{FloatFormat}
    (cfg : gmap string (gmap string bool)) (username : string) (now : Z)
    (profile : gmap string pyval) (stats : snapshot)
  : result (list (part * string)) :=
  created_at ← joined profile;
  Ok (profile_section_steps cfg username now profile stats created_at 0).1.

(** [generate_profile_section(profile, stats)], run at the instant [now]
    with the configuration [cfg]. *)
Definition generate_profile_section `{Datetime} `{FloatFormat}
    (cfg : gmap string (gmap string bool)) (username : string) (now : Z)
    (profile : gmap string pyval) (stats : snapshot) : result string :=
  pieces ← profile_section_pieces cfg username now profile stats;
  Ok (str_concat pieces.*2).

(** ** The markup, as the specification speaks of it *)

(** The title of each panel and the label of each of its fields. *)
Definition panel_title (p : panel) : string :=
  match p with
  | Activity => "Activity Stats"
  | Community => "Community Stats"
  | Repository => "Repository Stats"
  | Metadata => "Metadata"
  end.

Definition field_label (key : string) : string :=
  if decide (key = "commits") then "Commits (7d): "
  else if decide (key = "pr_reviews") then "PR Reviews: "
  else if decide (key = "prs_opened") then "PRs Opened: "
  else if decide (key = "issues_open") then "Issues Open: "
  else if decide (key = "issue_comments") then "Issue Comments: "
  else if decide (key = "organizations") then "Organizations: "
  else if decide (key = "following") then "Following: "
  else if decide (key = "starred") then "Starred: "
  else if decide (key = "watching") then "Watching: "
  else if decide (key = "total_repos") then "Total Repos: "
  else if decide (key = "license") then "License: "
  else if decide (key = "releases") then "Releases: "
  else if decide (key = "packages") then "Packages: "
  else if decide (key = "disk_usage") then "Disk: "
  else if decide (key = "stargazers") then "Stargazers: "
  else if decide (key = "forkers") then "Forkers: "
  else if decide (key = "watchers") then "Watchers: "
  else "".

(** What the configuration lets through: the guard under which the statement
    of each piece stands. *)
Definition enabled (cfg : gmap string (gmap string bool)) (p : part) : bool :=
  match p with
  | ProfileField key => cfg_get cfg "profile" key
  | CalendarTitle | CalendarRect _ | CalendarLabel _ =>
      cfg_get cfg "calendar" "enabled"
  | Header p => any (cfg_get cfg (section_name p) <$> panel_keys p)
  | Field p key => cfg_get cfg (section_name p) key
  | Prelude | SummaryLine | Separator | Closing => true
  end.

(** What the text of a piece is known to hold. *)
Definition labelled (pc : part * string) : Prop :=
  match pc.1 with
  | Header p => str_contains (panel_title p) pc.2 = true
  | Field p key => str_contains (field_label key) pc.2 = true
  | _ => True
  end.

(** Every piece a run appends stands under a guard that holds, and holds
    the title or the label of its part. *)
Definition sound (cfg : gmap string (gmap string bool)) (s : step) : Prop :=
  ∀ y_pos, Forall (λ pc, enabled cfg pc.1 = true ∧ labelled pc) (s y_pos).1.

(** A run appends a piece for the part [p]. *)
Definition emits (p : part) (s : step) : Prop :=
  ∀ y_pos, p ∈ (s y_pos).1.*1.

(** ** The order and the place of the pieces *)

(** The parts of the markup in the order of the statements that append
    them. *)
Definition all_parts : list part :=
  [Prelude; ProfileField "name"; ProfileField "joined_date";
   ProfileField "followers"; ProfileField "available_for_hire";
   CalendarTitle]
  ++ flat_map (λ i, [CalendarRect i; CalendarLabel i]) [6; 5; 4; 3; 2; 1; 0]
  ++ [SummaryLine; Header Activity; Header Community; Header Repository;
      Header Metadata; Separator]
  ++ (Field Activity <$> panel_keys Activity) ++ [Separator]
  ++ (Field Community <$> panel_keys Community) ++ [Separator]
  ++ (Field Repository <$> panel_keys Repository) ++ [Separator]
  ++ (Field Metadata <$> panel_keys Metadata) ++ [Closing].

(** The parts of [l] that the configuration lets through. *)
Definition let_through (cfg : gmap string (gmap string bool))
    (l : list part) : list part :=
  filter (λ p, enabled cfg p = true) l.

(** A run appends the parts of [l] that the configuration lets through, in
    the order of [l]. *)
Definition appends (cfg : gmap string (gmap string bool)) (s : step)
    (l : list part) : Prop :=
  ∀ y_pos, (s y_pos).1.*1 = let_through cfg l.

(** The abscissa of the icons of a panel. *)
Definition panel_x (p : panel) : Z :=
  match p with
  | Activity => 20
  | Community => 240
  | Repository => 460
  | Metadata => 680
  end.

(** The lines of the profile block that move [y_pos]. *)
Definition profile_keys : list string :=
  ["joined_date"; "followers"; "available_for_hire"].

(** How many of the keys that stand before [key] in [keys] are enabled. *)
Fixpoint rows_before (on : string → bool) (key : string) (keys : list string)
  : Z :=
  match keys with
  | [] => 0
  | k :: keys =>
      if String.eqb k key then 0
      else (if on k then 1 else 0) + rows_before on key keys
  end.

(** The height of a line: the lines of a block are stacked from its first
    height on, 25 apart, the disabled ones taking no room. *)
Definition field_y (cfg : gmap string (gmap string bool)) (p : panel)
    (key : string) : Z :=
  210 + 25 * rows_before (cfg_get cfg (section_name p)) key (panel_keys p).

Definition profile_y (cfg : gmap string (gmap string bool)) (key : string)
  : Z :=
  58 + 25 * rows_before (cfg_get cfg "profile") key profile_keys.

(** ** The text of the lines, written out *)

(** An attribute of an element as the markup writes it: a blank, the name,
    and the value between double quotes. *)
Definition attr (name value : string) : string :=
  " " +:+ name +:+ "=" +:+ String "034"%char "" +:+ value
  +:+ String "034"%char "".

(** A line feed and the two blanks that indent the markup. *)
Definition indent : string := String "010"%char "  ".

(** A line of the graphic: the icon [icon] at [x], [y] and, on the next line
    of the markup, the text [content] at [x_text], [y_text] in the font size
    [size]. *)
Definition icon_line (icon : string) (x y x_text y_text : Z)
    (size content : string) : string :=
  "<use" +:+ attr "href" ("#" +:+ icon) +:+ attr "x" (pretty x)
  +:+ attr "y" (pretty y) +:+ "/>" +:+ indent
  +:+ "<text" +:+ attr "x" (pretty x_text) +:+ attr "y" (pretty y_text)
  +:+ attr "font-family" "Arial" +:+ attr "font-size" size
  +:+ attr "fill" "#c9d1d9" +:+ ">" +:+ content +:+ "</text>".

(** The line of the name. *)
Definition name_line (name : string) : string :=
  indent +:+ "<text" +:+ attr "x" "20" +:+ attr "y" "40"
  +:+ attr "font-family" "Arial" +:+ attr "font-size" "24"
  +:+ attr "font-weight" "bold" +:+ attr "fill" "#c9d1d9" +:+ ">"
  +:+ name +:+ "</text>".

(** A square of the calendar and the label under it. *)
Definition square_text (x : Z) (color : string) : string :=
  "  <rect" +:+ attr "x" (pretty x) +:+ attr "y" "60" +:+ attr "width" "35"
  +:+ attr "height" "35" +:+ attr "fill" color +:+ attr "rx" "3" +:+ "/>"
  +:+ String "010"%char "".

Definition label_text (x : Z) (day_name : string) : string :=
  "  <text" +:+ attr "x" (pretty (x + 17)) +:+ attr "y" "115"
  +:+ attr "font-family" "Arial" +:+ attr "font-size" "10"
  +:+ attr "fill" "#8b949e" +:+ attr "text-anchor" "middle" +:+ ">"
  +:+ day_name +:+ "</text>" +:+ String "010"%char "".

(** The text that Python's [str] makes of a value, and the truth value it
    gives it. *)
Definition str_of (v : pyval) : string :=
  match v with
  | PyNone => "None"
  | PyBool true => "True"
  | PyBool false => "False"
  | PyInt n => pretty n
  | PyStr s => s
  end.

Definition bool_of (v : pyval) : bool :=
  match v with
  | PyNone => false
  | PyBool b => b
  | PyInt n => bool_decide (n ≠ 0)
  | PyStr s => bool_decide (s ≠ "")
  end.

(** The statistic that the line of each field shows. *)
Definition field_value `{FloatFormat} (profile : gmap string pyval)
    (stats : snapshot) (key : string) : string :=
  let count (n : Z) : string := pretty n in
  let of_profile (k : string) := str_of (default (PyInt 0) (profile !! k)) in
  if decide (key = "commits") then count (act_commits (s_activity stats))
  else if decide (key = "pr_reviews")
       then count (act_pr_reviews (s_activity stats))
  else if decide (key = "prs_opened")
       then count (act_prs_opened (s_activity stats))
  else if decide (key = "issues_open") then count (issues_open (s_issues stats))
  else if decide (key = "issue_comments")
       then count (issues_comments (s_issues stats))
  else if decide (key = "organizations")
       then count (comm_orgs (s_community stats))
  else if decide (key = "following") then of_profile "following"
  else if decide (key = "starred") then count (comm_starred (s_community stats))
  else if decide (key = "watching")
       then count (comm_watching (s_community stats))
  else if decide (key = "total_repos") then of_profile "public_repos"
  else if decide (key = "license")
       then default "None" (license (s_repos stats))
  else if decide (key = "releases") then count (releases (s_repos stats))
  else if decide (key = "packages") then count (packages (s_repos stats))
  else if decide (key = "disk_usage") then format_mb (disk_usage (s_repos stats))
  else if decide (key = "stargazers") then count (total_stars (s_repos stats))
  else if decide (key = "forkers") then count (total_forks (s_repos stats))
  else if decide (key = "watchers")
       then count (total_watchers (s_repos stats))
  else "".

(** What follows the statistic of a field on its line. *)
Definition field_unit (key : string) : string :=
  if decide (key = "disk_usage") then " MB" else "".

(** The label and the value of each line of the profile block. *)
Definition profile_label (key : string) : string :=
  if decide (key = "joined_date") then "Joined: "
  else if decide (key = "followers") then "Followers: "
  else if decide (key = "available_for_hire") then "Available for hire: "
  else "".

Definition profile_value (username created_at : string)
    (profile : gmap string pyval) (key : string) : string :=
  if decide (key = "name")
  then str_of (default (PyStr username) (profile !! "name"))
  else if decide (key = "joined_date") then created_at
  else if decide (key = "followers")
       then str_of (default (PyInt 0) (profile !! "followers"))
  else if decide (key = "available_for_hire")
       then (if bool_of (default (PyBool false) (profile !! "hireable"))
             then "Yes" else "No")
  else "".

(** What stands before the line of [key]: the first line of a panel comes
    after one indented line break, the others after two. *)
Definition lead_of (keys : list string) (key : string) : string :=
  if decide (head keys = Some key) then indent else indent +:+ indent.

(** A piece is in its place. The line of a field is the text of an icon and
    of a label with its statistic, in the column of its panel at its stacked
    height (the label 18 to the right of the icon and 10 below); a line of
    the profile block is such a text at the left, at its stacked height;
    the name is a line of its own at the top. *)
Definition placed `{FloatFormat} (cfg : gmap string (gmap string bool))
    (username created_at : string) (profile : gmap string pyval)
    (stats : snapshot) (pc : part * string) : Prop :=
  match pc.1 with
  | Field p key =>
      ∃ icon,
        pc.2 = lead_of (panel_keys p) key
               +:+ icon_line icon (panel_x p) (field_y cfg p key)
                     (panel_x p + 18) (field_y cfg p key + 10) "13"
                     (field_label key +:+ field_value profile stats key
                      +:+ field_unit key)
  | ProfileField key =>
      if decide (key = "name")
      then pc.2 = name_line (profile_value username created_at profile key)
      else ∃ icon,
             pc.2 = indent +:+ indent
                    +:+ icon_line icon 20 (profile_y cfg key) 42
                          (profile_y cfg key + 12) "14"
                          (profile_label key
                           +:+ profile_value username created_at profile key)
  | _ => True
  end.

(** From a height that satisfies [pre], a run appends pieces that satisfy
    [P] and leaves a height that satisfies [post]. *)
Definition runs (P : part * string → Prop) (pre : Z → Prop) (s : step)
    (post : Z → Prop) : Prop :=
  ∀ y_pos, pre y_pos → Forall P (s y_pos).1 ∧ post (s y_pos).2.

(** The switches of the display configuration that the renderer reads, by
    section and key. *)
Definition switches : list (string * string) :=
  (pair "profile" <$> "name" :: ["joined_date"; "followers"; "available_for_hire"])
  ++ [("calendar", "enabled")]
  ++ (pair (section_name Activity) <$> panel_keys Activity)
  ++ (pair (section_name Community) <$> panel_keys Community)
  ++ (pair (section_name Repository) <$> panel_keys Repository)
  ++ (pair (section_name Metadata) <$> panel_keys Metadata).

(** Two configurations that set every switch alike. *)
Definition same_switches (cfg1 cfg2 : gmap string (gmap string bool)) : Prop :=
  Forall (λ sk, cfg_get cfg1 sk.1 sk.2 = cfg_get cfg2 sk.1 sk.2) switches.

(** A run ends with the piece [pc]. *)
Definition ends_with (pc : part * string) (s : step) : Prop :=
  ∀ y_pos, ∃ l, (s y_pos).1 = l ++ [pc].

(** Whether a piece is a square of the calendar or the label under one. *)
Definition is_cell (pc : part * string) : bool :=
  match pc.1 with
  | CalendarRect _ | CalendarLabel _ => true
  | _ => false
  end.

(** The square and the label of the [k]-th day, counted from 0, of the seven
    days that end with [today]: 45 further to the right for each day, the
    square colored by the count of the date of the day, the label with the
    abbreviated name of the day. A day is 86400000000 microseconds. *)
Definition day_square `{Datetime} (daily_contributions : gmap string Z)
    (today k : Z) : list (part * string) :=
  let t := today - (6 - k) * 86400000000 in
  let x_pos := 550 + 45 * k in
  let count := default 0 (daily_contributions !! strftime_date t) in
  [(CalendarRect (6 - k), square_text x_pos (color_of count));
   (CalendarLabel (6 - k), label_text x_pos (strftime_a t))].

(** The calendar of the seven days that end with [today], the oldest
    first. *)
Definition squares `{Datetime} (daily_contributions : gmap string Z)
    (today : Z) : list (part * string) :=
  flat_map (day_square daily_contributions today) [0; 1; 2; 3; 4; 5; 6].

(** The squares and labels that a run appends are those of [l]. *)
Definition draws (s : step) (l : list (part * string)) : Prop :=
  ∀ y_pos, filter (λ pc, is_cell pc = true) (s y_pos).1 = l.

(* ===================================================================== *)
(** * The file system and [update_readme]                                  *)
(* ===================================================================== *)

(** A line feed. *)
Definition nl : string := String "010"%char EmptyString.

(** The files, by path, with the text written to each; the paths written to,
    oldest first; and what was printed. *)
Record fs : Type := {
  files : gmap string string;
  written : list string;
  stdout : list string
}.

(** What reading in text mode makes of the text of a file: a carriage
    return, alone or before a line feed, is read as a line feed. *)
Fixpoint universal_newlines (s : string) : string :=
  match s with
  | String "013" (String "010" s) => String "010" (universal_newlines s)
  | String "013" s => String "010" (universal_newlines s)
  | String c s => String c (universal_newlines s)
  | EmptyString => EmptyString
  end.

(** [os.path.exists(path)] *)
Definition fs_exists (path : string) (st : fs) : bool :=
  bool_decide (is_Some (files st !! path)).

(** [open(path, "r").read()] on a file that exists. *)
Definition fs_read (path : string) (st : fs) : string :=
  universal_newlines (default "" (files st !! path)).

(** [open(path, "w").write(content)] *)
Definition fs_write (path content : string) (st : fs) : fs :=
  {| files := <[path := content]> (files st);
     written := written st ++ [path];
     stdout := stdout st |}.

Definition print (line : string) (st : fs) : fs :=
  {| files := files st; written := written st; stdout := stdout st ++ [line] |}.

Definition svg_path : string := "github-stats.svg".

(** The first half of [update_readme]: the graphic. *)
Definition persist_svg (svg_content : string) (st : fs) : fs :=
  let '(svg_changed, st) :=
    if fs_exists svg_path st then
      let old_svg := fs_read svg_path st in
      if bool_decide (old_svg = svg_content)
      then (false, print "SVG unchanged, skipping update" st)
      else (true, st)
    else (true, st) in
  if svg_changed
  then print ("Updated " +:+ svg_path) (fs_write svg_path svg_content st)
  else st.

(** The one line of the reference document. *)
Definition readme_content (username : string) : string :=
  "<img src=" +:+ dq +:+ "https://raw.githubusercontent.com/" +:+ username
  +:+ "/" +:+ username +:+ "/main/github-stats.svg" +:+ dq
  +:+ " alt=" +:+ dq +:+ "GitHub Stats" +:+ dq +:+ " />" +:+ nl.

(** The second half of [update_readme]: the reference document. *)
Definition persist_readme (username readme_path : string) (st : fs) : fs :=
  let readme_content := readme_content username in
  let '(readme_changed, st) :=
    if fs_exists readme_path st then
      let old_readme := fs_read readme_path st in
      if bool_decide (old_readme = readme_content)
      then (false, print "README unchanged" st)
      else (true, st)
    else (true, st) in
  if readme_changed || negb (fs_exists readme_path st)
  then print ("Updated " +:+ readme_path)
         (fs_write readme_path readme_content st)
  else st.

Definition update_readme (username readme_path svg_content : string)
    (st : fs) : fs :=
  persist_readme username readme_path (persist_svg svg_content st).

(** ** The sink, as the specification speaks of it *)

(** The file at [path] is missing, or reads as something else than
    [content]. *)
Definition differs (path content : string) (st : fs) : bool :=
  negb (fs_exists path st && bool_decide (fs_read path st = content)).

(** How often [path] was written to. *)
Definition writes_to (path : string) (st : fs) : nat :=
  length (filter (path =.) (written st)).

(** A text that reads back as it was written: it holds no carriage
    return. *)
Definition reads_back (content : string) : Prop :=
  universal_newlines content = content.

(* ===================================================================== *)
(** * The other requests                                                   *)
(* ===================================================================== *)

(** [_get_authenticated_user()], on the response to its request. The login
    is only ever formatted into text, so it is kept as the text [str] makes
    of it. *)
Definition get_authenticated_user (response : response (gmap string pyval))
  : result string :=
  _ ← raise_for_status response;
  match json response !! "login" with
  | Some login => Ok (py_str login)
  | None => Raised (KeyError "login")
  end.

(** [get_user_profile()] and [get_organizations()], on the response to
    their request. *)
Definition get_user_profile (response : response (gmap string pyval))
  : result (gmap string pyval) :=
  _ ← raise_for_status response;
  Ok (json response).

Definition get_organizations {A} (response : response (list A))
  : result (list A) :=
  _ ← raise_for_status response;
  Ok (json response).

(** [while True] of [get_user_repos]: a page per turn, up to the first empty
    one, with the pages requested so far. The loop has no bound of its own:
    it is given fuel, and [None] means it ran out of it. *)
Fixpoint repos_loop {A} (fuel : nat) (server : Z → response (list A))
    (page : Z) (repos : list A) (fetched : list Z)
  : option (result (list A) * list Z) :=
  match fuel with
  | O => None
  | S fuel =>
      let response := server page in
      let fetched := fetched ++ [page] in
      match raise_for_status response with
      | Raised e => Some (Raised e, fetched)
      | Ok _ =>
          match json response with
          | [] => Some (Ok repos, fetched)                       (* break *)
          | data =>
              repos_loop fuel server (page + 1) (repos ++ data) fetched
          end
      end
  end.

Definition get_user_repos {A} (fuel : nat) (server : Z → response (list A))
  : option (result (list A) * list Z) :=
  repos_loop fuel server 1 [] [].

(** [get_issues_stats()]: two searches, each answered by [search] for its
    query; [.get("total_count", 0)] on each body. *)
Definition get_issues_stats (username : string)
    (search : string → response (gmap string Z)) : result (Z * Z) :=
  let issues_response :=
    search ("author:" +:+ username +:+ " type:issue is:open") in
  _ ← raise_for_status issues_response;
  let open_issues := default 0 (json issues_response !! "total_count") in
  let comments_response := search ("commenter:" +:+ username) in
  _ ← raise_for_status comments_response;
  let comments := default 0 (json comments_response !! "total_count") in
  Ok (open_issues, comments).

(** [get_contributed_repos()], on the response to its search. *)
Definition get_contributed_repos (response : response (gmap string Z))
  : result Z :=
  _ ← raise_for_status response;
  Ok (default 0 (json response !! "total_count")).

(** ** The pages, as the properties speak of them *)

(** A page of repositories the loop turns: answered without an error status,
    and not empty. *)
Definition turned {A} (server : Z → response (list A)) (q : Z) : Prop :=
  raise_for_status (server q) = Ok () ∧ json (server q) ≠ [].

(** The items of the [k] pages from [page] on. *)
Definition pages {A} (server : Z → response (list A)) (page : Z) (k : nat)
  : list A :=
  concat ((λ q, json (server q)) <$> seqZ page (Z.of_nat k)).

(* ===================================================================== *)
(** * The run of the program: [generate_stats] and [main]                  *)
(* ===================================================================== *)

(** The server, as a run of the program with one token sees it: what it
    answers on each of the endpoints the program asks, by the user name, the
    page or the query of the request where the request has one. *)
Record github : Type := {
  gh_user : response (gmap string pyval);                (* /user *)
  gh_profile : string → response (gmap string pyval);    (* /users/{name} *)
  gh_repos : Z → response (list repo);                   (* /user/repos *)
  gh_events : string → Z → response (list event);  (* /users/{name}/events *)
  gh_orgs : response (list (gmap string pyval));         (* /user/orgs *)
  gh_starred : string → response (list (gmap string pyval));
  gh_subscriptions : string → response (list (gmap string pyval));
  gh_search_issues : string → response (gmap string Z);  (* /search/issues *)
  gh_releases : probe_server
}.

(** A piece of the program that prints, reads and writes files, and may
    raise: from the state of the file system and the terminal to what it
    comes to and the state it leaves. [None] stands for a loop that ran out
    of fuel. *)
Definition prog (A : Type) : Type := fs → option (result A) * fs.

Global Instance prog_ret : MRet prog := λ A a st, (Some (Ok a), st).
Global Instance prog_bind : MBind prog := λ A B k m st,
  match m st with
  | (Some (Ok a), st) => k a st
  | (Some (Raised e), st) => (Some (Raised e), st)
  | (None, st) => (None, st)
  end.

(** A call that touches no file and prints nothing. *)
Definition call {A} (r : result A) : prog A := λ st, (Some r, st).

(** A call of a fetching loop; the pages it requested are not kept. *)
Definition call_loop {A L} (r : option (result A * L)) : prog A :=
  λ st, (fst <$> r, st).

(** [print(line)] *)
Definition say (line : string) : prog unit :=
  λ st, (Some (Ok ()), print line st).

(** A procedure on the files. *)
Definition act (f : fs → fs) : prog unit := λ st, (Some (Ok ()), f st).

(** [json.load] on the text of the configuration file, taken as given. *)
Class ConfigFormat : Type := {
  json_load : string → result (gmap string (gmap string bool))
}.

(** [_load_config(config_path)] *)
Definition load_config `{ConfigFormat} (config_path : string)
  : prog (gmap string (gmap string bool)) :=
  λ st, if fs_exists config_path st
        then (Some (json_load (fs_read config_path st)), st)
        else (Some (Ok default_config), st).

(** [generate_stats(sections)] of a generator made for [username] with the
    configuration [cfg]; the clock reads [t_fetch] when the events are
    fetched and [t_render] when the calendar is drawn. *)
Definition generate_stats `{Datetime} `{FloatFormat} (fuel : nat)
    (gh : github) (cfg : gmap string (gmap string bool)) (username : string)
    (t_fetch t_render : Z) (sections : list string) : prog string :=
  _ ← say ("Fetching stats for " +:+ username +:+ "...");
  profile ← call (get_user_profile (gh_profile gh username));
  repos ← call_loop (get_user_repos fuel (gh_repos gh));
  events ← call_loop (get_user_events t_fetch 7 (gh_events gh username));
  orgs ← call (get_organizations (gh_orgs gh));
  _ ← say "Analyzing repositories...";
  analyzed ← call (analyze_repos (gh_releases gh) repos);
  let repo_stats := analyzed.1 in
  _ ← say "Analyzing activity...";
  let activity_stats := analyze_events events in
  _ ← say "Fetching community stats...";
  starred ← call (get_starred_count (gh_starred gh username));
  watching ← call (get_watching_count (gh_subscriptions gh username));
  issues ← call (get_issues_stats username (gh_search_issues gh));
  let '(open_issues, issue_comments) := issues in
  let stats := assemble_stats repo_stats activity_stats orgs starred watching
                 open_issues issue_comments in
  call (generate_profile_section cfg username t_render profile stats).

(** [s.split(sep)] for a separator of one character. *)
Fixpoint str_split (sep : ascii) (s : string) : list string :=
  match s with
  | EmptyString => [EmptyString]
  | String c s =>
      if decide (c = sep) then EmptyString :: str_split sep s
      else match str_split sep s with
           | word :: words => String c word :: words
           | [] => [String c EmptyString]
           end
  end.

(** [GitHubStatsGenerator(token)]: the user name and the configuration of
    the generator. *)
Definition new_generator `{ConfigFormat} (gh : github) (config_path : string)
  : prog (string * gmap string (gmap string bool)) :=
  username ← call (get_authenticated_user (gh_user gh));
  config ← load_config config_path;
  mret (username, config).

(** [main()], run with the environment [environ] against the server
    [api token]. *)
Definition main `{Datetime} `{FloatFormat} `{ConfigFormat} (fuel : nat)
    (environ : gmap string string) (api : string → github)
    (t_fetch t_render : Z) : prog unit :=
  let token := environ !! "GITHUB_TOKEN" in
  let readme_path := "README.md" in
  let sections := str_split "," (default "profile" (environ !! "SECTIONS")) in
  match token with
  | None | Some EmptyString => call (Raised ValueError)
  | Some token =>
      generator ← new_generator (api token) "config.json";
      let '(username, config) := generator in
      svg_content ← generate_stats fuel (api token) config username
                      t_fetch t_render sections;
      act (update_readme username readme_path svg_content)
  end.

(** What a run comes to, without the value it returns: [None] when it ran
    out of fuel, no exception or the exception otherwise. *)
Definition outcome_kind {A} (r : option (result A)) : option (option exn) :=
  match r with
  | None => None
  | Some (Ok _) => Some None
  | Some (Raised e) => Some (Some e)
  end.

(** The server [gh] with another answer to the probes of the releases. *)
Definition with_releases (gh : github) (srv : probe_server) : github :=
  {| gh_user := gh_user gh;
     gh_profile := gh_profile gh;
     gh_repos := gh_repos gh;
     gh_events := gh_events gh;
     gh_orgs := gh_orgs gh;
     gh_starred := gh_starred gh;
     gh_subscriptions := gh_subscriptions gh;
     gh_search_issues := gh_search_issues gh;
     gh_releases := srv |}.

(** The lines [generate_stats] prints on its way. *)
Definition progress_lines (username : string) : list string :=
  ["Fetching stats for " +:+ username +:+ "...";
   "Analyzing repositories...";
   "Analyzing activity...";
   "Fetching community stats..."].

(* ===================================================================== *)
(** * A reference calendar                                                 *)
(* ===================================================================== *)

(** An instance of [Datetime] to run the program on: the proleptic Gregorian
    calendar in the C locale, for stamps written as the server writes them
    (four digits of year, two of month, day, hour, minute and second) and
    years 1000 to 9999. The general properties below hold for every
    instance; this one serves the examples. *)
Module Civil.

(** Days since 1970-01-01 of a date. *)
Definition days_from_civil (y m d : Z) : Z :=
  let y := if m <=? 2 then y - 1 else y in
  let era := y / 400 in
  let yoe := y - era * 400 in
  let mp := (m + 9) mod 12 in
  let doy := (153 * mp + 2) / 5 + d - 1 in
  let doe := yoe * 365 + yoe / 4 - yoe / 100 + doy in
  era * 146097 + doe - 719468.

(** The date, as (year, month, day), of a number of days since 1970-01-01. *)
Definition civil_from_days (z : Z) : Z * Z * Z :=
  let z := z + 719468 in
  let era := z / 146097 in
  let doe := z - era * 146097 in
  let yoe := (doe - doe / 1460 + doe / 36524 - doe / 146096) / 365 in
  let y := yoe + era * 400 in
  let doy := doe - (365 * yoe + yoe / 4 - yoe / 100) in
  let mp := (5 * doy + 2) / 153 in
  let d := doy - (153 * mp + 2) / 5 + 1 in
  let m := if mp <? 10 then mp + 3 else mp - 9 in
  (if m <=? 2 then y + 1 else y, m, d).

Definition is_leap (y : Z) : bool :=
  (y mod 4 =? 0) && (negb (y mod 100 =? 0) || (y mod 400 =? 0)).

Definition days_in_month (y m : Z) : Z :=
  if m =? 2 then (if is_leap y then 29 else 28)
  else if (m =? 4) || (m =? 6) || (m =? 9) || (m =? 11) then 30
  else 31.

(** Exactly [n] decimal digits at the head of [s]. *)
Fixpoint read_digits (n : nat) (acc : Z) (s : string) : option (Z * string) :=
  match n with
  | O => Some (acc, s)
  | S n =>
      match s with
      | String c s =>
          d ← Ascii.is_nat c; read_digits n (10 * acc + Z.of_nat d) s
      | EmptyString => None
      end
  end.

Definition expect (c : ascii) (s : string) : option string :=
  match s with
  | String c' s => if decide (c = c') then Some s else None
  | EmptyString => None
  end.

(** [strptime(s, "%Y-%m-%dT%H:%M:%SZ")] on a stamp in full width. *)
Definition parse (s : string) : option Z :=
  '(y, s) ← read_digits 4 0 s; s ← expect "-" s;
  '(m, s) ← read_digits 2 0 s; s ← expect "-" s;
  '(d, s) ← read_digits 2 0 s; s ← expect "T" s;
  '(hh, s) ← read_digits 2 0 s; s ← expect ":" s;
  '(mm, s) ← read_digits 2 0 s; s ← expect ":" s;
  '(ss, s) ← read_digits 2 0 s; s ← expect "Z" s;
  if bool_decide (s = "") && (1 <=? y) && (1 <=? m) && (m <=? 12)
     && (1 <=? d) && (d <=? days_in_month y m)
     && (hh <? 24) && (mm <? 60) && (ss <? 60)
  then Some ((((days_from_civil y m d * 24 + hh) * 60 + mm) * 60 + ss)
             * 1000000)
  else None.

(** A number in at least two, or four, digits. *)
Definition pad2 (n : Z) : string :=
  if n <? 10 then "0" +:+ pretty n else pretty n.

Definition pad4 (n : Z) : string :=
  if n <? 10 then "000" +:+ pretty n
  else if n <? 100 then "00" +:+ pretty n
  else if n <? 1000 then "0" +:+ pretty n
  else pretty n.

Definition date_of (t : Z) : Z * Z * Z := civil_from_days (t / 86400000000).

(** [%Y-%m-%d] *)
Definition format_date (t : Z) : string :=
  let '(y, m, d) := date_of t in
  pad4 y +:+ "-" +:+ pad2 m +:+ "-" +:+ pad2 d.

(** [%a]; 1970-01-01 was a Thursday. *)
Definition format_a (t : Z) : string :=
  let w := (t / 86400000000 + 4) mod 7 in
  if w =? 0 then "Sun" else if w =? 1 then "Mon" else if w =? 2 then "Tue"
  else if w =? 3 then "Wed" else if w =? 4 then "Thu"
  else if w =? 5 then "Fri" else "Sat".

Definition month_name (m : Z) : string :=
  if m =? 1 then "January" else if m =? 2 then "February"
  else if m =? 3 then "March" else if m =? 4 then "April"
  else if m =? 5 then "May" else if m =? 6 then "June"
  else if m =? 7 then "July" else if m =? 8 then "August"
  else if m =? 9 then "September" else if m =? 10 then "October"
  else if m =? 11 then "November" else "December".

(** [%B %d, %Y] *)
Definition format_long (t : Z) : string :=
  let '(y, m, d) := date_of t in
  month_name m +:+ " " +:+ pad2 d +:+ ", " +:+ pad4 y.

Definition datetime : Datetime :=
  {| strptime := parse;
     strftime_date := format_date;
     strftime_a := format_a;
     strftime_long := format_long |}.

End Civil.

(* ===================================================================== *)
(** * A reference float format                                             *)
(* ===================================================================== *)

(** An instance of [FloatFormat] to run the renderer on. Below 2^53 in
    absolute value the quotient by 1024 is a float without rounding, and two
    decimals of it are its hundredths rounded half to even. *)
Module Float.

Definition hundredths (kilobytes : Z) : Z :=
  let n := Z.abs kilobytes * 25 in
  let q := n / 256 in
  let r := n mod 256 in
  if (128 <? r) || ((r =? 128) && Z.odd q) then q + 1 else q.

Definition format (kilobytes : Z) : string :=
  let h := hundredths kilobytes in
  (if kilobytes <? 0 then "-" else "")
  +:+ pretty (h / 100) +:+ "." +:+ Civil.pad2 (h mod 100).

Definition float_format : FloatFormat := {| format_mb := format |}.

End Float.

(* ===================================================================== *)
(** * Sample data                                                          *)
(* ===================================================================== *)

Module Sample.

Definition push (stamp : string) : event :=
  {| ev_type := "PushEvent"; created_at := stamp; ev_payload := None |}.

(** Noon of 10 May 2024, in microseconds since the epoch. *)
Definition day0 : Z := 1715342400000000.

Definition e_day0 : event := push "2024-05-10T11:00:00Z".
Definition e_day1 : event := push "2024-05-09T11:00:00Z".
Definition e_day8 : event := push "2024-05-02T11:00:00Z".

(** A server with one page of three events, newest first. *)
Definition one_page (page : Z) : response (list event) :=
  {| status_code := 200; link := None;
     json := if page =? 1 then [e_day0; e_day1; e_day8] else [] |}.

Definition licensed (k : string) : repo :=
  {| repo_license := Some {| key := Some k |};
     stargazers_count := Some 1; forks_count := Some 0;
     watchers_count := Some 1; size := Some 2048;
     releases_url :=
       Some ("https://api.github.com/repos/u/" +:+ k +:+ "/releases{/id}") |}.

Definition unlicensed : repo :=
  {| repo_license := None;
     stargazers_count := None; forks_count := None;
     watchers_count := None; size := None;
     releases_url := Some "https://api.github.com/repos/u/r/releases{/id}" |}.

(** A server whose releases endpoint times out on the first request,
    answers 404 on the second, and lists three releases afterwards. *)
Definition flaky : probe_server := λ i _,
  match i with
  | 0%nat => ProbeRaised Timeout
  | 1%nat => ProbeResponse 404 (Some 2)
  | _ => ProbeResponse 200 (Some 3)
  end.

(** The license and the release total of a run, and how many requests it
    sent. *)
Definition license_of (r : result (repo_stats * list string))
  : result (option string) :=
  x ← r; Ok (license x.1).

Definition releases_of (r : result (repo_stats * list string))
  : result (Z * nat) :=
  x ← r; Ok (releases x.1, length x.2).

(** A [Link] header as the server writes it, with five pages. *)
Definition link_5 : string :=
  "<https://api.github.com/user/1/starred?per_page=1&page=2>; rel="
  +:+ dq +:+ "next" +:+ dq
  +:+ ", <https://api.github.com/user/1/starred?per_page=1&page=5>; rel="
  +:+ dq +:+ "last" +:+ dq.

(** A header that names a last page without a number. *)
Definition link_broken : string :=
  "<https://api.github.com/user/1/starred?page=>; rel="
  +:+ dq +:+ "last" +:+ dq.

Definition starred (header : option string) (items : list string)
  : response (list string) :=
  {| status_code := 200; link := header; json := items |}.

(** A file system with no file. *)
Definition no_files : fs := {| files := ∅; written := []; stdout := [] |}.

(** A text with a carriage return in it. *)
Definition with_cr : string := "<svg>" +:+ String "013"%char "</svg>".

(** A profile as the server gives it. *)
Definition octocat : gmap string pyval :=
  {[ "login" := PyStr "octocat"; "name" := PyStr "The Octocat";
     "hireable" := PyNone; "created_at" := PyStr "2011-01-25T18:44:36Z";
     "followers" := PyInt 42; "following" := PyInt 9;
     "public_repos" := PyInt 8 ]}.

Definition week : snapshot :=
  {| s_activity := {| act_commits := 5; act_pr_reviews := 1;
                      act_prs_opened := 2 |};
     s_issues := {| issues_open := 3; issues_comments := 11 |};
     s_community := {| comm_orgs := 2; comm_starred := 5;
                       comm_watching := 4 |};
     s_repos := {| license := Some "mit"; releases := 6; packages := 0;
                   disk_usage := 1536; total_stars := 7; total_forks := 1;
                   total_watchers := 7 |};
     s_daily_contributions := {[ "2024-05-08" := 7; "2024-05-10" := 1 ]};
     s_summary := "8 contributions - Moderate activity this week" |}.

(** A configuration that disables every field of the activity panel. *)
Definition no_activity : gmap string (gmap string bool) :=
  {[ "activity_stats" := {[ "commits" := false; "pr_reviews" := false;
                            "prs_opened" := false; "issues_open" := false;
                            "issue_comments" := false ]} ]}.

(** A configuration that disables one field of the activity panel. *)
Definition no_commits : gmap string (gmap string bool) :=
  {[ "activity_stats" := {[ "commits" := false ]} ]}.

(** The markup for a configuration, on the sample profile and week. *)
Definition markup (cfg : gmap string (gmap string bool)) : result string :=
  generate_profile_section (H := Civil.datetime) (H0 := Float.float_format)
    cfg "octocat" day0 octocat week.

Definition markup_pieces (cfg : gmap string (gmap string bool))
  : result (list (part * string)) :=
  profile_section_pieces (H := Civil.datetime) (H0 := Float.float_format)
    cfg "octocat" day0 octocat week.

(** Whether the markup was produced, and holds [needle]. *)
Definition shows (needle : string) (r : result string) : bool :=
  match r with
  | Ok text => str_contains needle text
  | Raised _ => false
  end.

Definition produced {A} (r : result A) : bool :=
  match r with
  | Ok _ => true
  | Raised _ => false
  end.

End Sample.

(* ===================================================================== *)
(** * A sample run                                                         *)
(* ===================================================================== *)

Module Scenario.
Import Sample.

(** A response without an error status and without a [Link] header. *)
Definition ok {A} (body : A) : response A :=
  {| status_code := 200; link := None; json := body |}.

(** Two pages of repositories, then nothing. *)
Definition two_pages (page : Z) : response (list repo) :=
  ok (if page =? 1 then [licensed "mit"; licensed "mit"]
      else if page =? 2 then [unlicensed]
      else []).

(** A server that has a repository on every page. *)
Definition endless (page : Z) : response (list repo) := ok [unlicensed].

(** An event feed whose second page is forbidden. *)
Definition forbidden_page_2 (page : Z) : response (list event) :=
  if page =? 2 then {| status_code := 403; link := None; json := [] |}
  else ok [e_day0].

(** The server of a run. *)
Definition hub : github :=
  {| gh_user := ok octocat;
     gh_profile := λ _, ok octocat;
     gh_repos := two_pages;
     gh_events := λ _, one_page;
     gh_orgs := ok [];
     gh_starred := λ _, {| status_code := 200; link := Some link_5;
                           json := [] |};
     gh_subscriptions := λ _, ok [];
     gh_search_issues := λ _, ok {[ "total_count" := 3 ]};
     gh_releases := flaky |}.

(** The same server, with its profile endpoint out of service. *)
Definition hub_down : github :=
  {| gh_user := gh_user hub;
     gh_profile := λ _, {| status_code := 503; link := None; json := ∅ |};
     gh_repos := gh_repos hub;
     gh_events := gh_events hub;
     gh_orgs := gh_orgs hub;
     gh_starred := gh_starred hub;
     gh_subscriptions := gh_subscriptions hub;
     gh_search_issues := gh_search_issues hub;
     gh_releases := gh_releases hub |}.

(** A profile whose name holds a carriage return, and the server that
    gives it. *)
Definition octocat_cr : gmap string pyval :=
  <["name" := PyStr ("The" +:+ String "013"%char "Octocat")]> octocat.

Definition hub_cr : github :=
  {| gh_user := gh_user hub;
     gh_profile := λ _, ok octocat_cr;
     gh_repos := gh_repos hub;
     gh_events := gh_events hub;
     gh_orgs := gh_orgs hub;
     gh_starred := gh_starred hub;
     gh_subscriptions := gh_subscriptions hub;
     gh_search_issues := gh_search_issues hub;
     gh_releases := gh_releases hub |}.

Definition environ : gmap string string := {[ "GITHUB_TOKEN" := "t0ken" ]}.

(** A parser that accepts no text: the sample directory holds no
    configuration file, so that it is never asked. *)
Definition no_json : ConfigFormat := {| json_load := λ _, Raised ValueError |}.

(** [main] in an empty directory, at noon of the sample day. *)
Definition run_main (environ : gmap string string) (gh : github)
  : option (result unit) * fs :=
  main (H := Civil.datetime) (H0 := Float.float_format) (H1 := no_json)
    5 environ (λ _, gh) day0 day0 no_files.

(** [main] run a second time, in the directory that a first run left. *)
Definition run_main_twice (environ : gmap string string) (gh : github)
  : option (result unit) * fs :=
  main (H := Civil.datetime) (H0 := Float.float_format) (H1 := no_json)
    5 environ (λ _, gh) day0 day0 (run_main environ gh).2.

(** The markup and its pieces for a configuration, when they are
    produced. *)
Definition markup_text (cfg : gmap string (gmap string bool)) : string :=
  match markup cfg with
  | Ok text => text
  | Raised _ => ""
  end.

Definition pieces_of (cfg : gmap string (gmap string bool))
  : list (part * string) :=
  match markup_pieces cfg with
  | Ok pieces => pieces
  | Raised _ => []
  end.

End Scenario.

(* ===================================================================== *)
(** * Properties                                                           *)
(* ===================================================================== *)

Section strings.

Lemma str_prefix_app p s : str_prefix p (p +:+ s) = true.
Proof.
  induction p as [|a p IH]; simpl; [done|].
  rewrite bool_decide_eq_true_2 by done. exact IH.
Qed.

Lemma str_prefix_contains p s : str_prefix p s = true → str_contains p s = true.
Proof. intros H. destruct s; simpl in *; rewrite H; done. Qed.

Lemma str_app_cons x (a b : string) : String x a +:+ b = String x (a +:+ b).
Proof. done. Qed.

Lemma str_app_assoc (a b c : string) : (a +:+ b) +:+ c = a +:+ b +:+ c.
Proof. induction a as [|x a IH]; [done|]. by rewrite !str_app_cons, IH. Qed.

Lemma str_contains_cons n c s :
  str_contains n s = true → str_contains n (String c s) = true.
Proof. intros Hs. cbn [str_contains]. rewrite Hs. apply orb_true_r. Qed.

Lemma str_contains_app_r n a s :
  str_contains n s = true → str_contains n (a +:+ s) = true.
Proof.
  intros Hs. induction a as [|c a IH]; [done|]. by apply str_contains_cons.
Qed.

Lemma str_prefix_app_l p s t :
  str_prefix p s = true → str_prefix p (s +:+ t) = true.
Proof.
  revert s. induction p as [|a p IH]; intros s; [done|].
  destruct s as [|b s]; [done|]. rewrite str_app_cons. cbn [str_prefix].
  intros [-> Hp]%andb_true_iff. by rewrite IH.
Qed.

Lemma str_contains_app_l n s t :
  str_contains n s = true → str_contains n (s +:+ t) = true.
Proof.
  induction s as [|c s IH].
  - cbn [str_contains]. rewrite orb_false_r. intros Hp.
    by apply str_prefix_contains, (str_prefix_app_l n "" t).
  - cbn [str_contains]. intros [Hp|Hs]%orb_true_iff.
    + by apply str_prefix_contains, str_prefix_app_l.
    + rewrite str_app_cons. by apply str_contains_cons, IH.
Qed.

Lemma str_concat_contains n x (l : list string) :
  x ∈ l → str_contains n x = true → str_contains n (str_concat l) = true.
Proof.
  intros Hx Hn. induction l as [|y l IH]; [by apply elem_of_nil in Hx|].
  cbn [str_concat foldr]. apply elem_of_cons in Hx as [->|Hx].
  - by apply str_contains_app_l.
  - by apply str_contains_app_r, IH.
Qed.

End strings.

Section daily_contributions.

Lemma sum_values_empty : sum_values ∅ = 0.
Proof. unfold sum_values. by rewrite map_fold_empty. Qed.

Lemma sum_values_insert (d : gmap string Z) k v :
  d !! k = None → sum_values (<[k := v]> d) = sum_values d + v.
Proof.
  intros Hk. unfold sum_values.
  rewrite map_fold_insert_L; [done | intros; lia | done].
Qed.

Lemma sum_values_delete (d : gmap string Z) k v :
  d !! k = Some v → sum_values d = sum_values (delete k d) + v.
Proof.
  intros Hk. rewrite <- (insert_delete_id d k v Hk) at 1.
  apply sum_values_insert, lookup_delete_eq.
Qed.

Lemma sum_values_bump (d : gmap string Z) e :
  sum_values (bump d e) = sum_values d + 1.
Proof.
  unfold bump. set (k := str_take 10 (created_at e)).
  destruct (d !! k) as [v|] eqn:Hk; simpl.
  - rewrite <- insert_delete_eq.
    rewrite sum_values_insert by apply lookup_delete_eq.
    rewrite (sum_values_delete d k v Hk). lia.
  - rewrite sum_values_insert by done. lia.
Qed.

End daily_contributions.

Section analyze_events.

Lemma fold_bump_sum l : ∀ d,
  sum_values (fold_left bump l d) = sum_values d + Z.of_nat (length l).
Proof.
  induction l as [|e l IH]; intros d; simpl length; simpl fold_left.
  - lia.
  - rewrite IH, sum_values_bump. lia.
Qed.

Lemma bump_positive (d : gmap string Z) e :
  map_Forall (λ _ v, 0 < v) d → map_Forall (λ _ v, 0 < v) (bump d e).
Proof.
  intros Hd k v. unfold bump.
  set (date := str_take 10 (created_at e)).
  destruct (decide (date = k)) as [->|Hne].
  - rewrite lookup_insert_eq. intros [= <-].
    destruct (d !! k) as [w|] eqn:Hk; simpl; [|lia].
    specialize (Hd k w Hk). simpl in Hd. lia.
  - rewrite lookup_insert_ne by done. apply Hd.
Qed.

Lemma fold_bump_positive l : ∀ d : gmap string Z,
  map_Forall (λ _ v, 0 < v) d → map_Forall (λ _ v, 0 < v) (fold_left bump l d).
Proof.
  induction l as [|e l IH]; intros d Hd; simpl; [done|].
  apply IH, bump_positive, Hd.
Qed.

(** C10: the values of the daily contribution map of [analyze_events] add up
    to the number of events, and every value in the map is positive. *)
Theorem analyze_events_daily_total (events : list event) :
  sum_values (daily_contributions (analyze_events events))
    = Z.of_nat (length events)
  ∧ ∀ date n,
      daily_contributions (analyze_events events) !! date = Some n → 0 < n.
Proof.
  simpl. split.
  - rewrite fold_bump_sum, sum_values_empty. lia.
  - intros date n H.
    exact (fold_bump_positive events ∅ (map_Forall_empty _) date n H).
Qed.

End analyze_events.

Section analyze_events_counts.

Lemma count_if_from {A} (p : A → bool) l : ∀ acc,
  fold_left (λ acc e, if p e then acc + 1 else acc) l acc
  = acc + count_if p l.
Proof.
  unfold count_if. induction l as [|e l IH]; intros acc; simpl; [lia|].
  rewrite IH, (IH (if p e then 0 + 1 else 0)). destruct (p e); lia.
Qed.

Lemma count_if_cons {A} (p : A → bool) e l :
  count_if p (e :: l) = (if p e then 1 else 0) + count_if p l.
Proof.
  unfold count_if at 1. simpl. rewrite count_if_from. by destruct (p e).
Qed.

Lemma count_if_filter {A} (p : A → bool) l :
  count_if p l = Z.of_nat (length (filter (λ e, p e = true) l)).
Proof.
  induction l as [|e l IH]; [done|].
  rewrite count_if_cons, IH, filter_cons.
  destruct (p e); simpl; lia.
Qed.

Lemma bump_lookup (d : gmap string Z) e date :
  bump d e !! date
  = if decide (str_take 10 (created_at e) = date)
    then Some (default 0 (d !! date) + 1)
    else d !! date.
Proof.
  unfold bump. case_decide as Hd.
  - subst date. by rewrite lookup_insert_eq.
  - by rewrite lookup_insert_ne.
Qed.

Lemma fold_bump_lookup l : ∀ (d : gmap string Z) date,
  fold_left bump l d !! date
  = match d !! date with
    | Some n => Some (n + Z.of_nat (length (on_date date l)))
    | None => counted (length (on_date date l))
    end.
Proof.
  unfold on_date.
  induction l as [|e l IH]; intros d date; simpl fold_left.
  - simpl. destruct (d !! date); [f_equal; lia|done].
  - rewrite IH, bump_lookup, filter_cons. case_decide as Hd.
    + simpl length. destruct (d !! date) as [n|]; simpl.
      * f_equal. lia.
      * f_equal. lia.
    + done.
Qed.

(** X1: the daily contribution map holds, for each date, the number of events
    that carry it, and no entry for a date that no event carries. *)
Theorem analyze_events_daily_counts (events : list event) (date : string) :
  daily_contributions (analyze_events events) !! date
  = counted (length (on_date date events)).
Proof. simpl. by rewrite fold_bump_lookup, lookup_empty. Qed.

Lemma count_if_bounds {A} (p q r : A → bool) l :
  (∀ e, p e = true → q e = false ∧ r e = false) →
  (∀ e, q e = true → r e = false) →
  0 ≤ count_if p l ∧ 0 ≤ count_if q l ∧ 0 ≤ count_if r l
  ∧ count_if p l + count_if q l + count_if r l ≤ Z.of_nat (length l).
Proof.
  intros Hp Hq. induction l as [|e l IH].
  - unfold count_if. simpl. lia.
  - rewrite !count_if_cons. simpl length.
    specialize (Hp e). specialize (Hq e).
    destruct (p e), (q e), (r e); try (destruct Hp; done);
      try (specialize (Hq eq_refl); done); lia.
Qed.

(** X2: the three activity counts are counts of disjoint kinds of events:
    none is negative and together they never exceed the number of events. *)
Theorem analyze_events_counts_bounded (events : list event) :
  let a := analyze_events events in
  0 ≤ commits a ∧ 0 ≤ prs_opened a ∧ 0 ≤ pr_reviews a
  ∧ commits a + prs_opened a + pr_reviews a ≤ Z.of_nat (length events).
Proof.
  simpl. apply count_if_bounds.
  - intros e Hp. unfold is_push, is_pr_opened, is_pr_review in *.
    apply bool_decide_eq_true in Hp. rewrite Hp. done.
  - intros e Hq. unfold is_pr_opened, is_pr_review in *.
    apply andb_true_iff in Hq as [Hq _].
    apply bool_decide_eq_true in Hq. rewrite Hq. done.
Qed.

Lemma count_if_Permutation {A} (p : A → bool) l l' :
  l ≡ₚ l' → count_if p l = count_if p l'.
Proof.
  intros Hl. rewrite !count_if_filter. by rewrite Hl.
Qed.

(** X3: [analyze_events] does not depend on the order of the events. *)
Theorem analyze_events_permutation (events events' : list event) :
  events ≡ₚ events' → analyze_events events = analyze_events events'.
Proof.
  intros Hp. unfold analyze_events.
  rewrite !(count_if_Permutation _ events events') by done.
  f_equal. apply map_eq. intros date.
  rewrite !fold_bump_lookup, !lookup_empty. unfold on_date. by rewrite Hp.
Qed.

End analyze_events_counts.

Section analyze_events_counts_examples.
Import Sample.

(** The order of two events does not matter. *)
Lemma analyze_events_permutation_example :
  analyze_events [e_day0; e_day8] = analyze_events [e_day8; e_day0].
Proof. apply analyze_events_permutation. apply perm_swap. Defined.

Example daily_counts_of_three :
  daily_contributions
    (analyze_events [e_day0; push "2024-05-10T23:59:59Z"; e_day8])
  = {[ "2024-05-10" := 2; "2024-05-02" := 1 ]}.
Proof. vm_compute. reflexivity. Qed.

End analyze_events_counts_examples.

Section get_user_events.
Context `{Datetime}.
Variable server : Z → response (list event).
Variable cutoff_date : Z.

Lemma scan_page_recent data : ∀ events,
  Forall (recent cutoff_date) data →
  scan_page cutoff_date data events = Ok (Fallthrough (events ++ data)).
Proof.
  induction data as [|ev data IH]; intros events Hall; simpl.
  - by rewrite app_nil_r.
  - apply Forall_cons in Hall as [(d & -> & Hd) Hall].
    destruct (Z.ltb_spec d cutoff_date); [lia|].
    rewrite IH by done. by rewrite <- app_assoc.
Qed.

Lemma scan_page_older pre old post : ∀ events,
  Forall (recent cutoff_date) pre → older cutoff_date old →
  scan_page cutoff_date (pre ++ old :: post) events
  = Ok (Returned (events ++ pre)).
Proof.
  induction pre as [|ev pre IH]; intros events Hall (d & Hd & Hlt); simpl.
  - rewrite Hd. destruct (Z.ltb_spec d cutoff_date); [|lia].
    by rewrite app_nil_r.
  - apply Forall_cons in Hall as [(d' & -> & Hd') Hall].
    destruct (Z.ltb_spec d' cutoff_date); [lia|].
    rewrite IH; [|done|by exists d]. by rewrite <- app_assoc.
Qed.

Lemma tagged_events (page : Z) (data : list event) :
  ((λ e, (page, e)) <$> data).*2 = data.
Proof. induction data as [|e data IH]; csimpl; by f_equal. Qed.

Lemma recent_events (l : list (Z * event)) :
  Forall (λ x, recent cutoff_date x.2) l → Forall (recent cutoff_date) l.*2.
Proof. intros Hl. apply Forall_fmap. exact Hl. Qed.

Lemma recent_tagged (page : Z) (data : list event) :
  Forall (λ x, recent cutoff_date x.2) ((λ e, (page, e)) <$> data) →
  Forall (recent cutoff_date) data.
Proof. intros Hl%recent_events. by rewrite tagged_events in Hl. Qed.

Lemma feed_from_pages n : ∀ page p e,
  (p, e) ∈ feed_from n server page → page ≤ p < page + Z.of_nat n.
Proof.
  induction n as [|n IH]; intros page p e; cbn [feed_from].
  - by intros ?%elem_of_nil.
  - destruct (json (server page)) as [|e0 data]; [by intros ?%elem_of_nil|].
    intros [Hin|Hin]%elem_of_app.
    + apply list_elem_of_fmap in Hin as (e' & [= -> ->] & _). lia.
    + apply IH in Hin. lia.
Qed.

(** The loop never runs out of fuel, and requests consecutive pages. *)
Lemma fetch_loop_total n : ∀ fuel page events fetched,
  (n < fuel)%nat → page + Z.of_nat n = 11 →
  ∃ r k, fetch_loop fuel server cutoff_date page events fetched
         = Some (r, fetched ++ seqZ page (Z.of_nat k))
         ∧ (k ≤ n)%nat.
Proof.
  induction n as [|n IH]; intros [|fuel] page events fetched Hfuel Hpage;
    try lia; cbn [fetch_loop].
  - destruct (Z.leb_spec page 10); [lia|].
    exists (Ok events), 0%nat. by rewrite app_nil_r.
  - destruct (Z.leb_spec page 10); [|lia].
    assert (∀ r : result (list event), ∃ r' k,
              Some (r, fetched ++ [page])
              = Some (r', fetched ++ seqZ page (Z.of_nat k)) ∧ (k ≤ S n)%nat)
      as Hstop.
    { intros r. exists r, 1%nat. split; [done|lia]. }
    destruct (raise_for_status (server page)); [|apply Hstop].
    destruct (json (server page)) as [|e0 data]; [apply Hstop|].
    destruct (scan_page _ _ _) as [[evs|evs]|e]; try apply Hstop.
    destruct (IH fuel (page + 1) evs (fetched ++ [page])) as (r & k & -> & Hk);
      [lia|lia|].
    exists r, (S k). split; [|lia]. rewrite <- app_assoc. do 3 f_equal.
    rewrite (seqZ_cons page) by lia. simpl. do 2 f_equal; lia.
Qed.

(** The first event older than the cutoff stops the fetch at its page. *)
Lemma fetch_loop_older n : ∀ fuel page events fetched pre p old post,
  (n < fuel)%nat → page + Z.of_nat n = 11 →
  feed_from n server page = pre ++ (p, old) :: post →
  Forall (λ x, recent cutoff_date x.2) pre → older cutoff_date old →
  served server page p →
  fetch_loop fuel server cutoff_date page events fetched
  = Some (Ok (events ++ pre.*2), fetched ++ seqZ page (p - page + 1)).
Proof.
  induction n as [|n IH];
    intros [|fuel] page events fetched pre p old post Hfuel Hpage Hfeed
           Hpre Hold Hserved; try lia.
  { by destruct pre. }
  assert (page ≤ p) as Hp.
  { eapply (feed_from_pages (S n) page p old). rewrite Hfeed.
    apply elem_of_app. right. apply elem_of_cons. tauto. }
  cbn [fetch_loop feed_from] in *. destruct (Z.leb_spec page 10); [|lia].
  rewrite (Hserved page) by lia.
  destruct (json (server page)) as [|e0 data0] eqn:Ej; [by destruct pre|].
  cbn [fetch_loop feed_from] in *. set (data := e0 :: data0) in *.
  apply app_eq_inv in Hfeed as [(k & Hdata & Hk)|(k & Hk & Hrest)].
  - destruct k as [|x k].
    + (* the page holds recent events only: the next page is fetched *)
      rewrite app_nil_r in Hdata. simpl in Hk. subst pre.
      rewrite tagged_events. apply recent_tagged in Hpre.
      rewrite scan_page_recent by done.
      rewrite (IH fuel (page + 1) _ _ [] p old post);
        [|lia|lia|done|done|done|intros q ?; apply Hserved; lia].
      rewrite app_nil_r, <- app_assoc. do 3 f_equal.
      assert (page + 1 ≤ p).
      { eapply (feed_from_pages n (page + 1) p old). rewrite <- Hk.
        apply elem_of_cons. tauto. }
      rewrite (seqZ_cons page) by lia. simpl. do 2 f_equal; lia.
    + (* the older event is on this page *)
      injection Hk as Hx Hpost. subst x.
      assert (p = page) as ->.
      { assert ((p, old) ∈ (λ e, (page, e)) <$> data) as Hin.
        { rewrite Hdata. apply elem_of_app. right. apply elem_of_cons. tauto. }
        by apply list_elem_of_fmap in Hin as (e' & [= -> ->] & _). }
      assert (data = pre.*2 ++ old :: k.*2) as ->.
      { rewrite <- (tagged_events page data), Hdata, fmap_app. done. }
      rewrite scan_page_older; [|by apply recent_events|done].
      do 3 f_equal. replace (page - page + 1) with 1 by lia. done.
  - (* the older event is on a later page *)
    subst pre. apply Forall_app in Hpre as [Hdata Hk].
    apply recent_tagged in Hdata.
    rewrite scan_page_recent by done.
    assert (page + 1 ≤ p).
    { eapply (feed_from_pages n (page + 1) p old). rewrite Hrest.
      apply elem_of_app. right. apply elem_of_cons. tauto. }
    rewrite (IH fuel (page + 1) _ _ k p old post);
      [|lia|lia|done|done|done|intros q ?; apply Hserved; lia].
    rewrite fmap_app, tagged_events, <- !app_assoc. do 3 f_equal.
    rewrite (seqZ_cons page) by lia. simpl. do 2 f_equal; lia.
Qed.

(** With no older event in sight, the whole feed is returned. *)
Lemma fetch_loop_recent n : ∀ fuel page events fetched,
  (n < fuel)%nat → page + Z.of_nat n = 11 →
  Forall (λ x, recent cutoff_date x.2) (feed_from n server page) →
  served server page 10 →
  ∃ fetched',
    fetch_loop fuel server cutoff_date page events fetched
    = Some (Ok (events ++ (feed_from n server page).*2), fetched').
Proof.
  induction n as [|n IH];
    intros [|fuel] page events fetched Hfuel Hpage Hall Hserved; try lia;
    cbn [fetch_loop feed_from] in *.
  - destruct (Z.leb_spec page 10); [lia|]. rewrite app_nil_r. by eexists.
  - destruct (Z.leb_spec page 10); [|lia].
    rewrite (Hserved page) by lia.
    destruct (json (server page)) as [|e0 data0] eqn:Ej.
    { rewrite app_nil_r. by eexists. }
    cbn [fetch_loop feed_from] in *. set (data := e0 :: data0) in *.
    apply Forall_app in Hall as [Hdata Hrest]. apply recent_tagged in Hdata.
    rewrite scan_page_recent by done.
    destruct (IH fuel (page + 1) (events ++ data) (fetched ++ [page]))
      as [fetched' ->]; [lia|lia|done|intros q ?; apply Hserved; lia|].
    exists fetched'. by rewrite fmap_app, tagged_events, <- app_assoc.
Qed.

End get_user_events.

Section get_user_events_cutoff.
Context `{Datetime}.

(** C4: the fetch always returns, after at most ten consecutive pages from
    page 1; it stops at the first event strictly older than the cutoff, on
    the page of that event, and returns the events before it in their
    order; with no such event it returns the whole feed. *)
Theorem get_user_events_cutoff (server : Z → response (list event))
    (now days : Z) :
  let cutoff_date := now - timedelta days in
  (∃ r fetched,
      get_user_events now days server = Some (r, fetched)
      ∧ (length fetched ≤ 10)%nat
      ∧ fetched = seqZ 1 (Z.of_nat (length fetched)))
  ∧ (∀ pre p old post,
      feed server = pre ++ (p, old) :: post →
      Forall (λ x, recent cutoff_date x.2) pre →
      older cutoff_date old →
      served server 1 p →
      get_user_events now days server = Some (Ok pre.*2, seqZ 1 p))
  ∧ (Forall (λ x, recent cutoff_date x.2) (feed server) →
     served server 1 10 →
     ∃ fetched,
       get_user_events now days server = Some (Ok (feed server).*2, fetched)).
Proof.
  intros cutoff_date. unfold get_user_events, feed. fold cutoff_date.
  split; [|split].
  - destruct (fetch_loop_total server cutoff_date 10 11 1 [] [])
      as (r & k & E & Hk); [lia|lia|].
    exists r, (seqZ 1 (Z.of_nat k)). rewrite E.
    rewrite length_seqZ, Nat2Z.id. split; [done|]. split; [lia|done].
  - intros pre p old post Hfeed Hpre Hold Hserved.
    rewrite (fetch_loop_older server cutoff_date 10 11 1 [] [] pre p old post);
      [|lia|lia|done..].
    cbn [app]. do 3 f_equal. lia.
  - intros Hall Hserved.
    destruct (fetch_loop_recent server cutoff_date 10 11 1 [] [])
      as [fetched E]; [lia|lia|done|done|].
    exists fetched. by rewrite E.
Qed.

End get_user_events_cutoff.

Section get_user_events_examples.

(** C4 on the events dated day0, day0 - 1 and day0 - 8 with a cutoff of
    seven days: the first two are returned, in their order, after one
    request. *)
Lemma get_user_events_cutoff_example :
  get_user_events (H := Civil.datetime) Sample.day0 7 Sample.one_page
  = Some (Ok [Sample.e_day0; Sample.e_day1], [1]).
Proof.
  pose proof (@get_user_events_cutoff Civil.datetime Sample.one_page
                Sample.day0 7) as (_ & Hstop & _).
  apply (Hstop [(1, Sample.e_day0); (1, Sample.e_day1)] 1 Sample.e_day8 []).
  - reflexivity.
  - repeat constructor; eexists; (split; [vm_compute; reflexivity|]);
      vm_compute; discriminate.
  - eexists. split; [vm_compute; reflexivity|]. vm_compute. reflexivity.
  - intros q Hq. reflexivity.
Defined.

End get_user_events_examples.

Section get_user_events_more.
Context `{Datetime}.
Variable server : Z → response (list event).
Variable cutoff_date : Z.

Lemma scan_page_inv data : ∀ events evs,
  (scan_page cutoff_date data events = Ok (Fallthrough evs) →
     evs = events ++ data ∧ Forall (recent cutoff_date) data)
  ∧ (scan_page cutoff_date data events = Ok (Returned evs) →
     ∃ pre, evs = events ++ pre ∧ pre `prefix_of` data
            ∧ Forall (recent cutoff_date) pre).
Proof.
  induction data as [|ev data IH]; intros events evs; simpl.
  - split.
    + intros [= <-]. by rewrite app_nil_r.
    + done.
  - destruct (strptime (created_at ev)) as [d|] eqn:Ed; [|done].
    destruct (Z.ltb_spec d cutoff_date) as [Hlt|Hge].
    + split; [done|]. intros [= <-]. exists []. rewrite app_nil_r.
      split; [done|]. split; [apply prefix_nil|constructor].
    + assert (recent cutoff_date ev) as Hev by (by exists d).
      destruct (IH (events ++ [ev]) evs) as [IH1 IH2]. split.
      * intros [-> Hall]%IH1. rewrite <- app_assoc. split; [done|].
        by constructor.
      * intros (pre & -> & Hpre & Hall)%IH2. exists (ev :: pre).
        rewrite <- app_assoc. split; [done|].
        split; [by apply prefix_cons|by constructor].
Qed.

(** What the loop returns is what it had, then events that are all at the
    cutoff or newer, read off the head of the feed. *)
Lemma fetch_loop_sound n : ∀ fuel page events fetched evs fetched',
  page + Z.of_nat n = 11 →
  fetch_loop fuel server cutoff_date page events fetched
  = Some (Ok evs, fetched') →
  ∃ more, evs = events ++ more
          ∧ Forall (recent cutoff_date) more
          ∧ more `prefix_of` (feed_from n server page).*2.
Proof.
  induction n as [|n IH]; intros [|fuel] page events fetched evs fetched' Hpage;
    cbn [fetch_loop]; try done.
  - destruct (Z.leb_spec page 10); [lia|]. intros [= <- _].
    exists []. rewrite app_nil_r. split; [done|].
    split; [constructor|apply prefix_nil].
  - destruct (Z.leb_spec page 10); [|lia].
    destruct (raise_for_status (server page)); [|done].
    cbn [feed_from].
    destruct (json (server page)) as [|e0 data0] eqn:Ej.
    { intros [= <- _]. exists []. rewrite app_nil_r. split; [done|].
      split; [constructor|apply prefix_nil]. }
    set (data := e0 :: data0) in *.
    destruct (scan_page cutoff_date data events) as [[evs'|evs']|e] eqn:Es;
      [| |done].
    + apply scan_page_inv in Es as [-> Hdata]. intros Hloop.
      apply (IH fuel (page + 1)) in Hloop as (more & -> & Hmore & Hpre);
        [|lia].
      exists (data ++ more). rewrite <- app_assoc. split; [done|].
      split; [by apply Forall_app|].
      rewrite fmap_app, tagged_events. by apply prefix_app.
    + apply scan_page_inv in Es as (pre & -> & Hpre & Hall).
      intros [= <- _]. exists pre. split; [done|]. split; [done|].
      rewrite fmap_app, tagged_events. by apply prefix_app_r.
Qed.

(** The loop reads through [k] pages of recent events. *)
Lemma fetch_loop_through k : ∀ fuel page events fetched,
  page + Z.of_nat k ≤ 11 →
  (∀ q, page ≤ q < page + Z.of_nat k → read_through cutoff_date server q) →
  ∃ evs,
    fetch_loop (k + fuel) server cutoff_date page events fetched
    = fetch_loop fuel server cutoff_date (page + Z.of_nat k) evs
        (fetched ++ seqZ page (Z.of_nat k)).
Proof.
  induction k as [|k IH]; intros fuel page events fetched Hpage Hgood.
  - exists events. simpl. by rewrite Z.add_0_r, app_nil_r.
  - destruct (Hgood page) as (Hok & Hne & Hall); [lia|].
    cbn [Nat.add fetch_loop]. destruct (Z.leb_spec page 10); [|lia].
    rewrite Hok. destruct (json (server page)) as [|e0 data0]; [done|].
    rewrite scan_page_recent by done.
    destruct (IH fuel (page + 1) (events ++ e0 :: data0) (fetched ++ [page]))
      as [evs ->]; [lia|intros q ?; apply Hgood; lia|].
    exists evs. rewrite <- app_assoc. f_equal; [lia|]. f_equal.
    rewrite (seqZ_cons page) by lia. simpl. do 2 f_equal; lia.
Qed.

End get_user_events_more.

Section get_user_events_outcomes.
Context `{Datetime}.

(** X4: whatever the server answers, the events the fetch returns are all at
    the cutoff or newer, and they are the head of the feed, in its order. *)
Theorem get_user_events_recent_prefix (server : Z → response (list event))
    (now days : Z) (evs : list event) (fetched : list Z) :
  get_user_events now days server = Some (Ok evs, fetched) →
  Forall (recent (now - timedelta days)) evs
  ∧ evs `prefix_of` (feed server).*2.
Proof.
  unfold get_user_events, feed. intros Hloop.
  apply (fetch_loop_sound server _ 10) in Hloop as (more & -> & Hall & Hpre);
    [done|lia].
Qed.

(** X5: after pages read through, the page [p] that answers with an error
    status, or on which an event stands whose stamp does not parse after
    recent ones, ends the fetch with that exception: the events collected
    from the pages before are not returned. *)
Theorem get_user_events_failure (server : Z → response (list event))
    (now days p : Z) :
  1 ≤ p ≤ 10 →
  (∀ q, 1 ≤ q < p → read_through (now - timedelta days) server q) →
  (∀ e, raise_for_status (server p) = Raised e →
     get_user_events now days server = Some (Raised e, seqZ 1 p))
  ∧ (∀ pre bad post,
       raise_for_status (server p) = Ok () →
       json (server p) = pre ++ bad :: post →
       Forall (recent (now - timedelta days)) pre →
       strptime (created_at bad) = None →
       get_user_events now days server = Some (Raised ValueError, seqZ 1 p)).
Proof.
  intros Hp Hgood. unfold get_user_events.
  set (cutoff_date := now - timedelta days) in *.
  set (k := Z.to_nat (p - 1)).
  assert (Z.of_nat k = p - 1) as Hk by (unfold k; lia). clearbody k.
  destruct (fetch_loop_through server cutoff_date k (S (10 - k)) 1 [] [])
    as [evs Hrun]; [lia|intros q ?; apply Hgood; lia|].
  replace (k + S (10 - k))%nat with 11%nat in Hrun by lia.
  rewrite Hrun. replace (1 + Z.of_nat k) with p by lia.
  assert ([] ++ seqZ 1 (Z.of_nat k) ++ [p] = seqZ 1 p) as Hpages.
  { replace p with (Z.of_nat k + 1) at 2 by lia.
    rewrite seqZ_app by lia. simpl. f_equal.
    rewrite seqZ_cons by lia. simpl. f_equal. lia. }
  cbn [fetch_loop]. destruct (Z.leb_spec p 10); [|lia]. split.
  - intros e ->. by rewrite <- app_assoc, Hpages.
  - intros pre bad post -> -> Hpre Hbad.
    assert (scan_page cutoff_date (pre ++ bad :: post) evs = Raised ValueError)
      as Hscan.
    { clear -Hpre Hbad. revert evs.
      induction pre as [|ev pre IH]; intros evs; simpl.
      - by rewrite Hbad.
      - apply Forall_cons in Hpre as [(d & -> & Hd) Hpre].
        destruct (Z.ltb_spec d cutoff_date); [lia|]. by apply IH. }
    rewrite <- app_assoc, Hpages.
    destruct pre as [|ev pre]; cbn [app] in *; by rewrite Hscan.
Qed.

End get_user_events_outcomes.

Section get_user_events_outcomes_examples.
Import Sample Scenario.

(** The two events that the sample fetch returns are recent, and the head
    of the feed. *)
Lemma get_user_events_recent_prefix_example :
  Forall (recent (H := Civil.datetime) (day0 - timedelta 7))
    [e_day0; e_day1]
  ∧ [e_day0; e_day1] `prefix_of` (feed one_page).*2.
Proof.
  apply (get_user_events_recent_prefix (H := Civil.datetime) one_page day0 7
           [e_day0; e_day1] [1]).
  vm_compute. reflexivity.
Defined.

(** A forbidden second page: the event of the first page is lost. *)
Lemma get_user_events_failure_example :
  get_user_events (H := Civil.datetime) day0 7 forbidden_page_2
  = Some (Raised (HTTPError 403), [1; 2]).
Proof.
  destruct (get_user_events_failure (H := Civil.datetime) forbidden_page_2
              day0 7 2) as [Herror _].
  - lia.
  - intros q Hq. assert (q = 1) as -> by lia.
    split; [reflexivity|]. split; [discriminate|].
    apply Forall_singleton. eexists.
    split; [vm_compute; reflexivity|]. vm_compute. discriminate.
  - apply Herror. reflexivity.
Defined.

End get_user_events_outcomes_examples.

Section link_header.

Lemma strip_prefix_Some p s r : strip_prefix p s = Some r ↔ s = p +:+ r.
Proof.
  revert s. induction p as [|a p IH]; intros s; simpl.
  - split; [by intros [= ->] | by intros ->].
  - destruct s as [|b s]; [done|].
    destruct (decide (a = b)) as [->|Hne].
    + rewrite IH. split; [by intros -> | by intros [= ->]].
    + split; [done | intros [= ? _]; done].
Qed.

Lemma str_prefix_inv p s : str_prefix p s = true → ∃ r, s = p +:+ r.
Proof.
  revert s. induction p as [|a p IH]; intros s; simpl.
  - intros _. by exists s.
  - destruct s as [|b s]; [done|].
    intros [->%bool_decide_eq_true [r ->]%IH]%andb_true_iff. by exists r.
Qed.

Lemma span_digits_inv s ds rest :
  span_digits s = (ds, rest) → s = ds +:+ rest ∧ all_digits ds = true.
Proof.
  revert ds rest. induction s as [|c s IH]; intros ds rest; simpl.
  - by intros [= <- <-].
  - destruct (is_digit c) eqn:Hc; [|by intros [= <- <-]].
    destruct (span_digits s) as [ds' rest']. intros [= <- <-].
    destruct (IH ds' rest' eq_refl) as [-> Hds]. simpl. by rewrite Hc.
Qed.

Lemma span_digits_app ds c rest :
  all_digits ds = true → is_digit c = false →
  span_digits (ds +:+ String c rest) = (ds, String c rest).
Proof.
  intros Hds Hc. induction ds as [|d ds IH]; simpl in *.
  - by rewrite Hc.
  - apply andb_true_iff in Hds as [-> Hds]. by rewrite IH.
Qed.

Lemma match_last_here_inv s ds :
  match_last_here s = Some ds →
  ∃ post, s = last_link "" ds post ∧ page_number ds.
Proof.
  unfold match_last_here, last_link, page_number.
  destruct (strip_prefix "page=" s) as [rest|] eqn:Hs; [|done]. cbn [mbind option_bind].
  apply strip_prefix_Some in Hs as ->.
  destruct (span_digits rest) as [ds' rest'] eqn:Hspan.
  apply span_digits_inv in Hspan as [-> Hds].
  destruct (bool_decide (ds' = "")) eqn:Hne; [done|].
  apply bool_decide_eq_false in Hne.
  destruct (str_prefix last_tail rest') eqn:Hp; [|done].
  apply str_prefix_inv in Hp as [post ->]. intros [= <-]. by exists post.
Qed.

Lemma match_last_here_intro ds post :
  page_number ds → match_last_here (last_link "" ds post) = Some ds.
Proof.
  intros [Hne Hds]. unfold match_last_here, last_link.
  replace (strip_prefix "page=" ("" +:+ "page=" +:+ ds +:+ last_tail +:+ post))
    with (Some (ds +:+ last_tail +:+ post)) by (symmetry; by apply strip_prefix_Some).
  cbn [mbind option_bind].
  change (last_tail +:+ post)
    with (String ">" ("; rel=" +:+ dq +:+ "last" +:+ dq +:+ post)).
  rewrite span_digits_app by done.
  rewrite bool_decide_eq_false_2 by done.
  change (String ">" ("; rel=" +:+ dq +:+ "last" +:+ dq +:+ post))
    with (last_tail +:+ post).
  by rewrite str_prefix_app.
Qed.

Lemma re_search_last_unfold s :
  re_search_last s
  = match match_last_here s with
    | Some ds => Some ds
    | None =>
        match s with
        | String _ s' => re_search_last s'
        | EmptyString => None
        end
    end.
Proof. by destruct s. Qed.

Lemma last_link_cons c pre ds post :
  last_link (String c pre) ds post = String c (last_link pre ds post).
Proof. done. Qed.

(** The search finds what the header advertises, and nothing else. *)
Lemma re_search_last_advertises s ds :
  re_search_last s = Some ds ↔ advertises s ds.
Proof.
  split.
  - revert ds. induction s as [|c s IH]; intros ds;
      rewrite re_search_last_unfold;
      destruct (match_last_here _) as [ds0|] eqn:Hm; try done.
    + intros [= <-]. apply match_last_here_inv in Hm as (post & E & Hds).
      exists "", post. split; [done|]. split; [done|]. simpl. lia.
    + intros (pre & post & -> & Hds & Hleft)%IH.
      exists (String c pre), post. split; [done|]. split; [done|].
      intros [|c' pre'] ds' post' E Hds'.
      * rewrite E, match_last_here_intro in Hm; done.
      * rewrite !last_link_cons in E. injection E as _ E.
        specialize (Hleft _ _ _ E Hds'). simpl. lia.
  - intros (pre & post & -> & Hds & Hleft).
    induction pre as [|c pre IH]; rewrite re_search_last_unfold.
    + by rewrite match_last_here_intro.
    + destruct (match_last_here _) as [ds0|] eqn:Hm.
      * apply match_last_here_inv in Hm as (post0 & E & Hds0).
        specialize (Hleft _ _ _ E Hds0). simpl in Hleft. lia.
      * rewrite last_link_cons. apply IH. intros pre' ds' post' E Hds'.
        specialize (Hleft (String c pre') ds' post').
        rewrite !last_link_cons, E in Hleft. specialize (Hleft eq_refl Hds').
        simpl in Hleft. lia.
Qed.

Lemma re_search_last_malformed s :
  re_search_last s = None ↔ malformed s.
Proof.
  split.
  - induction s as [|c s IH]; rewrite re_search_last_unfold;
      destruct (match_last_here _) as [ds0|] eqn:Hm; try done.
    + intros _ pre ds post E Hds. destruct pre; [|done].
      rewrite E, match_last_here_intro in Hm; done.
    + intros Hs%IH [|c' pre] ds post E Hds.
      * rewrite E, match_last_here_intro in Hm; done.
      * rewrite last_link_cons in E. injection E as _ E. by eapply Hs.
  - intros Hs. destruct (re_search_last s) as [ds|] eqn:E; [|done].
    apply re_search_last_advertises in E as (pre & post & E & Hds & _).
    by destruct (Hs _ _ _ E).
Qed.

Lemma last_link_contains_last pre ds post :
  str_contains "last" (last_link pre ds post) = true.
Proof.
  unfold last_link.
  change (last_tail +:+ post)
    with ((">; rel=" +:+ dq) +:+ "last" +:+ dq +:+ post).
  do 4 apply str_contains_app_r.
  apply str_prefix_contains, str_prefix_app.
Qed.

(** The decimal writing of a number is a page number, and reads back as the
    number. *)
Lemma pretty_N_char_digit (d : N) :
  (d < 10)%N → Ascii.is_nat (pretty_N_char d) = Some (N.to_nat d).
Proof.
  intros Hd.
  assert (d = 0 ∨ d = 1 ∨ d = 2 ∨ d = 3 ∨ d = 4 ∨ d = 5 ∨ d = 6 ∨ d = 7
          ∨ d = 8 ∨ d = 9)%N as Hcases by lia.
  repeat (destruct Hcases as [->|Hcases]; [reflexivity|]). by subst.
Qed.

Lemma pretty_N_go_value (x : N) : ∀ s,
  ∃ m, ∀ acc,
    int_of_digits_from acc (pretty_N_go x s)
    = int_of_digits_from (acc * m + Z.of_N x) s.
Proof.
  induction (N.lt_wf_0 x) as [x _ IH]; intros s.
  destruct (decide (x = 0%N)) as [->|Hx].
  - exists 1. intros acc. rewrite pretty_N_go_0. f_equal. lia.
  - rewrite pretty_N_go_step by lia.
    destruct (IH (x `div` 10)%N) with (s := String (pretty_N_char (x `mod` 10)) s)
      as [m Hm]; [apply N.div_lt; lia|].
    exists (10 * m). intros acc. rewrite Hm. cbn [int_of_digits_from].
    rewrite pretty_N_char_digit by (apply N.mod_lt; lia).
    f_equal. cbn [default from_option id]. rewrite N_nat_Z.
    pose proof (N.div_mod x 10 ltac:(lia)) as Hdm.
    rewrite N2Z.inj_div. rewrite N2Z.inj_mod.
    pose proof (Z.div_mod (Z.of_N x) 10 ltac:(lia)). simpl Z.of_N. lia.
Qed.

Lemma pretty_N_go_digits (x : N) : ∀ s,
  all_digits s = true → all_digits (pretty_N_go x s) = true.
Proof.
  induction (N.lt_wf_0 x) as [x _ IH]; intros s Hs.
  destruct (decide (x = 0%N)) as [->|Hx]; [by rewrite pretty_N_go_0|].
  rewrite pretty_N_go_step by lia. apply IH; [apply N.div_lt; lia|].
  cbn [all_digits]. rewrite Hs, andb_true_r. unfold is_digit.
  by rewrite pretty_N_char_digit by (apply N.mod_lt; lia).
Qed.

Lemma pretty_N_go_length (x : N) : ∀ s,
  (String.length s ≤ String.length (pretty_N_go x s))%nat.
Proof.
  induction (N.lt_wf_0 x) as [x _ IH]; intros s.
  destruct (decide (x = 0%N)) as [->|Hx]; [by rewrite pretty_N_go_0|].
  rewrite pretty_N_go_step by lia.
  etrans; [|apply IH; apply N.div_lt; lia]. simpl. lia.
Qed.

Lemma str_int_page_number (n : Z) :
  0 ≤ n → page_number (str_int n) ∧ int_of_digits (str_int n) = n.
Proof.
  intros Hn. destruct n as [|p|p]; [by split| |lia].
  unfold str_int, pretty, pretty_Z, pretty, pretty_positive, pretty, pretty_N.
  rewrite decide_False by done. split; [split|].
  - intros E. pose proof (pretty_N_go_length (N.pos p) "") as Hlen.
    rewrite pretty_N_go_step in Hlen, E by done.
    pose proof (pretty_N_go_length (N.pos p `div` 10)
                  (String (pretty_N_char (N.pos p `mod` 10)) "")) as Hlen'.
    rewrite E in Hlen'. simpl in Hlen'. lia.
  - by apply pretty_N_go_digits.
  - unfold int_of_digits. destruct (pretty_N_go_value (N.pos p) "") as [m Hm].
    rewrite Hm. simpl. lia.
Qed.

End link_header.

Section get_starred_count.
Context {A : Type}.

(** C5: on a response that is not an error, a [Link] header that advertises
    a last page gives that page number, whatever the items of the page (the
    number [n] when it is written in decimal); with
    no header, or a header without a match of the pattern, the count is the
    number of items of the page, which is 0 or 1 when the page holds at most
    one item. *)
Theorem get_starred_count_link (r : response (list A)) :
  raise_for_status r = Ok () →
  (∀ header ds, link r = Some header → advertises header ds →
     get_starred_count r = Ok (int_of_digits ds))
  ∧ (∀ header n, 0 ≤ n → link r = Some header →
     advertises header (str_int n) → get_starred_count r = Ok n)
  ∧ (link r = None →
     get_starred_count r = Ok (Z.of_nat (length (json r))))
  ∧ (∀ header, link r = Some header → malformed header →
     get_starred_count r = Ok (Z.of_nat (length (json r))))
  ∧ ((length (json r) ≤ 1)%nat →
     link r = None ∨ (∃ header, link r = Some header ∧ malformed header) →
     get_starred_count r = Ok 0 ∨ get_starred_count r = Ok 1).
Proof.
  intros Hok. unfold get_starred_count, count_from_response. rewrite Hok.
  cbn [mbind result_bind].
  assert (∀ header, link r = Some header → malformed header →
            (if str_contains "last" (default "" (link r))
             then match re_search_last (default "" (link r)) with
                  | Some ds => Ok (int_of_digits ds)
                  | None => Ok (Z.of_nat (length (json r)))
                  end
             else Ok (Z.of_nat (length (json r))))
            = Ok (Z.of_nat (length (json r)))) as Hmal.
  { intros header -> Hm%re_search_last_malformed.
    change (default "" (Some header)) with header. rewrite Hm.
    by destruct (str_contains _ _). }
  assert (link r = None →
            (if str_contains "last" (default "" (link r))
             then match re_search_last (default "" (link r)) with
                  | Some ds => Ok (int_of_digits ds)
                  | None => Ok (Z.of_nat (length (json r)))
                  end
             else Ok (Z.of_nat (length (json r))))
            = Ok (Z.of_nat (length (json r)))) as Hnone.
  { by intros ->. }
  assert (∀ header ds, link r = Some header → advertises header ds →
            (if str_contains "last" (default "" (link r))
             then match re_search_last (default "" (link r)) with
                  | Some ds => Ok (int_of_digits ds)
                  | None => Ok (Z.of_nat (length (json r)))
                  end
             else Ok (Z.of_nat (length (json r))))
            = Ok (int_of_digits ds)) as Hlast.
  { intros header ds -> Hadv. change (default "" (Some header)) with header.
    pose proof Hadv as (pre & post & -> & _).
    rewrite last_link_contains_last.
    apply re_search_last_advertises in Hadv. by rewrite Hadv. }
  split; [done|]. split; [|split; [done|split; [done|]]].
  - intros header n Hn Hl Hadv. rewrite (Hlast header (str_int n)) by done.
    f_equal. by apply str_int_page_number.
  - intros Hlen [Hl|(header & Hl & Hm)].
    + rewrite Hnone by done.
      destruct (json r) as [|x [|y l]]; simpl in *; [by left|by right|lia].
    + rewrite (Hmal header) by done.
      destruct (json r) as [|x [|y l]]; simpl in *; [by left|by right|lia].
Qed.

End get_starred_count.

Section get_starred_count_examples.
Import Sample.

(** C5 on a header whose last page is 5: the count is 5, with one item
    fetched. *)
Lemma get_starred_count_link_example :
  get_starred_count (starred (Some link_5) ["octocat/hello"]) = Ok 5.
Proof.
  destruct (get_starred_count_link (starred (Some link_5) ["octocat/hello"])
              eq_refl) as (Hlast & _).
  apply (Hlast link_5 "5"); [reflexivity|].
  apply re_search_last_advertises. vm_compute. reflexivity.
Defined.

Example starred_5_whatever_the_page :
  get_starred_count (starred (Some link_5) []) = Ok 5
  ∧ get_starred_count (starred (Some link_5) ["a"; "b"; "c"]) = Ok 5.
Proof. split; vm_compute; reflexivity. Qed.

Example starred_no_header :
  get_starred_count (starred None []) = Ok 0
  ∧ get_starred_count (starred None ["a"]) = Ok 1.
Proof. split; vm_compute; reflexivity. Qed.

Example starred_broken_header :
  malformed link_broken
  ∧ get_starred_count (starred (Some link_broken) ["a"]) = Ok 1.
Proof.
  split; [apply re_search_last_malformed|]; vm_compute; reflexivity.
Qed.

Example starred_error_status :
  get_starred_count {| status_code := 403; link := Some link_5;
                       json := ["a"] |}
  = Raised (HTTPError 403).
Proof. vm_compute. reflexivity. Qed.

End get_starred_count_examples.

Section counting.
Context {A : Type}.

Lemma int_of_digits_from_nonneg ds : ∀ acc,
  0 ≤ acc → 0 ≤ int_of_digits_from acc ds.
Proof.
  induction ds as [|c ds IH]; intros acc Hacc; simpl; [done|].
  apply IH. lia.
Qed.

(** X6: each of the three counting functions raises exactly on an error
    status, with that status, whatever the header and the page; on any other
    response all three return the same count, which is never negative. *)
Theorem counting_outcome (r : response (list A)) :
  let counts :=
    [get_starred_count r; get_watching_count r; get_gists_count r] in
  (400 ≤ status_code r < 600 →
     Forall (λ c, c = Raised (HTTPError (status_code r))) counts)
  ∧ (¬ (400 ≤ status_code r < 600) →
     ∃ n, 0 ≤ n ∧ Forall (λ c, c = Ok n) counts).
Proof.
  cbn zeta. unfold get_starred_count, get_watching_count, get_gists_count,
    count_from_response, raise_for_status.
  set (count := if str_contains "last" (default "" (link r))
                  then match re_search_last (default "" (link r)) with
                       | Some ds => Ok (int_of_digits ds)
                       | None => Ok (Z.of_nat (length (json r)))
                       end
                  else Ok (Z.of_nat (length (json r)))).
  assert (∃ n, 0 ≤ n ∧ count = Ok n) as (n & Hn & Hcount).
  { unfold count.
    destruct (str_contains _ _); [destruct (re_search_last _) as [ds|]|];
      eexists; (split; [|reflexivity]); try apply Nat2Z.is_nonneg.
    by apply int_of_digits_from_nonneg. }
  destruct (Z.leb_spec 400 (status_code r)), (Z.ltb_spec (status_code r) 600);
    cbn [andb mbind result_bind]; (split; [|intros Hs]); try lia.
  - intros _. by repeat constructor.
  - exists n. split; [done|]. rewrite Hcount. by repeat constructor.
  - exists n. split; [done|]. rewrite Hcount. by repeat constructor.
Qed.

End counting.

Section counter.
Context {K : Type} `{EqDecision K}.
Implicit Types (k x : K) (c : counter K) (l : list K).

Lemma Counter_snoc l x : Counter (l ++ [x]) = counter_incr x (Counter l).
Proof. unfold Counter. by rewrite fold_left_app. Qed.

Lemma counter_incr_keys x c :
  (counter_incr x c).*1 = if decide (x ∈ c.*1) then c.*1 else c.*1 ++ [x].
Proof.
  induction c as [|[k n] c IH]; [done|]. csimpl.
  destruct (decide (x = k)) as [->|Hne]; csimpl.
  - rewrite decide_True by (apply elem_of_cons; tauto). done.
  - rewrite IH. destruct (decide (x ∈ c.*1)) as [Hin|Hnin].
    + rewrite decide_True by (apply elem_of_cons; tauto). done.
    + rewrite decide_False by (rewrite elem_of_cons; tauto). done.
Qed.

Lemma counter_get_incr k x c :
  counter_get k (counter_incr x c)
  = counter_get k c + (if decide (k = x) then 1 else 0).
Proof.
  induction c as [|[k' n] c IH]; simpl.
  - destruct (decide (k = x)); lia.
  - destruct (decide (x = k')) as [->|Hne]; simpl.
    + destruct (decide (k = k')); lia.
    + destruct (decide (k = k')) as [->|Hne'].
      * rewrite decide_False by done. lia.
      * exact IH.
Qed.

Lemma occurrences_snoc k l x :
  occurrences k (l ++ [x])
  = occurrences k l + (if decide (k = x) then 1 else 0).
Proof.
  unfold occurrences. rewrite filter_app, length_app.
  destruct (decide (k = x)) as [->|Hne].
  - rewrite (filter_cons_True _ x []) by done. simpl. lia.
  - rewrite (filter_cons_False _ x []) by done. simpl. lia.
Qed.

Lemma occurrences_nonneg k l : 0 ≤ occurrences k l.
Proof. unfold occurrences. lia. Qed.

Lemma occurrences_not_in k l : k ∉ l → occurrences k l = 0.
Proof.
  intros Hk. unfold occurrences.
  destruct (filter (k =.) l) as [|y f] eqn:E; [done|].
  assert (y ∈ filter (k =.) l) as [<- ?]%list_elem_of_filter
    by (rewrite E; set_solver).
  done.
Qed.

Lemma Counter_get k l : counter_get k (Counter l) = occurrences k l.
Proof.
  induction l as [|x l IH] using rev_ind; [done|].
  by rewrite Counter_snoc, counter_get_incr, occurrences_snoc, IH.
Qed.

Lemma Counter_keys_elem k l : k ∈ (Counter l).*1 ↔ k ∈ l.
Proof.
  induction l as [|x l IH] using rev_ind.
  - simpl. split; intros []%elem_of_nil.
  - rewrite Counter_snoc, counter_incr_keys, elem_of_app, list_elem_of_singleton.
    destruct (decide (x ∈ (Counter l).*1)) as [Hin|Hnin].
    + rewrite IH. split; [tauto|]. intros [?| ->]; [done|]. by apply IH.
    + rewrite elem_of_app, list_elem_of_singleton, IH. done.
Qed.

Lemma Counter_keys_NoDup l : NoDup (Counter l).*1.
Proof.
  induction l as [|x l IH] using rev_ind; [constructor|].
  rewrite Counter_snoc, counter_incr_keys.
  destruct (decide (x ∈ (Counter l).*1)) as [Hin|Hnin]; [done|].
  apply NoDup_app. split; [done|]. split; [|apply NoDup_singleton].
  intros y Hy ->%list_elem_of_singleton. done.
Qed.

(** The keys of a counter stand in the order of their first occurrence. *)
Lemma Counter_keys_order l : ∀ (c1 : list K) k (c2 : list K),
  (Counter l).*1 = c1 ++ k :: c2 →
  ∃ pre post, l = pre ++ k :: post ∧ (k ∉ pre) ∧ ∀ k', k' ∈ c2 → k' ∉ pre.
Proof.
  induction l as [|x l IH] using rev_ind; intros c1 k c2.
  - simpl. intros E. by destruct c1.
  - rewrite Counter_snoc, counter_incr_keys.
    destruct (decide (x ∈ (Counter l).*1)) as [Hin|Hnin].
    + intros (pre & post & -> & ? & ?)%IH.
      exists pre, (post ++ [x]). by rewrite <- app_assoc.
    + destruct c2 as [|y c2 _] using rev_ind.
      * intros [_ <-]%(app_inj_tail _ c1).
        exists l, []. split; [done|]. split.
        -- by rewrite <- Counter_keys_elem.
        -- intros k' []%elem_of_nil.
      * replace (c1 ++ k :: c2 ++ [y]) with ((c1 ++ k :: c2) ++ [y])
          by (by rewrite <- app_assoc).
        intros [E ->]%app_inj_tail.
        destruct (IH _ _ _ E) as (pre & post & -> & Hk & Hc2).
        exists pre, (post ++ [y]). rewrite <- app_assoc. split; [done|].
        split; [done|]. intros k' [Hk'|Hk']%elem_of_app;
          [|apply list_elem_of_singleton in Hk' as ->].
        -- by apply Hc2.
        -- intros Hy. apply Hnin, Counter_keys_elem. set_solver.
Qed.

Lemma counter_get_elem k n c : NoDup c.*1 → (k, n) ∈ c → counter_get k c = n.
Proof.
  induction c as [|[k' n'] c IH]; simpl; intros Hnd Hin.
  - by apply elem_of_nil in Hin.
  - apply NoDup_cons in Hnd as [Hk' Hnd].
    apply elem_of_cons in Hin as [[= -> ->]|Hin].
    + by rewrite decide_True.
    + destruct (decide (k = k')) as [->|Hne]; [|by apply IH].
      destruct Hk'. apply list_elem_of_fmap. by exists (k', n).
Qed.

Lemma max_by_count_ge (best : K * Z) items :
  best.2 ≤ (max_by_count best items).2.
Proof.
  revert best. induction items as [|x items IH]; intros best; simpl; [lia|].
  destruct (Z.gtb_spec x.2 best.2).
  - specialize (IH x). lia.
  - apply IH.
Qed.

(** [max] keeps the first of the items of greatest count. *)
Lemma max_by_count_first (best : K * Z) items :
  ∃ c1 c2, best :: items = c1 ++ max_by_count best items :: c2
    ∧ (∀ y, y ∈ c1 → y.2 < (max_by_count best items).2)
    ∧ (∀ y, y ∈ c2 → y.2 ≤ (max_by_count best items).2).
Proof.
  revert best. induction items as [|x items IH]; intros best; simpl.
  - exists [], []. split; [done|]. split; intros y []%elem_of_nil.
  - destruct (Z.gtb_spec x.2 best.2) as [Hgt|Hle].
    + destruct (IH x) as (c1 & c2 & E & H1 & H2).
      exists (best :: c1), c2. split; [by rewrite E|]. split; [|done].
      intros y [->|Hy]%elem_of_cons; [|by apply H1].
      pose proof (max_by_count_ge x items). lia.
    + destruct (IH best) as (c1 & c2 & E & H1 & H2).
      set (r := max_by_count best items) in *.
      destruct c1 as [|b c1]; injection E as Hb Hi.
      * exists [], (x :: items). split; [by rewrite <- Hb|].
        split; [intros y []%elem_of_nil|].
        intros y [->|Hy]%elem_of_cons; [rewrite <- Hb; lia|].
        apply H2. by rewrite <- Hi.
      * subst b. exists (best :: x :: c1), c2.
        split; [simpl; by rewrite <- Hi|]. split; [|done].
        assert (best.2 < r.2) by (apply H1, elem_of_cons; tauto).
        intros y [->|[->|Hy]%elem_of_cons]%elem_of_cons; [done|lia|].
        apply H1, elem_of_cons. tauto.
Qed.

End counter.

Section analyze_repos.
Implicit Types (srv : probe_server) (repos : list repo).

Lemma license_keys_nil repos :
  license_keys repos = [] ↔ ∀ r, r ∈ repos → repo_license r = None.
Proof.
  unfold license_keys. induction repos as [|r repos IH]; csimpl.
  - split; [intros _ r []%elem_of_nil | done].
  - destruct (repo_license r) as [li|] eqn:E; csimpl.
    + split; [done|]. intros H. specialize (H r). rewrite E in H.
      discriminate H. apply elem_of_cons. tauto.
    + rewrite IH. split.
      * intros H r' [->|?]%elem_of_cons; auto.
      * intros H r' ?. apply H, elem_of_cons. tauto.
Qed.

(** The license mode is a stable argmax of the frequencies. *)
Lemma most_common_license_argmax (ls : list (option string)) :
  ls ≠ [] →
  ∃ k pre post,
    most_common_license ls = Ok k
    ∧ ls = pre ++ k :: post
    ∧ (k ∉ pre)
    ∧ ∀ k', occurrences k' ls ≤ occurrences k ls
            ∧ (occurrences k' ls = occurrences k ls → k' ∉ pre).
Proof.
  intros Hne. unfold most_common_license.
  destruct ls as [|l0 ls0] eqn:Els; [done|]. rewrite <- Els in *. clear Hne.
  assert (l0 ∈ ls) as Hl0 by (rewrite Els; apply elem_of_cons; tauto).
  assert (∀ k' n', (k', n') ∈ Counter ls → n' = occurrences k' ls) as Hocc.
  { intros k' n' Hin. rewrite <- Counter_get.
    symmetry. apply counter_get_elem; [apply Counter_keys_NoDup | done]. }
  pose proof (Counter_keys_elem (K := option string)) as Hkeys.
  pose proof (Counter_keys_order ls) as Horder.
  specialize (Hkeys) with (l := ls).
  destruct (Counter ls) as [|x items].
  { apply Hkeys in Hl0. by apply elem_of_nil in Hl0. }
  cbn [most_common_1].
  destruct (max_by_count_first x items) as (c1 & c2 & E & H1 & H2).
  destruct (max_by_count x items) as [k n]. cbn [snd] in H1, H2.
  destruct (Horder (c1.*1) k (c2.*1)) as (pre & post & E' & Hk & Hc2).
  { by rewrite E, fmap_app. }
  assert (n = occurrences k ls) as Hn.
  { apply Hocc. rewrite E. apply elem_of_app. right.
    apply elem_of_cons. tauto. }
  exists k, pre, post. split; [done|]. split; [done|]. split; [done|].
  intros k'. destruct (decide (k' ∈ ls)) as [Hin|Hnin].
  - apply Hkeys, list_elem_of_fmap in Hin as ([k'' n'] & -> & Hin).
    cbn [fst]. pose proof (Hocc _ _ Hin) as Hn'.
    rewrite E in Hin.
    apply elem_of_app in Hin as [Hin|[[= -> ->]|Hin]%elem_of_cons].
    + specialize (H1 _ Hin). cbn [snd] in H1. split; lia.
    + split; [lia|done].
    + specialize (H2 _ Hin). cbn [snd] in H2. split; [lia|]. intros _.
      apply Hc2, list_elem_of_fmap. by exists (k'', n').
  - rewrite (occurrences_not_in k' ls Hnin). split.
    + apply occurrences_nonneg.
    + intros _ Hpre. apply Hnin. rewrite E'. apply elem_of_app. tauto.
Qed.

(** C3, with the sentinel the code has: [analyze_repos] returns, and when no
    repository declares a license the license is the string None (capital
    N); otherwise it is a declared key of greatest frequency, and no key of
    the same frequency occurs before its first occurrence. *)
Theorem analyze_repos_license srv repos :
  ∃ stats sent,
    analyze_repos srv repos = Ok (stats, sent)
    ∧ let ls := license_keys repos in
      let k := license stats in
      ((∀ r, r ∈ repos → repo_license r = None) → k = Some "None")
      ∧ ((∃ r, r ∈ repos ∧ repo_license r ≠ None) →
         ∃ pre post,
           ls = pre ++ k :: post
           ∧ (k ∉ pre)
           ∧ ∀ k', occurrences k' ls ≤ occurrences k ls
                   ∧ (occurrences k' ls = occurrences k ls → k' ∉ pre)).
Proof.
  unfold analyze_repos.
  destruct (license_keys repos) as [|l0 ls0] eqn:Els.
  - eexists _, _. split; [reflexivity|]. cbn zeta. cbn [license]. split; [done|].
    intros (r & Hr & Hlic). rewrite license_keys_nil in Els. by destruct Hlic; auto.
  - destruct (most_common_license_argmax (l0 :: ls0))
      as (k & pre & post & Hk & Hargmax); [done|].
    rewrite Hk. eexists _, _. split; [reflexivity|]. cbn zeta. cbn [license].
    split.
    + intros Hnone. rewrite <- license_keys_nil in Hnone. by rewrite Hnone in Els.
    + intros _. by exists pre, post.
Qed.

(** [analyze_repos] raises nothing. *)
Lemma analyze_repos_returns srv repos :
  ∃ stats sent, analyze_repos srv repos = Ok (stats, sent).
Proof.
  unfold analyze_repos.
  destruct (license_keys repos) as [|l0 ls0] eqn:Els.
  - by eexists _, _.
  - destruct (most_common_license_argmax (l0 :: ls0))
      as (k & pre & post & Hk & Hargmax); [done|].
    rewrite Hk. by eexists _, _.
Qed.

Lemma analyze_repos_inv srv repos stats sent :
  analyze_repos srv repos = Ok (stats, sent) →
  packages stats = 0
  ∧ releases stats
    = releases_count (fold_left (probe_repo srv) (take 10 repos)
                        {| releases_count := 0; requested := [] |})
  ∧ sent
    = requested (fold_left (probe_repo srv) (take 10 repos)
                   {| releases_count := 0; requested := [] |}).
Proof.
  unfold analyze_repos.
  destruct (most_common_license _) as [k|e]; [|done].
  cbn [mbind result_bind]. by intros [= <- <-].
Qed.

(** C9: [analyze_repos] returns, the snapshot it returns reports zero
    packages, and so does the dict of statistics built around it. *)
Theorem analyze_repos_packages srv repos :
  ∃ stats sent,
    analyze_repos srv repos = Ok (stats, sent)
    ∧ packages stats = 0
    ∧ ∀ activity_stats (orgs : list string) starred watching open_issues
        issue_comments,
        packages (s_repos (assemble_stats stats activity_stats orgs starred
                             watching open_issues issue_comments)) = 0.
Proof.
  destruct (analyze_repos_returns srv repos) as (stats & sent & E).
  exists stats, sent. split; [done|].
  by apply analyze_repos_inv in E as [? _].
Qed.

Lemma contribution_failure (o : probe_outcome) :
  (∃ e, o = ProbeRaised e)
  ∨ (∃ status body, o = ProbeResponse status body
                    ∧ ¬ (200 ≤ status < 300)) →
  contribution o = 0.
Proof.
  intros [[e ->]|(status & body & -> & Hs)]; [done|]. simpl.
  destruct (Z.eqb_spec status 200); [lia|done].
Qed.

Lemma probe_repo_requested srv st r :
  requested (probe_repo srv st r) = requested st ++ release_urls [r].
Proof.
  unfold probe_repo, release_urls, releases_request. csimpl.
  by destruct (releases_url r).
Qed.

Lemma probe_repo_count srv st r :
  releases_count (probe_repo srv st r)
  = releases_count st
    + sum_list_Z (imap (λ i url, contribution (srv (length (requested st) + i)%nat url))
                       (release_urls [r])).
Proof.
  unfold probe_repo, probe_try, release_urls, releases_request. csimpl.
  destruct (releases_url r) as [u|]; csimpl; [|lia].
  rewrite Nat.add_0_r.
  destruct (srv _ _) as [e|status [n|]]; simpl; try lia;
    destruct (status =? 200); simpl; lia.
Qed.

Lemma sum_list_Z_app l1 l2 :
  sum_list_Z (l1 ++ l2) = sum_list_Z l1 + sum_list_Z l2.
Proof. unfold sum_list_Z. induction l1; simpl; lia. Qed.

Lemma release_urls_app repos1 repos2 :
  release_urls (repos1 ++ repos2) = release_urls repos1 ++ release_urls repos2.
Proof. apply omap_app. Qed.

Lemma probe_loop srv repos : ∀ st,
  let st' := fold_left (probe_repo srv) repos st in
  requested st' = requested st ++ release_urls repos
  ∧ releases_count st'
    = releases_count st
      + sum_list_Z (imap (λ i url, contribution (srv (length (requested st) + i)%nat url))
                         (release_urls repos)).
Proof.
  induction repos as [|r repos IH]; intros st; cbn zeta.
  - simpl. rewrite app_nil_r. split; [done|]. unfold sum_list_Z. simpl. lia.
  - cbn [fold_left]. destruct (IH (probe_repo srv st r)) as [IH1 IH2].
    rewrite IH1, IH2, probe_repo_requested, probe_repo_count.
    change (r :: repos) with ([r] ++ repos).
    rewrite release_urls_app, <- app_assoc. split; [done|].
    rewrite imap_app, sum_list_Z_app, <- Z.add_assoc. f_equal. f_equal.
    f_equal. apply imap_ext. intros i url _. simpl.
    rewrite length_app. do 2 f_equal. lia.
Qed.

Lemma release_urls_length repos : (length (release_urls repos) ≤ length repos)%nat.
Proof.
  unfold release_urls. induction repos as [|r repos IH]; csimpl; [lia|].
  destruct (releases_url r); csimpl; lia.
Qed.

(** An exception in the [try] leaves the count as it was. *)
Lemma probe_repo_swallows srv st r e :
  probe_try srv (length (requested st)) r = Raised e →
  releases_count (probe_repo srv st r) = releases_count st.
Proof. unfold probe_repo. by intros ->. Qed.

(** C6: [analyze_repos] returns whatever the probes meet; only the first ten
    repositories are probed, each of them whatever became of the earlier
    probes; the release total is the sum of what the outcomes contribute,
    and an outcome that is an exception or a response outside the 2xx range
    contributes 0. *)
Theorem analyze_repos_releases srv repos :
  ∃ stats sent,
    analyze_repos srv repos = Ok (stats, sent)
    ∧ sent = release_urls (take 10 repos)
    ∧ (length sent ≤ 10)%nat
    ∧ releases stats
      = sum_list_Z (imap (λ i url, contribution (srv i url)) sent)
    ∧ (∀ o, (∃ e, o = ProbeRaised e)
            ∨ (∃ status body, o = ProbeResponse status body
                              ∧ ¬ (200 ≤ status < 300)) →
            contribution o = 0)
    ∧ (∀ st r e, probe_try srv (length (requested st)) r = Raised e →
                 releases_count (probe_repo srv st r) = releases_count st).
Proof.
  destruct (analyze_repos_returns srv repos) as (stats & sent & E).
  exists stats, sent. split; [done|].
  apply analyze_repos_inv in E as (_ & -> & ->).
  destruct (probe_loop srv (take 10 repos)
              {| releases_count := 0; requested := [] |}) as [H1 H2].
  cbn zeta in H1, H2. simpl in H1, H2.
  rewrite H1, H2. repeat split.
  - pose proof (release_urls_length (take 10 repos)) as Hlen.
    rewrite length_take in Hlen. lia.
  - apply contribution_failure.
  - apply probe_repo_swallows.
Qed.

End analyze_repos.

Section analyze_repos_examples.
Import Sample.

Example license_mit_mit_apache :
  license_of (analyze_repos flaky
                [licensed "mit"; licensed "mit"; licensed "apache-2.0"])
  = Ok (Some "mit").
Proof. vm_compute. reflexivity. Qed.

(** Of two keys of the same frequency, the one met first wins. *)
Example license_tie_first :
  license_of (analyze_repos flaky
                [unlicensed; licensed "apache-2.0"; licensed "mit";
                 licensed "mit"; licensed "apache-2.0"])
  = Ok (Some "apache-2.0").
Proof. vm_compute. reflexivity. Qed.

(** C3, as stated, fails on a list with no license: the sentinel is the
    string None with a capital N, not the string none. *)
Lemma license_sentinel_is_None :
  (∀ r, r ∈ [unlicensed; unlicensed] → repo_license r = None)
  ∧ license_of (analyze_repos flaky [unlicensed; unlicensed])
    = Ok (Some "None")
  ∧ license_of (analyze_repos flaky [unlicensed; unlicensed])
    ≠ Ok (Some "none").
Proof.
  split; [|split].
  - intros r Hr. repeat (apply elem_of_cons in Hr as [->|Hr]; [done|]).
    by apply elem_of_nil in Hr.
  - vm_compute. reflexivity.
  - vm_compute. discriminate.
Qed.

(** A time-out and a 404 contribute nothing, and the probe goes on. *)
Example releases_flaky :
  releases_of (analyze_repos flaky
                 [licensed "a"; licensed "b"; licensed "c"; licensed "d"])
  = Ok (6, 4%nat).
Proof. vm_compute. reflexivity. Qed.

(** The eleventh repository and those after it are not probed. *)
Example releases_first_ten :
  releases_of (analyze_repos flaky (replicate 12 (licensed "a")))
  = Ok (24, 10%nat).
Proof. vm_compute. reflexivity. Qed.

End analyze_repos_examples.

Section analyze_repos_totals.
Implicit Types (srv : probe_server) (repos : list repo).

Lemma sum_field_from (field : repo → option Z) repos : ∀ acc,
  fold_left (λ acc r, acc + default 0 (field r)) repos acc
  = acc + sum_field field repos.
Proof.
  unfold sum_field. induction repos as [|r repos IH]; intros acc; simpl; [lia|].
  rewrite IH, (IH (0 + default 0 (field r))). lia.
Qed.

Lemma sum_field_app (field : repo → option Z) repos1 repos2 :
  sum_field field (repos1 ++ repos2)
  = sum_field field repos1 + sum_field field repos2.
Proof.
  unfold sum_field at 1. rewrite fold_left_app.
  fold (sum_field field repos1). apply sum_field_from.
Qed.

Lemma analyze_repos_sums srv repos stats sent :
  analyze_repos srv repos = Ok (stats, sent) →
  total_stars stats = sum_field stargazers_count repos
  ∧ total_forks stats = sum_field forks_count repos
  ∧ total_watchers stats = sum_field watchers_count repos
  ∧ disk_usage stats = sum_field size repos.
Proof.
  unfold analyze_repos.
  destruct (most_common_license _) as [k|e]; [|done].
  cbn [mbind result_bind]. by intros [= <- _].
Qed.

(** X7: the four totals of [analyze_repos] run over every repository, not
    only the ten that are probed: the totals of two lists add up to the
    totals of the lists joined, whatever the probes meet, and a repository
    counts for the value of its field, or for 0 when it lacks it. *)
Theorem analyze_repos_totals srv srv1 srv2 repos1 repos2 :
  ∃ s sent s1 sent1 s2 sent2,
    analyze_repos srv (repos1 ++ repos2) = Ok (s, sent)
    ∧ analyze_repos srv1 repos1 = Ok (s1, sent1)
    ∧ analyze_repos srv2 repos2 = Ok (s2, sent2)
    ∧ total_stars s = total_stars s1 + total_stars s2
    ∧ total_forks s = total_forks s1 + total_forks s2
    ∧ total_watchers s = total_watchers s1 + total_watchers s2
    ∧ disk_usage s = disk_usage s1 + disk_usage s2
    ∧ ∀ r, ∃ s0 sent0,
        analyze_repos srv [r] = Ok (s0, sent0)
        ∧ total_stars s0 = default 0 (stargazers_count r)
        ∧ total_forks s0 = default 0 (forks_count r)
        ∧ total_watchers s0 = default 0 (watchers_count r)
        ∧ disk_usage s0 = default 0 (size r).
Proof.
  destruct (analyze_repos_returns srv (repos1 ++ repos2)) as (s & sent & E).
  destruct (analyze_repos_returns srv1 repos1) as (s1 & sent1 & E1).
  destruct (analyze_repos_returns srv2 repos2) as (s2 & sent2 & E2).
  exists s, sent, s1, sent1, s2, sent2. do 3 (split; [done|]).
  apply analyze_repos_sums in E as (-> & -> & -> & ->).
  apply analyze_repos_sums in E1 as (-> & -> & -> & ->).
  apply analyze_repos_sums in E2 as (-> & -> & -> & ->).
  rewrite !sum_field_app. do 4 (split; [done|]).
  intros r. destruct (analyze_repos_returns srv [r]) as (s0 & sent0 & E0).
  exists s0, sent0. split; [done|].
  apply analyze_repos_sums in E0 as (-> & -> & -> & ->).
  unfold sum_field. simpl. done.
Qed.

End analyze_repos_totals.

Section releases_request.

Lemma strip_id_template_other c s :
  c ≠ "{"%char →
  strip_id_template (String c s) = String c (strip_id_template s).
Proof.
  intros Hc. destruct c as [[] [] [] [] [] [] [] []]; try reflexivity.
  by destruct Hc.
Qed.

Lemma strip_id_template_suffix base :
  str_contains "{" base = false →
  strip_id_template (base +:+ "{/id}") = base.
Proof.
  induction base as [|c base IH]; [done|].
  cbn [str_contains str_prefix]. rewrite andb_true_r.
  intros [Hc Hbase]%orb_false_iff. apply bool_decide_eq_false in Hc.
  rewrite str_app_cons, strip_id_template_other by (by intros ->).
  by rewrite IH.
Qed.

(** X8: the probe of a repository asks for its releases at its
    [releases_url] with the template [{/id}] taken out: for a url that ends
    with the template and holds no other brace, at what stands before the
    template. *)
Theorem releases_request_template (r : repo) (base : string) :
  releases_url r = Some (base +:+ "{/id}") →
  str_contains "{" base = false →
  releases_request r = Ok base.
Proof.
  intros Hurl Hbase. unfold releases_request. rewrite Hurl.
  by rewrite strip_id_template_suffix.
Qed.

End releases_request.

Section analyze_repos_totals_examples.
Import Sample.

(** The request for the releases of a sample repository. *)
Lemma releases_request_template_example :
  releases_request (licensed "mit")
  = Ok "https://api.github.com/repos/u/mit/releases".
Proof.
  apply releases_request_template; reflexivity.
Defined.

(** Twelve repositories: all of them count in the totals, ten are probed. *)
Example totals_of_twelve :
  analyze_repos flaky (replicate 12 (licensed "mit"))
  = Ok ({| license := Some "mit"; releases := 24; packages := 0;
           disk_usage := 24576; total_stars := 12; total_forks := 0;
           total_watchers := 12 |},
        replicate 10 "https://api.github.com/repos/u/mit/releases").
Proof. vm_compute. reflexivity. Qed.

End analyze_repos_totals_examples.

Section contribution_calendar.
Context `{Datetime}.

Lemma color_of_tiers (count : Z) :
  (count = 0 → color_of count = "#ebedf0")
  ∧ (1 ≤ count ≤ 3 → color_of count = "#9be9a8")
  ∧ (4 ≤ count ≤ 6 → color_of count = "#40c463")
  ∧ (7 ≤ count ≤ 9 → color_of count = "#30a14e")
  ∧ (10 ≤ count → color_of count = "#216e39").
Proof.
  unfold color_of.
  destruct (Z.eqb_spec count 0), (Z.leb_spec count 3), (Z.leb_spec count 6),
    (Z.leb_spec count 9); repeat split; intros; try done; lia.
Qed.

(** C2: the calendar is a table of exactly seven cells, one for each of the
    seven days that end today (a day is 86400000000 microseconds), the
    oldest first; the cell of a day is the text written out below, with the
    color of the count of its date and the abbreviated name of the day as
    its label; the color goes by five tiers. *)
Theorem contribution_calendar_cells (now : Z) (dc : gmap string Z) :
  let day := 86400000000 in
  let cell (t : Z) :=
    "<td align='center' style='padding: 5px;'><div style='background-color: "
    +:+ color_of (default 0 (dc !! strftime_date t))
    +:+ "; width: 30px; height: 30px; border-radius: 3px;'></div><small>"
    +:+ strftime_a t +:+ "</small></td>" in
  generate_contribution_calendar now dc
  = "<table><tr>"
    +:+ cell (now - 6 * day) +:+ cell (now - 5 * day) +:+ cell (now - 4 * day)
    +:+ cell (now - 3 * day) +:+ cell (now - 2 * day) +:+ cell (now - 1 * day)
    +:+ cell now
    +:+ "</tr></table>"
  ∧ ∀ count,
      (count = 0 → color_of count = "#ebedf0")
      ∧ (1 ≤ count ≤ 3 → color_of count = "#9be9a8")
      ∧ (4 ≤ count ≤ 6 → color_of count = "#40c463")
      ∧ (7 ≤ count ≤ 9 → color_of count = "#30a14e")
      ∧ (10 ≤ count → color_of count = "#216e39").
Proof.
  cbv zeta. split; [|apply color_of_tiers].
  unfold generate_contribution_calendar, calendar_cell, timedelta.
  cbn [fold_left]. replace (now - 0 * 86400000000) with now by lia.
  by rewrite !str_app_assoc.
Qed.

End contribution_calendar.

Section contribution_calendar_examples.

(** The week that ends on Friday 10 May 2024, with counts on three of its
    days. *)
Example calendar_of_a_week :
  generate_contribution_calendar (H := Civil.datetime) Sample.day0
    {[ "2024-05-04" := 2; "2024-05-08" := 7; "2024-05-10" := 12;
       "2024-04-01" := 40 ]}
  = str_concat
      ["<table><tr>";
       calendar_cell "#9be9a8" "Sat"; calendar_cell "#ebedf0" "Sun";
       calendar_cell "#ebedf0" "Mon"; calendar_cell "#ebedf0" "Tue";
       calendar_cell "#30a14e" "Wed"; calendar_cell "#ebedf0" "Thu";
       calendar_cell "#216e39" "Fri";
       "</tr></table>"].
Proof. vm_compute. reflexivity. Qed.

Example color_of_bounds :
  color_of <$> [0; 1; 3; 4; 6; 7; 9; 10; 250]
  = ["#ebedf0"; "#9be9a8"; "#9be9a8"; "#40c463"; "#40c463"; "#30a14e";
     "#30a14e"; "#216e39"; "#216e39"].
Proof. vm_compute. reflexivity. Qed.

End contribution_calendar_examples.

Section contribution_summary.

(** C1, as the code has it: the bucket is chosen from the sum of the values,
    with the bounds 5 and 15 inclusive; every message but the one for a total
    of 0 starts with the decimal total. *)
Theorem contribution_summary_buckets (dc : gmap string Z) :
  let total := sum_values dc in
  let s := generate_contribution_summary dc in
  (total = 0 → s = "No contributions in the last 7 days")
  ∧ (1 ≤ total ≤ 5 →
       s = str_int total +:+ " contributions - Light activity this week")
  ∧ (6 ≤ total ≤ 15 →
       s = str_int total +:+ " contributions - Moderate activity this week")
  ∧ (15 < total →
       s = str_int total +:+ " contributions - High activity this week")
  ∧ (total ≠ 0 → str_prefix (str_int total) s = true
                 ∧ str_contains (str_int total) s = true).
Proof.
  intros total s. subst s. unfold generate_contribution_summary.
  fold total. repeat split.
  - intros ->. done.
  - intros H. destruct (Z.eqb_spec total 0); [lia|].
    destruct (Z.leb_spec total 5); [done|lia].
  - intros H. destruct (Z.eqb_spec total 0); [lia|].
    destruct (Z.leb_spec total 5); [lia|].
    destruct (Z.leb_spec total 15); [done|lia].
  - intros H. destruct (Z.eqb_spec total 0); [lia|].
    destruct (Z.leb_spec total 5); [lia|].
    destruct (Z.leb_spec total 15); [lia|done].
  - destruct (Z.eqb_spec total 0); [done|].
    destruct (total <=? 5); [apply str_prefix_app|].
    destruct (total <=? 15); apply str_prefix_app.
  - destruct (Z.eqb_spec total 0); [done|].
    apply str_prefix_contains.
    destruct (total <=? 5); [apply str_prefix_app|].
    destruct (total <=? 15); apply str_prefix_app.
Qed.

(** C1, as stated, fails at the empty mapping: the total is 0 and the
    message does not hold the digit 0. *)
Lemma contribution_summary_zero_not_embedded :
  sum_values ∅ = 0
  ∧ generate_contribution_summary ∅ = "No contributions in the last 7 days"
  ∧ str_contains (str_int (sum_values ∅)) (generate_contribution_summary ∅)
    = false.
Proof. repeat split; vm_compute; reflexivity. Qed.

Example summary_5 :
  generate_contribution_summary {[ "2024-05-01" := 2; "2024-05-02" := 3 ]}
  = "5 contributions - Light activity this week".
Proof. vm_compute. reflexivity. Qed.

Example summary_6 :
  generate_contribution_summary {[ "2024-05-01" := 6 ]}
  = "6 contributions - Moderate activity this week".
Proof. vm_compute. reflexivity. Qed.

Example summary_15 :
  generate_contribution_summary {[ "2024-05-01" := 7; "2024-05-03" := 8 ]}
  = "15 contributions - Moderate activity this week".
Proof. vm_compute. reflexivity. Qed.

Example summary_16 :
  generate_contribution_summary {[ "2024-05-01" := 16 ]}
  = "16 contributions - High activity this week".
Proof. vm_compute. reflexivity. Qed.

End contribution_summary.

Section renderer.
Context `{Datetime} `{FloatFormat}.
Variable cfg : gmap string (gmap string bool).

Lemma seq_out (s1 s2 : step) y_pos :
  ((s1 >>> s2) y_pos).1 = (s1 y_pos).1 ++ (s2 (s1 y_pos).2).1.
Proof.
  unfold and_then. destruct (s1 y_pos) as [o1 y1]. simpl.
  by destruct (s2 y1).
Qed.

Lemma sound_seq s1 s2 : sound cfg s1 → sound cfg s2 → sound cfg (s1 >>> s2).
Proof. intros H1 H2 y. rewrite seq_out. apply Forall_app. split; auto. Qed.

Lemma sound_when (b : bool) s : (b = true → sound cfg s) → sound cfg (when b s).
Proof. intros Hs y. unfold when. destruct b; [by apply Hs | constructor]. Qed.

Lemma sound_emit p text :
  enabled cfg p = true → labelled (p, text) → sound cfg (emit p text).
Proof. intros Hp Ht y. by apply Forall_singleton. Qed.

Lemma sound_emit_at p (text : Z → string) :
  enabled cfg p = true → (∀ y_pos, labelled (p, text y_pos)) →
  sound cfg (emit_at p text).
Proof. intros Hp Ht y. apply Forall_singleton. split; [done | apply Ht]. Qed.

Lemma sound_set_y y : sound cfg (set_y y).
Proof. intros ?. constructor. Qed.

Lemma sound_advance : sound cfg advance.
Proof. intros ?. constructor. Qed.

Lemma sound_for_each {A} (l : list A) (f : A → step) :
  (∀ i, sound cfg (f i)) → sound cfg (for_each l f).
Proof.
  intros Hf. induction l as [|i l IH]; simpl.
  - intros ?. constructor.
  - by apply sound_seq.
Qed.

Lemma emits_seq_l p s1 s2 : emits p s1 → emits p (s1 >>> s2).
Proof.
  intros Hp y. rewrite seq_out, fmap_app. apply elem_of_app. left. apply Hp.
Qed.

Lemma emits_seq_r p s1 s2 : emits p s2 → emits p (s1 >>> s2).
Proof.
  intros Hp y. rewrite seq_out, fmap_app. apply elem_of_app. right. apply Hp.
Qed.

Lemma emits_when p (b : bool) s : b = true → emits p s → emits p (when b s).
Proof. intros -> Hp y. apply Hp. Qed.

Lemma emits_emit p text : emits p (emit p text).
Proof. intros y. apply list_elem_of_singleton. done. Qed.

Lemma emits_emit_at p (text : Z → string) : emits p (emit_at p text).
Proof. intros y. apply list_elem_of_singleton. done. Qed.

Lemma stat_row_label lead icon x label value unit y_pos :
  str_contains label (stat_row lead icon x label value unit y_pos) = true.
Proof.
  unfold stat_row. do 12 apply str_contains_app_r.
  apply str_prefix_contains, str_prefix_app.
Qed.

Lemma any_fmap {A} (f : A → bool) (l : list A) :
  any (f <$> l) = true ↔ ∃ x, x ∈ l ∧ f x = true.
Proof.
  induction l as [|a l IH]; csimpl.
  - split; [done | by intros (x & ?%elem_of_nil & _)].
  - rewrite orb_true_iff, IH. split.
    + intros [Ha|(x & Hx & Hfx)]; [exists a | exists x];
        (split; [apply elem_of_cons; tauto | done]).
    + intros (x & [->|Hx]%elem_of_cons & Hfx); [by left|right; by exists x].
Qed.

End renderer.

(** Proves [sound] of a run, statement by statement. *)
Ltac sound_steps :=
  repeat first
    [ apply sound_seq
    | apply sound_set_y
    | apply sound_advance
    | apply sound_when; intros ?
    | apply sound_for_each; intros ?
    | apply sound_emit_at; [assumption || reflexivity | intros ?]
    | apply sound_emit; [assumption || reflexivity | ] ].

(** Finds the statement that appends the piece of a part. *)
Ltac find_emit :=
  first
    [ apply emits_emit
    | apply emits_emit_at
    | apply emits_when; [assumption | find_emit]
    | apply emits_seq_l; find_emit
    | apply emits_seq_r; find_emit ].

Section profile_section.
Context `{Datetime} `{FloatFormat}.
Variables (cfg : gmap string (gmap string bool)) (username : string) (now : Z).
Variables (profile : gmap string pyval) (stats : snapshot).

Lemma profile_section_sound created_at :
  sound cfg (profile_section_steps cfg username now profile stats created_at).
Proof.
  unfold profile_section_steps. cbv zeta. unfold calendar_cells. cbv zeta.
  sound_steps; try exact I; try apply stat_row_label;
    try (vm_compute; reflexivity).
Qed.

Lemma profile_section_field p key created_at :
  key ∈ panel_keys p → cfg_get cfg (section_name p) key = true →
  emits (Field p key)
    (profile_section_steps cfg username now profile stats created_at).
Proof.
  intros Hkey Hflag. unfold profile_section_steps. cbv zeta.
  destruct p; simpl in Hkey, Hflag;
    repeat (apply elem_of_cons in Hkey as [->|Hkey]; [find_emit|]);
    by apply elem_of_nil in Hkey.
Qed.

Lemma profile_section_header p created_at :
  any (cfg_get cfg (section_name p) <$> panel_keys p) = true →
  emits (Header p)
    (profile_section_steps cfg username now profile stats created_at).
Proof.
  intros Hany. unfold profile_section_steps. cbv zeta.
  destruct p; find_emit.
Qed.

(** C7: in the pieces of the markup, the piece of a field of a panel is
    there exactly when its boolean is enabled, and holds the label of the
    field; the header of a panel is there exactly when one of its fields is
    enabled, and holds the title of the panel; the markup is the pieces, one
    after the other, so that it shows the label of every enabled field and
    the title of its panel. *)
Theorem profile_section_gating (pieces : list (part * string)) :
  profile_section_pieces cfg username now profile stats = Ok pieces →
  (∀ p key, key ∈ panel_keys p →
     (Field p key ∈ pieces.*1 ↔ cfg_get cfg (section_name p) key = true))
  ∧ (∀ p, Header p ∈ pieces.*1
          ↔ ∃ key, key ∈ panel_keys p
                   ∧ cfg_get cfg (section_name p) key = true)
  ∧ (∀ p key text, (Field p key, text) ∈ pieces →
       str_contains (field_label key) text = true)
  ∧ (∀ p text, (Header p, text) ∈ pieces →
       str_contains (panel_title p) text = true)
  ∧ generate_profile_section cfg username now profile stats
    = Ok (str_concat pieces.*2)
  ∧ (∀ p key, key ∈ panel_keys p →
       cfg_get cfg (section_name p) key = true →
       str_contains (field_label key) (str_concat pieces.*2) = true
       ∧ str_contains (panel_title p) (str_concat pieces.*2) = true).
Proof.
  unfold generate_profile_section, profile_section_pieces.
  destruct (joined profile) as [created_at|e]; [|done].
  cbn [mbind result_bind]. intros [= <-].
  pose proof (profile_section_sound created_at 0) as Hsound.
  rewrite Forall_forall in Hsound.
  set (pieces :=
         (profile_section_steps cfg username now profile stats created_at 0).1)
    in *.
  assert (∀ q, q ∈ pieces.*1 → enabled cfg q = true) as Hen.
  { intros q ([q' text] & -> & Hin)%list_elem_of_fmap.
    by apply Hsound in Hin as [Hq _]. }
  assert (∀ q needle,
            q ∈ pieces.*1 →
            (∀ text, (q, text) ∈ pieces → str_contains needle text = true) →
            str_contains needle (str_concat pieces.*2) = true) as Hshown.
  { intros q needle ([q' text] & -> & Hin)%list_elem_of_fmap Htext.
    apply (str_concat_contains _ text); [|by apply Htext].
    apply list_elem_of_fmap. by exists (q', text). }
  split; [|split; [|split; [|split; [|split]]]].
  - intros p key Hkey. split; [apply (Hen (Field p key))|].
    intros Hflag. by apply profile_section_field.
  - intros p. rewrite <- any_fmap. split; [apply (Hen (Header p))|].
    intros Hany. by apply profile_section_header.
  - intros p key text Hin. by apply Hsound in Hin as [_ Hl].
  - intros p text Hin. by apply Hsound in Hin as [_ Hl].
  - done.
  - intros p key Hkey Hflag. split.
    + apply (Hshown (Field p key)); [by apply profile_section_field|].
      intros text Hin. by apply Hsound in Hin as [_ Hl].
    + apply (Hshown (Header p)).
      * apply profile_section_header, any_fmap. by exists key.
      * intros text Hin. by apply Hsound in Hin as [_ Hl].
Qed.

End profile_section.

Section profile_section_examples.
Import Sample.

(** C7 on a configuration that disables the whole activity panel: its header
    and its fields are gone, the other panels stand. *)
Lemma profile_section_gating_example :
  ∃ pieces,
    markup_pieces no_activity = Ok pieces
    ∧ (Header Activity ∉ pieces.*1)
    ∧ (Field Activity "commits" ∉ pieces.*1)
    ∧ Header Community ∈ pieces.*1
    ∧ Field Community "starred" ∈ pieces.*1.
Proof.
  eexists. split; [vm_compute; reflexivity|].
  match goal with
  | |- (?l ∉ ?ps.*1) ∧ _ =>
      destruct (@profile_section_gating Civil.datetime Float.float_format
                  no_activity "octocat" day0 octocat week ps
                  ltac:(vm_compute; reflexivity))
        as (Hfield & Hheader & _)
  end.
  split; [|split; [|split]].
  - rewrite Hheader. intros (key & Hkey & Hflag). simpl in Hkey.
    repeat (apply elem_of_cons in Hkey as [->|Hkey]; [discriminate Hflag|]).
    by apply elem_of_nil in Hkey.
  - rewrite Hfield; [discriminate | apply elem_of_cons; tauto].
  - apply Hheader. exists "starred". split; [|reflexivity].
    simpl. rewrite !elem_of_cons. tauto.
  - apply Hfield; [|reflexivity]. simpl. rewrite !elem_of_cons. tauto.
Defined.

(** With every field enabled, by the built-in configuration or by an empty
    one, every header and label is in the markup. *)
Example markup_default :
  markup default_config = markup ∅
  ∧ forallb (λ needle, shows needle (markup ∅))
      ["Activity Stats"; "Community Stats"; "Repository Stats"; "Metadata";
       "Commits (7d): 5"; "PR Reviews: 1"; "Issue Comments: 11";
       "Starred: 5"; "License: mit"; "Packages: 0"; "Disk: 1.50 MB";
       "Watchers: 7"; "Joined: January 25, 2011"; "Available for hire: No"]
    = true.
Proof. split; vm_compute; reflexivity. Qed.

(** Every field of a panel disabled: its header is omitted. *)
Example markup_no_activity :
  produced (markup no_activity) = true
  ∧ existsb (λ needle, shows needle (markup no_activity))
      ["Activity Stats"; "Commits (7d)"; "PR Reviews"; "PRs Opened";
       "Issues Open"; "Issue Comments"]
    = false
  ∧ forallb (λ needle, shows needle (markup no_activity))
      ["Community Stats"; "Repository Stats"; "Metadata"; "Starred: 5"]
    = true.
Proof. repeat split; vm_compute; reflexivity. Qed.

(** One field of several disabled: the header and the other fields stay. *)
Example markup_no_commits :
  shows "Commits (7d)" (markup no_commits) = false
  ∧ forallb (λ needle, shows needle (markup no_commits))
      ["Activity Stats"; "PR Reviews: 1"; "PRs Opened: 2"; "Issues Open: 3";
       "Issue Comments: 11"]
    = true.
Proof. split; vm_compute; reflexivity. Qed.

End profile_section_examples.

Section renderer_order.
Context `{Datetime} `{FloatFormat}.
Variable cfg : gmap string (gmap string bool).

Lemma appends_seq s1 s2 l1 l2 :
  appends cfg s1 l1 → appends cfg s2 l2 → appends cfg (s1 >>> s2) (l1 ++ l2).
Proof.
  intros H1 H2 y. unfold let_through.
  rewrite seq_out, fmap_app, filter_app. by rewrite H1, H2.
Qed.

Lemma appends_set_y y : appends cfg (set_y y) [].
Proof. by intros ?. Qed.

Lemma appends_emit p text :
  enabled cfg p = true → appends cfg (emit p text) [p].
Proof.
  intros Hp y. unfold let_through. rewrite filter_cons, decide_True by done.
  done.
Qed.

(** A guarded run whose parts all stand under its guard. *)
Lemma appends_when (b : bool) s l :
  (∀ y_pos, (s y_pos).1.*1 = l) → Forall (λ p, enabled cfg p = b) l →
  appends cfg (when b s) l.
Proof.
  intros Hs Hl y. unfold when, let_through. destruct b.
  - rewrite Hs. symmetry. clear Hs.
    induction Hl as [|p l Hp Hl IH]; [done|].
    by rewrite filter_cons, decide_True, IH.
  - simpl. symmetry. clear Hs.
    induction Hl as [|p l Hp Hl IH]; [done|].
    rewrite filter_cons, decide_False; [done|]. by rewrite Hp.
Qed.

Lemma appends_when_emit (b : bool) p text :
  enabled cfg p = b → appends cfg (when b (emit p text)) [p].
Proof. intros Hp. apply appends_when; [done|by constructor]. Qed.

Lemma appends_when_emit_at (b : bool) p (text : Z → string) :
  enabled cfg p = b → appends cfg (when b (emit_at p text)) [p].
Proof. intros Hp. apply appends_when; [done|by constructor]. Qed.

Lemma appends_when_row (b : bool) p (text : Z → string) :
  enabled cfg p = b → appends cfg (when b (emit_at p text >>> advance)) [p].
Proof. intros Hp. apply appends_when; [done|by constructor]. Qed.

Lemma appends_when_calendar (b : bool) now stats :
  cfg_get cfg "calendar" "enabled" = b →
  appends cfg (when b (calendar_cells now stats))
    (flat_map (λ i, [CalendarRect i; CalendarLabel i]) [6; 5; 4; 3; 2; 1; 0]).
Proof. intros Hp. apply appends_when; [done|]. by repeat constructor. Qed.

Lemma appends_eq s l l' : appends cfg s l → l = l' → appends cfg s l'.
Proof. by intros ? <-. Qed.

End renderer_order.

(** Proves [appends] of a run, statement by statement. *)
Ltac append_steps :=
  repeat first
    [ eapply appends_seq
    | apply appends_set_y
    | apply appends_when_row; reflexivity
    | apply appends_when_emit_at; reflexivity
    | apply appends_when_emit; reflexivity
    | apply appends_when_calendar; reflexivity
    | apply appends_emit; reflexivity ].

Section profile_section_order.
Context `{Datetime} `{FloatFormat}.
Variables (cfg : gmap string (gmap string bool)) (username : string) (now : Z).
Variables (profile : gmap string pyval) (stats : snapshot).

Lemma profile_section_appends created_at :
  appends cfg
    (profile_section_steps cfg username now profile stats created_at)
    all_parts.
Proof.
  unfold profile_section_steps. cbv zeta.
  eapply appends_eq; [append_steps|reflexivity].
Qed.

(** X9: the pieces of the markup come in one fixed order, whatever the
    configuration: they are the parts of [all_parts] that the configuration
    lets through, in the order of that list and as often as they stand in
    it. *)
Theorem profile_section_order (pieces : list (part * string)) :
  profile_section_pieces cfg username now profile stats = Ok pieces →
  pieces.*1 = let_through cfg all_parts.
Proof.
  unfold profile_section_pieces.
  destruct (joined profile) as [created_at|e]; [|done].
  cbn [mbind result_bind]. intros [= <-]. apply profile_section_appends.
Qed.

End profile_section_order.

Section renderer_heights.
Variable P : part * string → Prop.

Lemma seq_y (s1 s2 : step) y_pos :
  ((s1 >>> s2) y_pos).2 = (s2 (s1 y_pos).2).2.
Proof.
  unfold and_then. destruct (s1 y_pos) as [o1 y1]. simpl.
  by destruct (s2 y1).
Qed.

Lemma runs_seq pre mid post s1 s2 :
  runs P pre s1 mid → runs P mid s2 post → runs P pre (s1 >>> s2) post.
Proof.
  intros H1 H2 y Hy. destruct (H1 y Hy) as [Ho1 Hy1].
  destruct (H2 _ Hy1) as [Ho2 Hy2]. rewrite seq_out, seq_y.
  split; [by apply Forall_app|done].
Qed.

Lemma runs_set_y pre v : runs P pre (set_y v) (λ y, y = v).
Proof. intros y _. split; [constructor|done]. Qed.

Lemma runs_emit pre p text : P (p, text) → runs P pre (emit p text) pre.
Proof. intros Hp y Hy. split; [by apply Forall_singleton|done]. Qed.

Lemma runs_emit_at pre p (text : Z → string) :
  (∀ y, pre y → P (p, text y)) → runs P pre (emit_at p text) pre.
Proof. intros Hp y Hy. split; [by apply Forall_singleton, Hp|done]. Qed.

Lemma runs_when_row pre (b : bool) p (text : Z → string) :
  (b = true → ∀ y, pre y → P (p, text y)) →
  runs P pre (when b (emit_at p text >>> advance))
    (λ y, pre (y - (if b then 25 else 0))).
Proof.
  intros Hp y Hy. unfold when. destruct b; simpl.
  - split; [by apply Forall_singleton, Hp|].
    by replace (y + 25 - 25) with y by lia.
  - split; [constructor|]. by replace (y - 0) with y by lia.
Qed.

Lemma runs_when pre (b : bool) s :
  (b = true → runs P pre s pre) → runs P pre (when b s) pre.
Proof.
  intros Hs y Hy. unfold when. destruct b; [by apply Hs|].
  split; [constructor|done].
Qed.

Lemma runs_for_each {A} pre (l : list A) (f : A → step) :
  (∀ i, runs P pre (f i) pre) → runs P pre (for_each l f) pre.
Proof.
  intros Hf. induction l as [|i l IH]; simpl.
  - intros y Hy. split; [constructor|done].
  - by eapply runs_seq.
Qed.

Lemma runs_skip pre : runs P pre skip pre.
Proof. intros y Hy. split; [constructor|done]. Qed.

End renderer_heights.

Section markup_text.

Lemma stat_row_text lead icon x label value unit y :
  stat_row lead icon x label value unit y
  = lead +:+ icon_line icon x y (x + 18) (y + 10) "13"
               (label +:+ value +:+ unit).
Proof.
  unfold stat_row, icon_line, attr, indent, str_int.
  rewrite !str_app_assoc. reflexivity.
Qed.

Lemma profile_row_text icon label value y :
  profile_row icon label value y
  = indent +:+ indent +:+ icon_line icon 20 y 42 (y + 12) "14"
                            (label +:+ value).
Proof.
  unfold profile_row, icon_line, attr, indent, str_int.
  rewrite !str_app_assoc. reflexivity.
Qed.

Lemma name_text_line name : name_text name = name_line name.
Proof.
  unfold name_text, name_line, attr, indent.
  rewrite !str_app_assoc. reflexivity.
Qed.

Lemma calendar_rect_text x color :
  calendar_rect x 60 color = square_text x color.
Proof.
  unfold calendar_rect, square_text, attr, str_int.
  rewrite !str_app_assoc. reflexivity.
Qed.

Lemma calendar_label_text x day_name :
  calendar_label x 60 day_name = label_text x day_name.
Proof.
  unfold calendar_label, label_text, attr, str_int.
  rewrite !str_app_assoc. reflexivity.
Qed.

Lemma py_str_str_of v : py_str v = str_of v.
Proof. by destruct v as [|[]| |]. Qed.

Lemma truthy_bool_of v : truthy v = bool_of v.
Proof.
  destruct v as [|b|n|s]; simpl; [done|done| |].
  - destruct (Z.eqb_spec n 0); simpl.
    + by rewrite bool_decide_eq_false_2 by (by intros []).
    + by rewrite bool_decide_eq_true_2.
  - case_bool_decide; simpl.
    + by rewrite bool_decide_eq_false_2 by (by intros []).
    + by rewrite bool_decide_eq_true_2.
Qed.

End markup_text.

(** Proves [runs] of a run, statement by statement. *)
Ltac run_steps :=
  repeat first
    [ apply runs_for_each; intros ?
    | apply runs_skip
    | eapply runs_seq
    | apply runs_set_y
    | apply runs_when_row; intros ? ? ?
    | apply runs_when; intros ?
    | apply runs_emit_at; intros ? ?
    | apply runs_emit ].

(** Settles the height of a line from what the lines before it left. *)
Ltac stacked_height :=
  unfold field_y, profile_y; cbn [rows_before panel_keys profile_keys
    section_name String.eqb Ascii.eqb Bool.eqb];
  repeat match goal with
         | Hy : context [if cfg_get ?c ?s ?k then _ else _] |- _ => revert Hy
         end;
  repeat match goal with
         | |- context [cfg_get ?c ?s ?k] => destruct (cfg_get c s k)
         end;
  intros; lia.

(** Sets the height of a line to its stacked height, and compares the
    texts. *)
Ltac in_place y :=
  match goal with
  | |- context [field_y ?c ?p ?k] =>
      replace y with (field_y c p k) by (symmetry; stacked_height)
  | |- context [profile_y ?c ?k] =>
      replace y with (profile_y c k) by (symmetry; stacked_height)
  end;
  reflexivity.

Section profile_section_rows.
Context `{Datetime} `{FloatFormat}.
Variables (cfg : gmap string (gmap string bool)) (username : string) (now : Z).
Variables (profile : gmap string pyval) (stats : snapshot).

Lemma profile_section_placed created_at :
  ∃ post,
    runs (placed cfg username created_at profile stats) (λ _, True)
      (profile_section_steps cfg username now profile stats created_at) post.
Proof.
  eexists. unfold profile_section_steps. cbv zeta. unfold calendar_cells.
  cbv zeta.
  run_steps; try exact I; unfold placed; cbn [fst snd].
  all: try (rewrite decide_True by done; rewrite name_text_line,
              py_str_str_of; reflexivity).
  all: try (rewrite decide_False by done).
  all: eexists; rewrite ?stat_row_text, ?profile_row_text, ?py_str_str_of,
         ?truthy_bool_of.
  all: match goal with
       | |- context [icon_line _ _ ?y _ _ _ _] => is_var y; in_place y
       end.
Qed.

(** X10: every line of the markup is in its place, as its text says. The line
    of a field draws its icon at the x of its panel (20, 240, 460 or 680)
    and its label with its own statistic 18 to the right, at the height 210
    plus 25 for each enabled field before it in the panel; the lines of the
    profile block are drawn from the height 58 on in the same way; so the
    lines of a block are 25 apart, and a disabled line leaves no gap. The
    name is the profile's when it has the key (the text None when it is
    null), the user name otherwise. *)
Theorem profile_section_rows (pieces : list (part * string)) :
  profile_section_pieces cfg username now profile stats = Ok pieces →
  ∃ created_at,
    joined profile = Ok created_at
    ∧ Forall (placed cfg username created_at profile stats) pieces.
Proof.
  unfold profile_section_pieces.
  destruct (joined profile) as [created_at|e]; [|done].
  cbn [mbind result_bind]. intros [= <-]. exists created_at. split; [done|].
  destruct (profile_section_placed created_at) as [post Hruns].
  by apply (Hruns 0).
Qed.

End profile_section_rows.

Section profile_section_envelope.
Context `{Datetime} `{FloatFormat}.
Variables (username : string) (now : Z).
Variables (profile : gmap string pyval) (stats : snapshot).

Lemma ends_with_seq pc s1 s2 : ends_with pc s2 → ends_with pc (s1 >>> s2).
Proof.
  intros H2 y. destruct (H2 (s1 y).2) as [l Hl].
  exists ((s1 y).1 ++ l). by rewrite seq_out, Hl, app_assoc.
Qed.

Lemma ends_with_emit p text : ends_with (p, text) (emit p text).
Proof. intros y. by exists []. Qed.

Lemma str_concat_app l1 l2 :
  str_concat (l1 ++ l2) = str_concat l1 +:+ str_concat l2.
Proof.
  induction l1 as [|x l1 IH]; [done|].
  cbn [app str_concat foldr]. fold (str_concat (l1 ++ l2)).
  fold (str_concat l1). by rewrite IH, str_app_assoc.
Qed.

Lemma str_app_nil_r (s : string) : s +:+ "" = s.
Proof. induction s as [|c s IH]; [done|]. by rewrite str_app_cons, IH. Qed.

Lemma profile_section_ends cfg created_at :
  ∃ rest,
    profile_section_steps cfg username now profile stats created_at
    = emit Prelude svg_prelude >>> rest
    ∧ ends_with (Closing, closing) rest.
Proof.
  eexists. split; [reflexivity|].
  repeat (apply ends_with_seq). apply ends_with_emit.
Qed.

(** X11: the markup, whenever it is produced, opens with the fixed head of
    the graphic (the [svg] element, the icons and the background) and ends
    with the closing tag, whatever the configuration, the profile and the
    statistics. *)
Theorem profile_section_envelope cfg (markup : string) :
  generate_profile_section cfg username now profile stats = Ok markup →
  ∃ body, markup = svg_prelude +:+ body +:+ closing.
Proof.
  unfold generate_profile_section, profile_section_pieces.
  destruct (joined profile) as [created_at|e]; [|done].
  cbn [mbind result_bind]. intros [= <-].
  destruct (profile_section_ends cfg created_at) as (rest & -> & Hend).
  rewrite seq_out. destruct (Hend (emit Prelude svg_prelude 0).2) as [l ->].
  exists (str_concat l.*2). cbn [emit fst]. rewrite !fmap_app, !str_concat_app.
  cbn [str_concat foldr fmap list_fmap snd]. by rewrite !str_app_nil_r.
Qed.

(** X13: the renderer reads the configuration through its twenty-two switches
    only, each of which counts as set when the configuration does not hold
    it: two configurations that set the switches alike give the same
    outcome, whatever else they hold. *)
Theorem profile_section_switches cfg1 cfg2 :
  same_switches cfg1 cfg2 →
  generate_profile_section cfg1 username now profile stats
  = generate_profile_section cfg2 username now profile stats.
Proof.
  intros Hsame. unfold generate_profile_section, profile_section_pieces.
  destruct (joined profile) as [created_at|e]; [|done].
  cbn [mbind result_bind]. do 3 f_equal.
  unfold same_switches, switches in Hsame. cbn in Hsame.
  repeat match type of Hsame with
         | Forall _ (_ :: _) =>
             let Hk := fresh "Hk" in
             apply Forall_cons in Hsame as [Hk Hsame]; cbn [fst snd] in Hk
         end.
  unfold profile_section_steps. cbv zeta.
  repeat match goal with
         | Hk : cfg_get cfg1 _ _ = _ |- _ => rewrite Hk; clear Hk
         end.
  reflexivity.
Qed.

End profile_section_envelope.

Section renderer_calendar.
Context `{Datetime}.

Lemma draws_seq s1 s2 l1 l2 :
  draws s1 l1 → draws s2 l2 → draws (s1 >>> s2) (l1 ++ l2).
Proof. intros H1 H2 y. by rewrite seq_out, filter_app, H1, H2. Qed.

Lemma draws_set_y y : draws (set_y y) [].
Proof. by intros ?. Qed.

Lemma draws_advance : draws advance [].
Proof. by intros ?. Qed.

Lemma draws_emit p text : is_cell (p, text) = false → draws (emit p text) [].
Proof.
  intros Hp y. cbn [emit fst]. rewrite filter_cons, decide_False; [done|].
  by rewrite Hp.
Qed.

Lemma draws_emit_at p (text : Z → string) :
  is_cell (p, "") = false → draws (emit_at p text) [].
Proof.
  intros Hp y. cbn [emit_at fst]. rewrite filter_cons, decide_False; [done|].
  unfold is_cell in *. simpl in *. by rewrite Hp.
Qed.

Lemma draws_when (b : bool) s : draws s [] → draws (when b s) [].
Proof. intros Hs y. unfold when. destruct b; [apply Hs|done]. Qed.

Lemma draws_calendar (b : bool) today stats :
  draws (when b (calendar_cells today stats))
    (if b then squares (s_daily_contributions stats) today else []).
Proof.
  intros y. destruct b; [|done]. unfold when, calendar_cells, squares.
  cbn [for_each foldr flat_map day_square app]. unfold timedelta.
  rewrite <- !calendar_rect_text, <- !calendar_label_text. reflexivity.
Qed.

Lemma draws_eq s l l' : draws s l → l = l' → draws s l'.
Proof. by intros ? <-. Qed.

End renderer_calendar.

(** Proves [draws] of a run, statement by statement. *)
Ltac draw_steps :=
  repeat first
    [ eapply draws_seq
    | apply draws_calendar
    | apply draws_set_y
    | apply draws_advance
    | apply draws_when
    | apply draws_emit_at; reflexivity
    | apply draws_emit; reflexivity ].

Section profile_section_calendar.
Context `{Datetime} `{FloatFormat}.
Variables (cfg : gmap string (gmap string bool)) (username : string) (now : Z).
Variables (profile : gmap string pyval) (stats : snapshot).

Lemma profile_section_draws created_at :
  draws (profile_section_steps cfg username now profile stats created_at)
    (if cfg_get cfg "calendar" "enabled"
     then squares (s_daily_contributions stats) now else []).
Proof.
  unfold profile_section_steps. cbv zeta.
  eapply draws_eq; [draw_steps|].
  cbn [app]. by rewrite app_nil_r.
Qed.

(** X14: the calendar of the graphic, when it is enabled, is seven squares,
    each with its label after it, for the seven days that end with today,
    the oldest first and leftmost: the square of the [k]-th day is a [rect]
    of 35 by 35 at x = 550 + 45 k and y = 60, filled with the color of the
    count of its date on the five tiers; its label is the abbreviated name
    of the day, at x + 17 and y = 115. When it is disabled no square and no
    label is drawn. *)
Theorem profile_section_calendar (pieces : list (part * string)) :
  profile_section_pieces cfg username now profile stats = Ok pieces →
  filter (λ pc, is_cell pc = true) pieces
  = (if cfg_get cfg "calendar" "enabled"
     then squares (s_daily_contributions stats) now else [])
  ∧ ∀ count,
      (count = 0 → color_of count = "#ebedf0")
      ∧ (1 ≤ count ≤ 3 → color_of count = "#9be9a8")
      ∧ (4 ≤ count ≤ 6 → color_of count = "#40c463")
      ∧ (7 ≤ count ≤ 9 → color_of count = "#30a14e")
      ∧ (10 ≤ count → color_of count = "#216e39").
Proof.
  unfold profile_section_pieces.
  destruct (joined profile) as [created_at|e]; [|done].
  cbn [mbind result_bind]. intros [= <-].
  split; [apply profile_section_draws|apply color_of_tiers].
Qed.

End profile_section_calendar.

Section profile_section_layout_examples.
Import Sample Scenario.

(** The parts of the markup without the commits line. *)
Lemma profile_section_order_example :
  (pieces_of no_commits).*1 = let_through no_commits all_parts.
Proof.
  apply (profile_section_order (H := Civil.datetime)
           (H0 := Float.float_format) no_commits "octocat" day0 octocat week).
  vm_compute. reflexivity.
Defined.

(** Without the commits line, every line is in its place. *)
Lemma profile_section_rows_example :
  Forall (placed (H := Float.float_format) no_commits "octocat"
            "January 25, 2011" octocat week)
    (pieces_of no_commits).
Proof.
  destruct (profile_section_rows (H := Civil.datetime)
              (H0 := Float.float_format) no_commits "octocat" day0 octocat
              week (pieces_of no_commits))
    as (created_at & Hjoined & Hplaced).
  - vm_compute. reflexivity.
  - vm_compute in Hjoined. injection Hjoined as <-. exact Hplaced.
Defined.

(** Without the commits line the reviews line moves up to the first
    height. *)
Example reviews_line_moves_up :
  field_y default_config Activity "pr_reviews" = 235
  ∧ field_y no_commits Activity "pr_reviews" = 210
  ∧ pieces_of no_commits !! 26%nat
    = Some (Field Activity "pr_reviews",
            indent +:+ indent
            +:+ "<use" +:+ attr "href" "#eye-icon" +:+ attr "x" "20"
            +:+ attr "y" "210" +:+ "/>" +:+ indent
            +:+ "<text" +:+ attr "x" "38" +:+ attr "y" "220"
            +:+ attr "font-family" "Arial" +:+ attr "font-size" "13"
            +:+ attr "fill" "#c9d1d9" +:+ ">PR Reviews: 1</text>").
Proof. repeat split; vm_compute; reflexivity. Qed.

(** The sample markup between its head and its closing tag. *)
Lemma profile_section_envelope_example :
  ∃ body, markup_text ∅ = svg_prelude +:+ body +:+ closing.
Proof.
  apply (profile_section_envelope (H := Civil.datetime)
           (H0 := Float.float_format) "octocat" day0 octocat week ∅).
  vm_compute. reflexivity.
Defined.

(** The empty configuration is rendered as the built-in one. *)
Lemma profile_section_switches_example :
  markup ∅ = markup default_config.
Proof.
  apply profile_section_switches. unfold same_switches, switches.
  cbn [fmap list_fmap app section_name panel_keys]. repeat constructor.
Defined.

(** A profile whose name is null is shown under the name None; one without
    the key, under the user name. *)
Example name_of_the_profile :
  shows ">None</text>" (generate_profile_section (H := Civil.datetime)
                          (H0 := Float.float_format) ∅ "octocat" day0
                          (<["name" := PyNone]> octocat) week) = true
  ∧ shows ">octocat</text>" (generate_profile_section (H := Civil.datetime)
                               (H0 := Float.float_format) ∅ "octocat" day0
                               (delete "name" octocat) week) = true.
Proof. split; vm_compute; reflexivity. Qed.

(** No [created_at], no markup, even when the line is disabled. *)
Example created_at_missing :
  generate_profile_section (H := Civil.datetime) (H0 := Float.float_format)
    {[ "profile" := {[ "joined_date" := false ]} ]} "octocat" day0
    (delete "created_at" octocat) week
  = Raised (KeyError "created_at").
Proof. vm_compute. reflexivity. Qed.

End profile_section_layout_examples.

Section profile_section_calendar_examples.
Import Sample Scenario.

(** The calendar of the sample week: seven squares and seven labels. *)
Lemma profile_section_calendar_example :
  filter (λ pc, is_cell pc = true) (pieces_of ∅)
  = squares (H := Civil.datetime) (s_daily_contributions week) day0.
Proof.
  assert (markup_pieces ∅ = Ok (pieces_of ∅)) as Hpieces
    by (vm_compute; reflexivity).
  exact (proj1 (profile_section_calendar (H := Civil.datetime)
                  (H0 := Float.float_format) ∅ "octocat" day0 octocat week
                  (pieces_of ∅) Hpieces)).
Defined.

(** Wednesday 8 May, the fifth day of the sample week, with seven
    contributions. *)
Example calendar_of_the_sample_week :
  squares (H := Civil.datetime) (s_daily_contributions week) day0 !! 8%nat
  = Some (CalendarRect 2,
          "  <rect" +:+ attr "x" "730" +:+ attr "y" "60"
          +:+ attr "width" "35" +:+ attr "height" "35"
          +:+ attr "fill" "#30a14e" +:+ attr "rx" "3" +:+ "/>"
          +:+ String "010"%char "")
  ∧ str_contains (">Wed</text>")
      (default "" (snd <$> squares (H := Civil.datetime)
                             (s_daily_contributions week) day0 !! 9%nat))
    = true.
Proof. split; vm_compute; reflexivity. Qed.

End profile_section_calendar_examples.

Section update_readme.
Implicit Types (st : fs) (path content : string).

Lemma persist_svg_written svg_content st :
  written (persist_svg svg_content st)
  = written st ++ (if differs svg_path svg_content st then [svg_path] else []).
Proof.
  unfold persist_svg, differs.
  destruct (fs_exists svg_path st); simpl; [|done].
  destruct (bool_decide _); simpl; [|done]. by rewrite app_nil_r.
Qed.

Lemma persist_svg_files svg_content st :
  files (persist_svg svg_content st)
  = if differs svg_path svg_content st
    then <[svg_path := svg_content]> (files st) else files st.
Proof.
  unfold persist_svg, differs.
  destruct (fs_exists svg_path st); simpl; [|done].
  by destruct (bool_decide _).
Qed.

Lemma persist_readme_written username readme_path st :
  written (persist_readme username readme_path st)
  = written st
    ++ (if differs readme_path (readme_content username) st
        then [readme_path] else []).
Proof.
  unfold persist_readme, differs.
  destruct (fs_exists readme_path st) eqn:Hex; cbn zeta.
  - destruct (bool_decide _); simpl.
    + unfold fs_exists in *. simpl. rewrite Hex. simpl. by rewrite app_nil_r.
    + done.
  - simpl. done.
Qed.

Lemma persist_readme_files username readme_path st :
  files (persist_readme username readme_path st)
  = if differs readme_path (readme_content username) st
    then <[readme_path := readme_content username]> (files st) else files st.
Proof.
  unfold persist_readme, differs.
  destruct (fs_exists readme_path st) eqn:Hex; cbn zeta.
  - destruct (bool_decide _); simpl.
    + unfold fs_exists in *. simpl. rewrite Hex. done.
    + done.
  - simpl. done.
Qed.

(** A file that holds [content] does not differ from it, when [content]
    reads back as written. *)
Lemma differs_holds path content st :
  reads_back content → files st !! path = Some content →
  differs path content st = false.
Proof.
  intros Hrb Hf. unfold differs, fs_exists, fs_read. rewrite Hf. simpl.
  by rewrite bool_decide_eq_true_2.
Qed.

Lemma differs_files path content st st' :
  files st' !! path = files st !! path →
  differs path content st' = differs path content st.
Proof. intros Hf. unfold differs, fs_exists, fs_read. by rewrite Hf. Qed.

(** After a run of either half, its file does not differ any more. *)
Lemma persist_svg_settled svg_content st :
  reads_back svg_content →
  differs svg_path svg_content (persist_svg svg_content st) = false.
Proof.
  intros Hrb. destruct (differs svg_path svg_content st) eqn:Hd.
  - apply differs_holds; [done|]. rewrite persist_svg_files, Hd.
    apply lookup_insert_eq.
  - rewrite <- Hd. apply differs_files. by rewrite persist_svg_files, Hd.
Qed.

Lemma persist_readme_settled username readme_path st :
  reads_back (readme_content username) →
  differs readme_path (readme_content username)
    (persist_readme username readme_path st) = false.
Proof.
  intros Hrb.
  destruct (differs readme_path (readme_content username) st) eqn:Hd.
  - apply differs_holds; [done|]. rewrite persist_readme_files, Hd.
    apply lookup_insert_eq.
  - rewrite <- Hd. apply differs_files. by rewrite persist_readme_files, Hd.
Qed.

Lemma writes_to_app path st (l : list string) st' :
  written st' = written st ++ l →
  writes_to path st' = (writes_to path st + length (filter (path =.) l))%nat.
Proof. intros E. unfold writes_to. by rewrite E, filter_app, length_app. Qed.

(** What the comparison of [update_readme] achieves: each half writes its
    file exactly when the file is missing or reads as something else than
    the new content; for a content that reads back as written, that is one
    that holds no carriage return, a second run with the same content
    writes nothing, so that of two runs in a row only the first can write,
    and it writes once to a file that differed. *)
Theorem update_readme_idempotent username readme_path svg_content :
  (∀ st, written (persist_svg svg_content st)
         = written st
           ++ (if differs svg_path svg_content st then [svg_path] else []))
  ∧ (∀ st, written (persist_readme username readme_path st)
           = written st
             ++ (if differs readme_path (readme_content username) st
                 then [readme_path] else []))
  ∧ (reads_back svg_content → ∀ st,
       written (persist_svg svg_content (persist_svg svg_content st))
       = written (persist_svg svg_content st))
  ∧ (reads_back (readme_content username) → ∀ st,
       written (persist_readme username readme_path
                  (persist_readme username readme_path st))
       = written (persist_readme username readme_path st))
  ∧ (reads_back svg_content → reads_back (readme_content username) →
     readme_path ≠ svg_path → ∀ st,
       let st1 := update_readme username readme_path svg_content st in
       let st2 := update_readme username readme_path svg_content st1 in
       written st2 = written st1
       ∧ (differs svg_path svg_content st = true →
          writes_to svg_path st2 = S (writes_to svg_path st))
       ∧ (differs readme_path (readme_content username) st = true →
          writes_to readme_path st2 = S (writes_to readme_path st))).
Proof.
  split; [apply persist_svg_written|].
  split; [apply persist_readme_written|].
  split.
  { intros Hsvg st. rewrite (persist_svg_written _ (persist_svg _ _)).
    by rewrite persist_svg_settled, app_nil_r. }
  split.
  { intros Hreadme st.
    rewrite (persist_readme_written _ _ (persist_readme _ _ _)).
    by rewrite persist_readme_settled, app_nil_r. }
  intros Hsvg Hreadme Hne st st1 st2. subst st1 st2. unfold update_readme.
  set (a := persist_svg svg_content st).
  set (b := persist_readme username readme_path a).
  assert (differs svg_path svg_content b = false) as Hb.
  { rewrite <- (persist_svg_settled svg_content st Hsvg). apply differs_files.
    subst b. rewrite persist_readme_files.
    destruct (differs readme_path _ a); [|done].
    by rewrite lookup_insert_ne. }
  set (c := persist_svg svg_content b).
  assert (differs readme_path (readme_content username) c = false) as Hc.
  { rewrite <- (persist_readme_settled username readme_path a Hreadme).
    apply differs_files. subst c. by rewrite persist_svg_files, Hb. }
  assert (written (persist_readme username readme_path c) = written b) as Hsame.
  { rewrite persist_readme_written, Hc, app_nil_r.
    subst c. by rewrite persist_svg_written, Hb, app_nil_r. }
  assert (differs readme_path (readme_content username) a
          = differs readme_path (readme_content username) st) as Ha.
  { apply differs_files. subst a. rewrite persist_svg_files.
    destruct (differs svg_path _ st); [|done]. by rewrite lookup_insert_ne. }
  assert (written b
          = written st
            ++ (if differs svg_path svg_content st then [svg_path] else [])
            ++ (if differs readme_path (readme_content username) st
                then [readme_path] else [])) as Hlog.
  { subst b a. by rewrite persist_readme_written, persist_svg_written, Ha,
      <- app_assoc. }
  split; [done|]. split.
  - intros Hd. rewrite (writes_to_app _ st _ _ (eq_trans Hsame Hlog)), Hd.
    rewrite filter_app, length_app.
    rewrite (filter_cons_True _ svg_path []) by done.
    destruct (differs readme_path _ st); [|simpl; lia].
    rewrite (filter_cons_False _ readme_path []) by done. simpl. lia.
  - intros Hd. rewrite (writes_to_app _ st _ _ (eq_trans Hsame Hlog)), Hd.
    rewrite filter_app, length_app.
    rewrite (filter_cons_True _ readme_path []) by done.
    destruct (differs svg_path _ st); [|simpl; lia].
    rewrite (filter_cons_False _ svg_path []) by done. simpl. lia.
Qed.

End update_readme.

Section update_readme_examples.
Import Sample.

(** From an empty directory, with a markup that reads back as written: the
    first run writes both files, the second run writes nothing. *)
Lemma update_readme_idempotent_example :
  let st1 := update_readme "octocat" "README.md" "<svg></svg>" no_files in
  let st2 := update_readme "octocat" "README.md" "<svg></svg>" st1 in
  written st1 = ["github-stats.svg"; "README.md"]
  ∧ written st2 = written st1
  ∧ writes_to svg_path st2 = 1%nat
  ∧ writes_to "README.md" st2 = 1%nat.
Proof.
  destruct (update_readme_idempotent "octocat" "README.md" "<svg></svg>")
    as (_ & _ & _ & _ & Htwice).
  destruct (Htwice eq_refl eq_refl ltac:(discriminate) no_files)
    as (Hsame & Hsvg & Hreadme).
  split; [reflexivity|]. split; [exact Hsame|].
  split; [exact (Hsvg eq_refl) | exact (Hreadme eq_refl)].
Defined.

(** What was printed over the two runs. *)
Example update_readme_log :
  stdout (update_readme "octocat" "README.md" "<svg></svg>"
            (update_readme "octocat" "README.md" "<svg></svg>" no_files))
  = ["Updated github-stats.svg"; "Updated README.md";
     "SVG unchanged, skipping update"; "README unchanged"].
Proof. vm_compute. reflexivity. Qed.

(** A text with a carriage return does not read back as written, and is
    written again by the second run. *)
Example update_readme_carriage_return :
  ¬ reads_back with_cr
  ∧ written (persist_svg with_cr (persist_svg with_cr no_files))
    = ["github-stats.svg"; "github-stats.svg"].
Proof. split; [vm_compute; discriminate | vm_compute; reflexivity]. Qed.

(** C8, on a markup that holds a carriage return: the first run writes the
    graphic with that content; the second run, given the same content, finds
    the file holding it, reads it in text mode as another text, and writes
    it again, reporting an update: two writes of the same content, where the
    specification has one. *)
Theorem update_readme_rewrites_carriage_return :
  let st1 := update_readme "octocat" "README.md" with_cr no_files in
  let st2 := update_readme "octocat" "README.md" with_cr st1 in
  files st1 !! svg_path = Some with_cr
  ∧ written st1 = [svg_path; "README.md"]
  ∧ files st2 = files st1
  ∧ written st2 = [svg_path; "README.md"; svg_path]
  ∧ writes_to svg_path st2 = 2%nat
  ∧ stdout st2
    = ["Updated github-stats.svg"; "Updated README.md";
       "Updated github-stats.svg"; "README unchanged"].
Proof. repeat split; vm_compute; reflexivity. Qed.

End update_readme_examples.

Section update_readme_outcome.
Implicit Types (st : fs) (path content : string).

Lemma universal_newlines_cr s :
  universal_newlines (String "013" s)
  = String "010" (universal_newlines
                    match s with
                    | String "010" s' => s'
                    | _ => s
                    end).
Proof.
  destruct s as [|c s]; [done|].
  destruct c as [[] [] [] [] [] [] [] []]; reflexivity.
Qed.

Lemma universal_newlines_other c s :
  c ≠ "013"%char →
  universal_newlines (String c s) = String c (universal_newlines s).
Proof.
  intros Hc. destruct c as [[] [] [] [] [] [] [] []]; try reflexivity.
  by destruct Hc.
Qed.

(** Reading twice changes nothing more: what was read holds no carriage
    return. *)
Lemma universal_newlines_idemp s :
  universal_newlines (universal_newlines s) = universal_newlines s.
Proof.
  remember (String.length s) as n eqn:Hn.
  revert s Hn. induction (lt_wf n) as [n _ IH]. intros s ->.
  destruct s as [|c s]; [done|].
  destruct (decide (c = "013"%char)) as [->|Hc].
  - rewrite universal_newlines_cr.
    rewrite universal_newlines_other by done. f_equal.
    destruct s as [|c' s]; [done|].
    destruct (decide (c' = "010"%char)) as [->|Hc'].
    + eapply IH; [|reflexivity]. simpl. lia.
    + replace (match c' with
               | "010"%char => s
               | _ => String c' s
               end) with (String c' s).
      * eapply IH; [|reflexivity]. simpl. lia.
      * destruct c' as [[] [] [] [] [] [] [] []]; try reflexivity.
        by destruct Hc'.
  - rewrite !universal_newlines_other by done. f_equal.
    eapply IH; [|reflexivity]. simpl. lia.
Qed.

Lemma persist_svg_stdout svg_content st :
  stdout (persist_svg svg_content st)
  = stdout st ++ [if differs svg_path svg_content st
                  then "Updated " +:+ svg_path
                  else "SVG unchanged, skipping update"].
Proof.
  unfold persist_svg, differs.
  destruct (fs_exists svg_path st); simpl; [|done].
  by destruct (bool_decide _).
Qed.

Lemma persist_readme_stdout username readme_path st :
  stdout (persist_readme username readme_path st)
  = stdout st ++ [if differs readme_path (readme_content username) st
                  then "Updated " +:+ readme_path
                  else "README unchanged"].
Proof.
  unfold persist_readme, differs.
  destruct (fs_exists readme_path st) eqn:Hex; cbn zeta.
  - destruct (bool_decide _); simpl.
    + unfold fs_exists in *. simpl. rewrite Hex. done.
    + done.
  - simpl. done.
Qed.

(** What a file reads as once [content] was persisted to it. *)
Lemma persisted_read path content st (f : gmap string string) :
  f = (if differs path content st then <[path := content]> (files st)
       else files st) →
  is_Some (f !! path)
  ∧ universal_newlines (default "" (f !! path)) = universal_newlines content.
Proof.
  intros ->. unfold differs, fs_exists, fs_read.
  destruct (files st !! path) as [old|] eqn:Hold; simpl.
  - case_bool_decide as Heq; simpl.
    + rewrite Hold. split; [done|]. simpl.
      by rewrite <- Heq, universal_newlines_idemp.
    + by rewrite lookup_insert_eq.
  - by rewrite lookup_insert_eq.
Qed.

Lemma update_readme_reads username readme_path svg_content st :
  let st' := update_readme username readme_path svg_content st in
  fs_exists readme_path st' = true
  ∧ fs_read readme_path st' = universal_newlines (readme_content username)
  ∧ (readme_path ≠ svg_path →
     fs_exists svg_path st' = true
     ∧ fs_read svg_path st' = universal_newlines svg_content).
Proof.
  cbn zeta. unfold update_readme, fs_exists, fs_read.
  set (st1 := persist_svg svg_content st).
  destruct (persisted_read readme_path (readme_content username) st1 _
              (persist_readme_files username readme_path st1)) as [Hex Hread].
  destruct (persisted_read svg_path svg_content st _
              (persist_svg_files svg_content st)) as [Hex1 Hread1].
  fold st1 in Hex1, Hread1.
  split; [by apply bool_decide_eq_true_2|]. split; [done|].
  intros Hne.
  assert (files (persist_readme username readme_path st1) !! svg_path
          = files st1 !! svg_path) as ->.
  { rewrite persist_readme_files. destruct (differs _ _ _); [|done].
    by rewrite lookup_insert_ne. }
  split; [by apply bool_decide_eq_true_2|done].
Qed.

Lemma update_readme_frame username readme_path svg_content st path :
  path ≠ svg_path → path ≠ readme_path →
  files (update_readme username readme_path svg_content st) !! path
  = files st !! path.
Proof.
  intros Hsvg Hreadme. unfold update_readme. rewrite persist_readme_files.
  assert (files (persist_svg svg_content st) !! path = files st !! path) as <-.
  { rewrite persist_svg_files. destruct (differs _ _ _); [|done].
    by rewrite lookup_insert_ne. }
  destruct (differs _ _ _); [|done]. by rewrite lookup_insert_ne.
Qed.

(** X15: after [update_readme], the reference document exists and reads as
    its one line; the graphic, when it is another file, exists and reads as
    the new markup (as text mode reads it); every other file is as it
    was. When [readme_path] is the path of the graphic, that file ends up
    with the reference line. *)
Theorem update_readme_files username readme_path svg_content st :
  let st' := update_readme username readme_path svg_content st in
  fs_exists readme_path st' = true
  ∧ fs_read readme_path st' = universal_newlines (readme_content username)
  ∧ (readme_path ≠ svg_path →
     fs_exists svg_path st' = true
     ∧ fs_read svg_path st' = universal_newlines svg_content)
  ∧ (∀ path, path ≠ svg_path → path ≠ readme_path →
     files st' !! path = files st !! path).
Proof.
  cbn zeta.
  destruct (update_readme_reads username readme_path svg_content st)
    as (Hex & Hread & Hsvg).
  do 3 (split; [done|]). intros path. apply update_readme_frame.
Qed.

(** X16: each run of [update_readme] prints two lines, one for each file: that
    the file was updated when it was missing or read as something else, that
    it is unchanged otherwise; so a file is reported as updated exactly when
    it is written. *)
Theorem update_readme_stdout username readme_path svg_content st :
  let st1 := persist_svg svg_content st in
  let st' := update_readme username readme_path svg_content st in
  let svg_written := differs svg_path svg_content st in
  let readme_written := differs readme_path (readme_content username) st1 in
  stdout st'
  = stdout st
    ++ [if svg_written then "Updated github-stats.svg"
        else "SVG unchanged, skipping update";
        if readme_written then "Updated " +:+ readme_path
        else "README unchanged"]
  ∧ written st'
    = written st
      ++ (if svg_written then [svg_path] else [])
      ++ (if readme_written then [readme_path] else []).
Proof.
  cbn zeta. unfold update_readme.
  rewrite persist_readme_stdout, persist_svg_stdout.
  rewrite persist_readme_written, persist_svg_written.
  rewrite <- !app_assoc. split; [|done]. do 2 f_equal.
Qed.

End update_readme_outcome.

Section update_readme_outcome_examples.
Import Sample.

(** When the reference document is given the path of the graphic, the
    reference line is what the file ends up with. *)
Example update_readme_same_path :
  files (update_readme "octocat" svg_path "<svg></svg>" no_files)
  = {[ svg_path := readme_content "octocat" ]}.
Proof. vm_compute. reflexivity. Qed.

End update_readme_outcome_examples.

Section get_user_repos.
Context {A : Type}.
Variable server : Z → response (list A).

Lemma pages_cons page k :
  pages server page (S k)
  = json (server page) ++ pages server (page + 1) k.
Proof.
  unfold pages. rewrite seqZ_cons by lia. simpl. do 4 f_equal; lia.
Qed.

(** The loop turns [k] pages that are answered and not empty. *)
Lemma repos_loop_through k : ∀ fuel page repos fetched,
  (∀ q, page ≤ q < page + Z.of_nat k → turned server q) →
  repos_loop (k + fuel) server page repos fetched
  = repos_loop fuel server (page + Z.of_nat k)
      (repos ++ pages server page k) (fetched ++ seqZ page (Z.of_nat k)).
Proof.
  induction k as [|k IH]; intros fuel page repos fetched Hgood.
  - unfold pages. simpl. by rewrite Z.add_0_r, !app_nil_r.
  - destruct (Hgood page) as [Hok Hne]; [lia|].
    cbn [Nat.add repos_loop]. rewrite Hok.
    destruct (json (server page)) as [|x data] eqn:Ej; [done|].
    rewrite IH by (intros q ?; apply Hgood; lia).
    rewrite pages_cons, Ej, <- !app_assoc. f_equal; [lia|]. f_equal.
    rewrite (seqZ_cons page) by lia. simpl. do 2 f_equal; lia.
Qed.

(** X17: [get_user_repos] requests the pages from 1 on, one by one. After pages
    that are answered and not empty, the first page [p] that is empty ends
    the loop with the repositories of the pages before it, in their order;
    the first page that answers with an error status ends it with that
    exception, and the repositories collected are not returned. *)
Theorem get_user_repos_pages (fuel : nat) (p : Z) :
  1 ≤ p ≤ Z.of_nat fuel →
  (∀ q, 1 ≤ q < p → turned server q) →
  (raise_for_status (server p) = Ok () → json (server p) = [] →
     get_user_repos fuel server
     = Some (Ok (pages server 1 (Z.to_nat (p - 1))), seqZ 1 p))
  ∧ (∀ e, raise_for_status (server p) = Raised e →
     get_user_repos fuel server = Some (Raised e, seqZ 1 p)).
Proof.
  intros Hp Hgood. unfold get_user_repos.
  set (k := Z.to_nat (p - 1)).
  assert (Z.of_nat k = p - 1) as Hk by (unfold k; lia). clearbody k.
  replace fuel with (k + S (fuel - S k))%nat by lia.
  rewrite repos_loop_through by (intros q ?; apply Hgood; lia).
  replace (1 + Z.of_nat k) with p by lia.
  assert ([] ++ seqZ 1 (Z.of_nat k) ++ [p] = seqZ 1 p) as Hpages.
  { replace (seqZ 1 p) with (seqZ 1 (Z.of_nat k + 1)) by (f_equal; lia).
    rewrite seqZ_app by lia. simpl. f_equal.
    rewrite seqZ_cons by lia. simpl. f_equal. lia. }
  cbn [repos_loop]. rewrite <- app_assoc, Hpages. split.
  - by intros -> ->.
  - by intros e ->.
Qed.

Lemma repos_loop_endless fuel : ∀ page repos fetched,
  (∀ q, page ≤ q → turned server q) →
  repos_loop fuel server page repos fetched = None.
Proof.
  induction fuel as [|fuel IH]; intros page repos fetched Hgood; [done|].
  destruct (Hgood page) as [Hok Hne]; [lia|].
  cbn [repos_loop]. rewrite Hok.
  destruct (json (server page)) as [|x data]; [done|].
  apply IH. intros q ?. apply Hgood. lia.
Qed.

(** X18: the loop of [get_user_repos] has no bound on the pages: against a
    server that answers every page with repositories, no amount of fuel
    lets it return. *)
Theorem get_user_repos_endless :
  (∀ q, 1 ≤ q → turned server q) →
  ∀ fuel, get_user_repos fuel server = None.
Proof. intros Hgood fuel. by apply repos_loop_endless. Qed.

End get_user_repos.

Section get_user_repos_examples.
Import Sample Scenario.

(** Two pages of repositories and an empty third one. *)
Lemma get_user_repos_pages_example :
  get_user_repos 5 two_pages
  = Some (Ok [licensed "mit"; licensed "mit"; unlicensed], [1; 2; 3]).
Proof.
  destruct (get_user_repos_pages two_pages 5 3) as [Hend _].
  - lia.
  - intros q Hq. assert (q = 1 ∨ q = 2) as [-> | ->] by lia;
      (split; [reflexivity|discriminate]).
  - apply Hend; reflexivity.
Defined.

(** A server with a repository on every page: a thousand rounds are not
    enough. *)
Lemma get_user_repos_endless_example :
  get_user_repos 1000 endless = None.
Proof.
  apply (get_user_repos_endless endless). intros q Hq.
  split; [reflexivity|discriminate].
Defined.

End get_user_repos_examples.

Section prog.

Lemma bind_run {A B} (m : prog A) (k : A → prog B) st :
  (m ≫= k) st
  = match m st with
    | (Some (Ok a), st) => k a st
    | (Some (Raised e), st) => (Some (Raised e), st)
    | (None, st) => (None, st)
    end.
Proof. done. Qed.

Lemma bind_call {A B} (r : result A) (k : A → prog B) st :
  (call r ≫= k) st
  = match r with
    | Ok a => k a st
    | Raised e => (Some (Raised e), st)
    end.
Proof. by destruct r. Qed.

Lemma bind_call_loop {A L B} (o : option (result A * L)) (k : A → prog B) st :
  (call_loop o ≫= k) st
  = match o with
    | Some (Ok a, _) => k a st
    | Some (Raised e, _) => (Some (Raised e), st)
    | None => (None, st)
    end.
Proof. by destruct o as [[[a|e] l]|]. Qed.

Lemma bind_say {B} line (k : unit → prog B) st :
  (say line ≫= k) st = k () (print line st).
Proof. done. Qed.

End prog.

Section generate_stats.
Context `{Datetime} `{FloatFormat}.
Variables (fuel : nat) (cfg : gmap string (gmap string bool)).
Variables (username : string) (t_fetch t_render : Z) (sections : list string).

(** The outcome of the renderer does not depend on the statistics. *)
Lemma profile_section_outcome cfg' now profile stats stats' :
  outcome_kind
    (Some (generate_profile_section cfg' username now profile stats))
  = outcome_kind
      (Some (generate_profile_section cfg' username now profile stats')).
Proof.
  unfold generate_profile_section, profile_section_pieces.
  by destruct (joined profile).
Qed.

(** The state [generate_stats] leaves is the one it found, with its first
    line printed or with all four. *)
Lemma generate_stats_state (gh : github) (st : fs) :
  let run := generate_stats fuel gh cfg username t_fetch t_render sections st in
  ∃ k, run.2 = fold_left (λ st line, print line st)
                 (take k (progress_lines username)) st
       ∧ (k = 1%nat ∨ k = 4%nat)
       ∧ (outcome_kind run.1 = Some None → k = 4%nat).
Proof.
  cbn zeta. unfold generate_stats.
  rewrite bind_say, bind_call.
  destruct (get_user_profile _) as [profile|e];
    [|by exists 1%nat; repeat split; try left].
  rewrite bind_call_loop.
  destruct (get_user_repos _ _) as [[[repos|e] pages]|];
    [|by exists 1%nat; repeat split; try left..].
  rewrite bind_call_loop.
  destruct (get_user_events _ _ _) as [[[events|e] pages']|];
    [|by exists 1%nat; repeat split; try left..].
  rewrite bind_call.
  destruct (get_organizations _) as [orgs|e];
    [|by exists 1%nat; repeat split; try left].
  rewrite bind_say, bind_call.
  destruct (analyze_repos_returns (gh_releases gh) repos)
    as (repo_stats & sent & ->).
  rewrite !bind_say, bind_call.
  destruct (get_starred_count _) as [starred|e];
    [|by exists 4%nat; repeat split; try right].
  rewrite bind_call.
  destruct (get_watching_count _) as [watching|e];
    [|by exists 4%nat; repeat split; try right].
  rewrite bind_call.
  destruct (get_issues_stats _ _) as [[open_issues issue_comments]|e];
    [|by exists 4%nat; repeat split; try right].
  unfold call. by exists 4%nat; repeat split; try right.
Qed.

Lemma print_lines_state lines : ∀ st,
  let st' := fold_left (λ st line, print line st) lines st in
  files st' = files st ∧ written st' = written st
  ∧ stdout st' = stdout st ++ lines.
Proof.
  induction lines as [|line lines IH]; intros st; cbn zeta.
  - by rewrite app_nil_r.
  - cbn [fold_left]. destruct (IH (print line st)) as (-> & -> & ->).
    simpl. by rewrite <- app_assoc.
Qed.

(** X19: [generate_stats] writes no file. It prints its first line and then,
    when the profile, the repositories, the events and the organizations
    were fetched, its three other lines together: the analysis between them
    never fails. *)
Theorem generate_stats_progress (gh : github) (st : fs) :
  let run := generate_stats fuel gh cfg username t_fetch t_render sections st in
  files run.2 = files st
  ∧ written run.2 = written st
  ∧ (stdout run.2 = stdout st ++ take 1 (progress_lines username)
     ∨ stdout run.2 = stdout st ++ progress_lines username)
  ∧ (outcome_kind run.1 = Some None →
     stdout run.2 = stdout st ++ progress_lines username).
Proof.
  cbn zeta. destruct (generate_stats_state gh st) as (k & -> & Hk & Hok).
  destruct (print_lines_state (take k (progress_lines username)) st)
    as (-> & -> & ->).
  do 2 (split; [done|]). split.
  - destruct Hk as [-> | ->]; [by left|by right].
  - by intros ->%Hok.
Qed.

(** X20: what the probes of the releases meet changes neither whether
    [generate_stats] succeeds, nor the exception it raises, nor what it
    prints: only the number of releases in the markup depends on them. *)
Theorem generate_stats_releases (gh : github) (srv : probe_server) (st : fs) :
  let run := generate_stats fuel gh cfg username t_fetch t_render sections st in
  let run' :=
    generate_stats fuel (with_releases gh srv) cfg username t_fetch t_render
      sections st in
  outcome_kind run'.1 = outcome_kind run.1 ∧ run'.2 = run.2.
Proof.
  cbn zeta. unfold generate_stats. cbn [with_releases gh_profile gh_repos
    gh_events gh_orgs gh_starred gh_subscriptions gh_search_issues gh_releases].
  rewrite !bind_say, !bind_call.
  destruct (get_user_profile _) as [profile|e]; [|done].
  rewrite !bind_call_loop.
  destruct (get_user_repos _ _) as [[[repos|e] pages]|]; [|done..].
  rewrite !bind_call_loop.
  destruct (get_user_events _ _ _) as [[[events|e] pages']|]; [|done..].
  rewrite !bind_call.
  destruct (get_organizations _) as [orgs|e]; [|done].
  rewrite !bind_say, !bind_call.
  destruct (analyze_repos_returns (gh_releases gh) repos)
    as (repo_stats & sent & ->).
  destruct (analyze_repos_returns srv repos) as (repo_stats' & sent' & ->).
  rewrite !bind_say, !bind_call.
  destruct (get_starred_count _) as [starred|e]; [|done].
  rewrite !bind_call.
  destruct (get_watching_count _) as [watching|e]; [|done].
  rewrite !bind_call.
  destruct (get_issues_stats _ _) as [[open_issues issue_comments]|e]; [|done].
  unfold call. cbn [fst snd]. split; [|done].
  apply profile_section_outcome.
Qed.

End generate_stats.

Section assemble_stats.
Context {A : Type}.

(** X21: the summary line of the statistics counts every event that was
    fetched, of whatever type: with no event it is the fixed line, otherwise
    it starts with the number of events. *)
Theorem assemble_stats_summary (repo_stats : repo_stats) (events : list event)
    (orgs : list A) (starred watching open_issues issue_comments : Z) :
  let stats := assemble_stats repo_stats (analyze_events events) orgs starred
                 watching open_issues issue_comments in
  (events = [] → s_summary stats = "No contributions in the last 7 days")
  ∧ (events ≠ [] →
     str_prefix (str_int (Z.of_nat (length events)) +:+ " contributions - ")
       (s_summary stats) = true).
Proof.
  cbn zeta. cbn [assemble_stats s_summary analyze_events daily_contributions].
  unfold generate_contribution_summary.
  rewrite fold_bump_sum, sum_values_empty, Z.add_0_l. split.
  - by intros ->.
  - intros Hne. destruct events as [|e events]; [done|].
    set (n := Z.of_nat (length (e :: events))).
    destruct (Z.eqb_spec n 0) as [Hz|_]; [by simpl in *; lia|].
    assert (∀ rest, str_prefix (str_int n +:+ " contributions - ")
                      (str_int n +:+ " contributions - " +:+ rest) = true)
      as Hpre.
    { intros rest. rewrite <- str_app_assoc. apply str_prefix_app. }
    destruct (n <=? 5); [apply Hpre|]. destruct (n <=? 15); apply Hpre.
Qed.

End assemble_stats.

Section load_config.
Context `{ConfigFormat}.

Lemma cfg_get_default (section key : string) :
  cfg_get default_config section key = true.
Proof.
  assert (map_Forall (λ _ m, map_Forall (λ _ (b : bool), b = true) m)
            default_config) as Hall.
  { apply (bool_decide_unpack _). vm_compute. exact I. }
  unfold cfg_get.
  destruct (default_config !! section) as [m|] eqn:Hm; simpl; [|done].
  destruct (m !! key) as [b|] eqn:Hb; simpl; [|done].
  exact (Hall section m Hm key b Hb).
Qed.

(** X22: where there is no configuration file, the configuration is the
    built-in one, and nothing is read; the built-in configuration sets every
    switch, so that every part of the markup is let through. *)
Theorem load_config_default :
  (∀ config_path st,
     fs_exists config_path st = false →
     load_config config_path st = (Some (Ok default_config), st))
  ∧ (∀ section key, cfg_get default_config section key = true)
  ∧ let_through default_config all_parts = all_parts.
Proof.
  split; [|split].
  - intros config_path st Hex. unfold load_config. by rewrite Hex.
  - apply cfg_get_default.
  - vm_compute. reflexivity.
Qed.

End load_config.

Section main.
Context `{Datetime} `{FloatFormat} `{ConfigFormat}.
Variables (fuel : nat) (environ : gmap string string) (api : string → github).
Variables (t_fetch t_render : Z).

(** Making the generator leaves the files and the terminal as they were. *)
Lemma new_generator_state gh config_path st :
  (new_generator gh config_path st).2 = st.
Proof.
  unfold new_generator. rewrite bind_call.
  destruct (get_authenticated_user _) as [username|e]; [|done].
  unfold mbind, prog_bind, load_config.
  destruct (fs_exists config_path st); [|done].
  by destruct (json_load _).
Qed.

Lemma new_generator_username gh config_path st username config :
  (new_generator gh config_path st).1 = Some (Ok (username, config)) →
  get_authenticated_user (gh_user gh) = Ok username.
Proof.
  unfold new_generator. rewrite bind_call.
  destruct (get_authenticated_user _) as [username'|e]; [|done].
  unfold mbind, prog_bind, load_config.
  destruct (fs_exists config_path st); [|by intros [= ->]].
  destruct (json_load _); [|done]. by intros [= ->].
Qed.

Lemma new_generator_config gh config_path st username config :
  (new_generator gh config_path st).1 = Some (Ok (username, config)) →
  load_config config_path st = (Some (Ok config), st).
Proof.
  unfold new_generator. rewrite bind_call.
  destruct (get_authenticated_user _) as [username'|e]; [|done].
  unfold mbind, prog_bind, load_config.
  destruct (fs_exists config_path st); [|by intros [= _ ->]].
  destruct (json_load _); [|done]. by intros [= _ ->].
Qed.

(** X23: without a token in the environment, or with an empty one, [main]
    raises [ValueError] at once: it prints nothing and writes nothing. *)
Theorem main_requires_token (st : fs) :
  environ !! "GITHUB_TOKEN" = None ∨ environ !! "GITHUB_TOKEN" = Some "" →
  main fuel environ api t_fetch t_render st = (Some (Raised ValueError), st).
Proof. unfold main. by intros [->| ->]. Qed.

(** X24: [main] writes nothing before it calls [update_readme], and calls it
    only with the markup in hand: when a run of [main] has changed a file,
    the token was there, the generator was made and [generate_stats]
    returned the markup, all of it with the files still as they were. So a
    failure to fetch or to render leaves the files untouched. *)
Theorem main_writes_after_rendering (st : fs) :
  let run := main fuel environ api t_fetch t_render st in
  files run.2 ≠ files st ∨ written run.2 ≠ written st →
  ∃ token username config svg_content st1,
    environ !! "GITHUB_TOKEN" = Some token ∧ token ≠ ""
    ∧ new_generator (api token) "config.json" st
      = (Some (Ok (username, config)), st)
    ∧ generate_stats fuel (api token) config username t_fetch t_render
        (str_split "," (default "profile" (environ !! "SECTIONS"))) st
      = (Some (Ok svg_content), st1)
    ∧ files st1 = files st ∧ written st1 = written st.
Proof.
  cbn zeta. unfold main.
  destruct (environ !! "GITHUB_TOKEN") as [[|c token]|];
    [by intros [?|?]| |by intros [?|?]].
  set (tok := String c token). rewrite bind_run.
  pose proof (new_generator_state (api tok) "config.json" st) as Hst.
  destruct (new_generator (api tok) "config.json" st)
    as [[[[username config]|e]|] st0] eqn:Hnew; simpl in Hst; subst st0;
    [|by intros [?|?]..].
  rewrite bind_run.
  destruct (generate_stats_state fuel config username t_fetch t_render
              (str_split "," (default "profile" (environ !! "SECTIONS")))
              (api tok) st) as (k & Hst & _).
  destruct (print_lines_state (take k (progress_lines username)) st)
    as (Hfiles & Hwritten & _).
  destruct (generate_stats _ _ _ _ _ _ _ _) as [[[svg|e]|] st1] eqn:Hgen;
    simpl in Hst; subst st1.
  - intros _. eexists tok, username, config, svg, _.
    split; [done|]. split; [done|]. split; [exact Hnew|].
    split; [exact Hgen|]. by split.
  - simpl. intros [?|?]; done.
  - simpl. intros [?|?]; done.
Qed.

(** X25: when [main] comes to its end, the token was there, the reference
    document reads as the one line made for the login that the server gave
    for the token, and the graphic reads as the markup that
    [generate_stats] returned for that login under the configuration that
    was loaded; no other file was touched. *)
Theorem main_success (st st' : fs) :
  main fuel environ api t_fetch t_render st = (Some (Ok ()), st') →
  ∃ token username config svg_content st1,
    environ !! "GITHUB_TOKEN" = Some token ∧ token ≠ ""
    ∧ get_authenticated_user (gh_user (api token)) = Ok username
    ∧ load_config "config.json" st = (Some (Ok config), st)
    ∧ generate_stats fuel (api token) config username t_fetch t_render
        (str_split "," (default "profile" (environ !! "SECTIONS"))) st
      = (Some (Ok svg_content), st1)
    ∧ fs_read "README.md" st'
      = universal_newlines (readme_content username)
    ∧ fs_read svg_path st' = universal_newlines svg_content
    ∧ ∀ path, path ≠ svg_path → path ≠ "README.md" →
        files st' !! path = files st !! path.
Proof.
  unfold main.
  destruct (environ !! "GITHUB_TOKEN") as [[|c token]|]; [done| |done].
  set (tok := String c token). rewrite bind_run.
  pose proof (new_generator_state (api tok) "config.json" st) as Hst.
  pose proof (new_generator_username (api tok) "config.json" st) as Huser.
  pose proof (new_generator_config (api tok) "config.json" st) as Hconfig.
  destruct (new_generator (api tok) "config.json" st)
    as [[[[username config]|e]|] st0]; simpl in Hst; subst st0; [|done..].
  rewrite bind_run.
  destruct (generate_stats_state fuel config username t_fetch t_render
              (str_split "," (default "profile" (environ !! "SECTIONS")))
              (api tok) st) as (k & Hst & _).
  destruct (print_lines_state (take k (progress_lines username)) st)
    as (Hfiles & _).
  destruct (generate_stats _ _ _ _ _ _ _ _) as [[[svg|e]|] st1] eqn:Hgen;
    [|done..].
  unfold act. intros [= <-]. simpl in Hst. rewrite <- Hst in Hfiles.
  exists tok, username, config, svg, st1.
  destruct (update_readme_reads username "README.md" svg st1)
    as (_ & Hreadme & Hsvg).
  split; [done|]. split; [done|]. split; [by apply (Huser username config)|].
  split; [by apply (Hconfig username config)|].
  split; [done|]. split; [done|]. split; [by apply Hsvg|].
  intros path ? ?. rewrite update_readme_frame by done. by rewrite Hfiles.
Qed.

End main.

Section main_examples.
Import Sample Scenario.

(** Without a token nothing happens. *)
Lemma main_requires_token_example :
  run_main ∅ hub = (Some (Raised ValueError), no_files).
Proof.
  apply (main_requires_token (H := Civil.datetime) (H0 := Float.float_format)
           (H1 := no_json)).
  left. reflexivity.
Defined.

(** The sample run wrote both files: it had fetched and rendered
    everything before. *)
Lemma main_writes_after_rendering_example :
  ∃ token username config svg_content st1,
    environ !! "GITHUB_TOKEN" = Some token ∧ token ≠ ""
    ∧ new_generator (H := no_json) hub "config.json" no_files
      = (Some (Ok (username, config)), no_files)
    ∧ generate_stats (H := Civil.datetime) (H0 := Float.float_format) 5 hub
        config username day0 day0
        (str_split "," (default "profile" (environ !! "SECTIONS"))) no_files
      = (Some (Ok svg_content), st1)
    ∧ files st1 = files no_files ∧ written st1 = written no_files.
Proof.
  apply (main_writes_after_rendering (H := Civil.datetime)
           (H0 := Float.float_format) (H1 := no_json) 5 environ (λ _, hub)
           day0 day0 no_files).
  right. vm_compute. discriminate.
Defined.

(** The profile endpoint out of service: [main] raises after its first
    line, and no file is written. *)
Example main_failure :
  (run_main environ hub_down).1 = Some (Raised (HTTPError 503))
  ∧ stdout (run_main environ hub_down).2 = ["Fetching stats for octocat..."]
  ∧ written (run_main environ hub_down).2 = [].
Proof. repeat split; vm_compute; reflexivity. Qed.

(** A run that comes to its end: both files are written, the reference
    document for the login of the token's user. *)
Lemma main_success_example :
  fs_read "README.md" (run_main environ hub).2
  = universal_newlines (readme_content "octocat")
  ∧ ∃ svg_content, fs_read svg_path (run_main environ hub).2
                   = universal_newlines svg_content.
Proof.
  destruct (main_success (H := Civil.datetime) (H0 := Float.float_format)
              (H1 := no_json) 5 environ (λ _, hub) day0 day0 no_files
              (run_main environ hub).2)
    as (token & username & config & svg_content & st1 & Htoken & _ & Huser
        & _ & _ & Hreadme & Hsvg & _).
  - vm_compute. reflexivity.
  - vm_compute in Huser. injection Huser as <-.
    split; [exact Hreadme|]. by exists svg_content.
Defined.

Example main_run :
  (run_main environ hub).1 = Some (Ok ())
  ∧ written (run_main environ hub).2 = ["github-stats.svg"; "README.md"]
  ∧ stdout (run_main environ hub).2
    = ["Fetching stats for octocat..."; "Analyzing repositories...";
       "Analyzing activity..."; "Fetching community stats...";
       "Updated github-stats.svg"; "Updated README.md"]
  ∧ forallb (λ needle,
       str_contains needle (fs_read svg_path (run_main environ hub).2))
      ["Commits (7d): 2"; "Starred: 5"; "Issues Open: 3"; "License: mit";
       "Releases: 3"; "Stargazers: 2"; "Disk: 4.00 MB";
       "2 contributions - Light activity this week"]
    = true.
Proof. repeat split; vm_compute; reflexivity. Qed.

(** Two runs in a row against the same server: the second writes nothing,
    unless the markup holds a carriage return, here in the name of the
    profile: then the graphic is written again. *)
Example main_twice :
  written (run_main_twice environ hub).2 = ["github-stats.svg"; "README.md"]
  ∧ written (run_main_twice environ hub_cr).2
    = ["github-stats.svg"; "README.md"; "github-stats.svg"].
Proof. split; vm_compute; reflexivity. Qed.

End main_examples.
